(** * Affiliate-hijacker: funnel composition, flow graph, export and fallbacks

    A shallow embedding of the Python sources [ai_engine.py],
    [funnel_generator.py] and [email_generator.py], of [scrape_url] of
    [scraper.py] and of the form dictionary of [app.py], each function
    under its own name.

    Python values are restricted to the JSON-shaped fragment the program
    manipulates (None, booleans, integers, strings, lists, string-keyed
    dictionaries in insertion order).  Non-integer numbers are left out: no
    modelled operation inspects one.  A string is a sequence of characters,
    one per code point.  Functions whose [try]/[except] can let
    an exception escape return a [res]; total ones return a plain value.
    Calls to [logger] only write diagnostics; they are modelled for
    [generate_upsell], where the records written are part of what is
    stated, and left out elsewhere. *)

From Stdlib Require Import String Ascii List ZArith Bool Lia DecimalString.
From Stdlib Require Import Relations.
From Stdlib Require DecimalZ DecimalPos.
Import ListNotations.
Open Scope string_scope.
Open Scope Z_scope.

(** ** Python values and exceptions *)

#[warnings="-register-all"]
Inductive value : Type :=
| VNone
| VBool (b : bool)
| VInt (z : Z)
| VStr (s : string)
| VList (l : list value)
| VDict (d : list (string * value)).

Inductive exn_class : Type :=
| AttributeError | TypeError | ValueError | KeyError | IndexError
| UnboundLocalError | JSONDecodeError | TemplateError | ServiceError.

(** An exception: its class and [str(e)]. *)
Record exn : Type := Exn { exn_cls : exn_class; exn_str : string }.

Inductive res (A : Type) : Type :=
| Ok (a : A)
| Raise (e : exn).
Arguments Ok {A} a.
Arguments Raise {A} e.

Definition bind {A B : Type} (m : res A) (k : A -> res B) : res B :=
  match m with
  | Ok a => k a
  | Raise e => Raise e
  end.

Notation "x <- m ;; k" := (bind m (fun x => k))
  (at level 61, m at next level, right associativity).

Definition is_ok {A : Type} (m : res A) : bool :=
  match m with Ok _ => true | Raise _ => false end.

(** [for ... in] with a body that may raise: the elements are visited in
    order and the first exception stops the loop. *)
Fixpoint mapM {A B : Type} (f : A -> res B) (l : list A) : res (list B) :=
  match l with
  | [] => Ok []
  | a :: l' => b <- f a ;; bs <- mapM f l' ;; Ok (b :: bs)
  end.

(** [enumerate(l)], counting from [i]. *)
Fixpoint enumerate_from {A : Type} (i : nat) (l : list A) : list (nat * A) :=
  match l with
  | [] => []
  | a :: l' => (i, a) :: enumerate_from (S i) l'
  end.

Definition enumerate {A : Type} (l : list A) : list (nat * A) :=
  enumerate_from 0 l.

Definition nl : string := String (ascii_of_nat 10) EmptyString.
Definition dq : string := String (ascii_of_nat 34) EmptyString.

(** [str(n)] for an integer. *)
Definition str_of_Z (z : Z) : string := NilZero.string_of_int (Z.to_int z).
Definition str_of_nat (n : nat) : string := str_of_Z (Z.of_nat n).

Definition type_name (v : value) : string :=
  match v with
  | VNone => "NoneType"
  | VBool _ => "bool"
  | VInt _ => "int"
  | VStr _ => "str"
  | VList _ => "list"
  | VDict _ => "dict"
  end.

Definition is_dict (v : value) : bool :=
  match v with VDict _ => true | _ => false end.

(** Truth value of an object, as [if x:] and [not x] test it. *)
Definition truthy (v : value) : bool :=
  match v with
  | VNone => false
  | VBool b => b
  | VInt z => negb (z =? 0)
  | VStr s => negb (s =? "")%string
  | VList l => match l with [] => false | _ => true end
  | VDict d => match d with [] => false | _ => true end
  end.

Fixpoint assoc (k : string) (d : list (string * value)) : option value :=
  match d with
  | [] => None
  | (k', v) :: d' => if (k' =? k)%string then Some v else assoc k d'
  end.

Definition no_attribute (v : value) (attr : string) : exn :=
  Exn AttributeError
      ("'" ++ type_name v ++ "' object has no attribute '" ++ attr ++ "'").

(** [o.get(k, default)]: only a dictionary has the method. *)
Definition dict_get (o : value) (k : string) (default : value) : res value :=
  match o with
  | VDict d => Ok (match assoc k d with Some v => v | None => default end)
  | _ => Raise (no_attribute o "get")
  end.

(** [d[k] = v] on a dictionary: an existing key keeps its place. *)
Fixpoint dict_set (k : string) (v : value) (d : list (string * value))
  : list (string * value) :=
  match d with
  | [] => [(k, v)]
  | (k', v') :: d' =>
      if (k' =? k)%string then (k, v) :: d' else (k', v') :: dict_set k v d'
  end.

Definition has_key (k : string) (o : value) : bool :=
  match o with
  | VDict d => match assoc k d with Some _ => true | None => false end
  | _ => false
  end.

Definition field (k : string) (o : value) : option value :=
  match o with
  | VDict d => assoc k d
  | _ => None
  end.

Fixpoint chars (s : string) : list value :=
  match s with
  | EmptyString => []
  | String c s' => VStr (String c EmptyString) :: chars s'
  end.

(** Iteration over an object (what [for], [enumerate] and [list] see): the
    items of a list, the characters of a string, the keys of a dictionary. *)
Definition py_iter (v : value) : res (list value) :=
  match v with
  | VList l => Ok l
  | VStr s => Ok (chars s)
  | VDict d => Ok (map (fun kv => VStr (fst kv)) d)
  | _ => Raise (Exn TypeError ("'" ++ type_name v ++ "' object is not iterable"))
  end.

Definition py_len (v : value) : res nat :=
  match v with
  | VList l => Ok (List.length l)
  | VStr s => Ok (String.length s)
  | VDict d => Ok (List.length d)
  | _ => Raise (Exn TypeError
                    ("object of type '" ++ type_name v ++ "' has no len()"))
  end.

(** An optional dictionary argument: [None] stands for [{}]. *)
Definition or_empty (o : value) : value :=
  match o with
  | VNone => VDict []
  | _ => o
  end.

(** [x[i]] for a literal index [i]. *)
Definition index (x : value) (i : nat) : res value :=
  match x with
  | VList l =>
      match nth_error l i with
      | Some v => Ok v
      | None => Raise (Exn IndexError "list index out of range")
      end
  | VStr s =>
      match nth_error (chars s) i with
      | Some c => Ok c
      | None => Raise (Exn IndexError "string index out of range")
      end
  | VDict _ => Raise (Exn KeyError (str_of_nat i))
  | _ => Raise (Exn TypeError
                  ("'" ++ type_name x ++ "' object is not subscriptable"))
  end.

(** ** The environment

    What the program reaches outside its own text: renderings done by the
    Python runtime and standard library, the template directory, the
    text-generation service and the clock. *)

(** Outcome of the one request to the text-generation service followed by
    [json.loads] of the returned text. *)
Inductive reply : Type :=
| CallFault (e : exn)          (* the request itself raised *)
| Content (parsed : res value) (* text came back; [json.loads] of it *).

Record Env : Type := {
  (* [str(x)] of a list or a dictionary *)
  py_repr : value -> string;
  (* [s.lower()] and [s.title()] *)
  str_lower : string -> string;
  str_title : string -> string;
  (* [json.dumps(x)] *)
  json_dumps : value -> string;
  (* [urlparse(url).netloc] *)
  urlparse_netloc : string -> res string;
  (* [jinja_env.get_template(name).render(page=data)] *)
  render_template : string -> value -> res string;
  (* [openai.chat.completions.create] with the system and user prompts:
     the answer this run gets.  The service samples its text
     (temperature 0.7), so an environment stands for one call; two calls
     are two environments, whose answers need not agree. *)
  chat : string -> string -> reply;
  (* [datetime.now().strftime("%Y-%m-%d %H:%M")] *)
  now_stamp : string;
  (* the directory [static/exports] next to the module *)
  exports_dir : string
}.

(** [str(x)], which is also how an f-string renders a field. *)
Definition py_str (E : Env) (v : value) : string :=
  match v with
  | VNone => "None"
  | VBool true => "True"
  | VBool false => "False"
  | VInt z => str_of_Z z
  | VStr s => s
  | VList _ | VDict _ => py_repr E v
  end.

(** ** ai_engine.py *)

Definition strs (l : list string) : value := VList (map VStr l).

(** [analyze_page(page_data, url)] (lines 19-111). *)
Definition analysis_fallback (url : string) (e : exn) : value :=
  VDict [
    ("url", VStr url);
    ("error", VStr (exn_str e));
    ("product_type", VStr "Unknown");
    ("main_hook", VStr "Could not analyze");
    ("target_audience", VStr "Unknown");
    ("key_benefits", VList []);
    ("pain_points", VList []);
    ("unique_selling_points", VList []);
    ("pricing_strategy", VStr "Unknown");
    ("cta_strategy", VStr "Unknown");
    ("persuasion_techniques", VList []);
    ("structure_analysis", VStr "Failed to analyze");
    ("content_tone", VStr "Unknown");
    ("suggested_improvements", VList [])
  ].

Definition analysis_sample (url : string) (title : value) (domain : string)
  : value :=
  VDict [
    ("url", VStr url);
    ("title", title);
    ("product_type", VStr "Digital Course & Membership");
    ("main_hook",
      VStr ("Transform your results with this premium solution from " ++ domain));
    ("target_audience",
      VStr "Professionals and businesses looking to improve efficiency and results");
    ("key_benefits", strs [
      "Save time and increase productivity";
      "Improve results with proven systems";
      "Access exclusive resources and community";
      "Learn from industry experts";
      "Implement strategies that actually work";
      "Get personal support and guidance";
      "Stay ahead of competitors";
      "Reduce costs and increase ROI";
      "Scale your operations efficiently";
      "Eliminate common frustrations and bottlenecks" ]);
    ("pain_points", strs [
      "Lack of time to implement complex solutions";
      "Frustration with inconsistent results";
      "Overwhelmed by too many options and information";
      "Previous solutions that promised but didn't deliver";
      "High costs with minimal returns" ]);
    ("unique_selling_points", strs [
      "Proprietary system developed by industry leaders";
      "Comprehensive solution with ongoing support";
      "Proven results with case studies and testimonials";
      "Exclusive community access for networking";
      "Step-by-step implementation guidance" ]);
    ("pricing_strategy", VStr "Tiered pricing with limited-time discounts to create urgency. Multiple package options with increasing value. One-time payment structure with bonus offers.");
    ("cta_strategy", VStr "Strong, direct calls-to-action with urgency elements. Multiple CTAs throughout the page. Form submissions to capture leads.");
    ("persuasion_techniques", strs [
      "Social proof through testimonials";
      "Scarcity with limited-time offers";
      "Authority positioning with expert credentials";
      "Risk reversal with guarantees";
      "Reciprocity through bonus offerings";
      "FOMO (Fear of Missing Out)" ]);
    ("structure_analysis", VStr "Classic sales page with a strong headline, problem-agitation-solution format, feature/benefit sections, social proof, pricing options, and multiple CTAs.");
    ("content_tone", VStr "Professional yet conversational. Authoritative while remaining accessible. High-energy with emphasis on transformation and results.");
    ("suggested_improvements", strs [
      "Add more specific case studies with measurable results";
      "Include video testimonials for increased credibility";
      "Create more personalized sections for different audience segments";
      "Strengthen the guarantee to reduce perceived risk";
      "Add an FAQ section to address common objections";
      "Improve mobile responsiveness for better conversion";
      "Add exit-intent popups to capture leaving visitors";
      "Include more precise benefit quantification" ])
  ].

(** The [try] block: lines 34-91. *)
Definition analyze_page_try (E : Env) (page_data : value) (url : string)
  : res value :=
  domain <- urlparse_netloc E url ;;
  title <- dict_get page_data "title" (VStr ("Sales Page for " ++ domain)) ;;
  Ok (analysis_sample url title domain).

Definition analyze_page (E : Env) (page_data : value) (url : string) : value :=
  match analyze_page_try E page_data url with
  | Ok analysis => analysis
  | Raise e => analysis_fallback url e
  end.

(** [s.lower()]: only a string has the method. *)
Definition lower (E : Env) (v : value) : res string :=
  match v with
  | VStr s => Ok (str_lower E s)
  | _ => Raise (no_attribute v "lower")
  end.

(** The record of lines 143-236, given its rendered fields. *)
Definition copy_sample (brand ptype hook audience ptype_lower audience_lower
  pain0 pain1 angle : string) : value :=
  VDict [
    ("headline",
      VStr ("Introducing "
            ++ brand
            ++ ": The Revolutionary "
            ++ ptype
            ++ " That Transforms Results In Just Days"));
    ("subheadline",
      VStr ("Join Thousands Who Have Already Discovered The System That "
            ++ hook
            ++ " Without The Usual Stress Or Complexity"));
    ("intro",
      VStr ("You're about to discover a breakthrough approach to "
            ++ ptype_lower
            ++ " that's helping professionals and businesses achieve exceptional results. "
            ++ brand
            ++ " isn't just another solution - it's a complete transformation system designed specifically for "
            ++ audience
            ++ "."));
    ("problem_statement",
      VStr ("If you're like most "
            ++ audience_lower
            ++ ", you've probably struggled with "
            ++ pain0
            ++ ", felt frustrated by "
            ++ pain1
            ++ ", and wasted time on solutions that promised everything but delivered little."));
    ("solution_intro",
      VStr ("That's why we created "
            ++ brand
            ++ ". "
            ++ angle
            ++ " This complete system gives you everything you need to overcome these challenges and achieve the results you've been looking for."));
    ("benefits",
      VList [
        VDict [
          ("title",
            VStr "Save Time & Boost Productivity");
          ("description",
            VStr "Our streamlined system eliminates wasted effort and focuses on what actually works, saving you hours every week.") ];
        VDict [
          ("title",
            VStr "Proven Results System");
          ("description",
            VStr "Follow our step-by-step approach that has been tested and refined with thousands of successful clients.") ];
        VDict [
          ("title",
            VStr "Expert Community Access");
          ("description",
            VStr "Connect with industry leaders and peers who can provide valuable insights and support.") ];
        VDict [
          ("title",
            VStr "Personalized Implementation");
          ("description",
            VStr "Customize the approach to your specific situation with our flexible framework.") ];
        VDict [
          ("title",
            VStr "Ongoing Support & Updates");
          ("description",
            VStr "You will never be left behind as the industry evolves - we are constantly updating our resources.") ] ]);
    ("features",
      VList [
        VDict [
          ("title",
            VStr "Comprehensive Resource Library");
          ("description",
            VStr "Access over 50+ templates, guides, and tools to implement the system.") ];
        VDict [
          ("title",
            VStr "Step-by-Step Implementation Plan");
          ("description",
            VStr "Follow our proven 12-week roadmap to transform your results.") ];
        VDict [
          ("title",
            VStr "Expert Masterclass Series");
          ("description",
            VStr "Learn advanced strategies through 10 in-depth video training modules.") ];
        VDict [
          ("title",
            VStr "Members-Only Community");
          ("description",
            VStr "Connect with peers and mentors in our active online community.") ];
        VDict [
          ("title",
            VStr "Monthly Live Q&A Sessions");
          ("description",
            VStr "Get your specific questions answered by our team of experts.") ] ]);
    ("social_proof",
      VList [
        VDict [
          ("name",
            VStr "Michael T.");
          ("position",
            VStr "CEO");
          ("text",
            VStr ("I was skeptical about trying another "
                  ++ ptype_lower
                  ++ ", but "
                  ++ brand
                  ++ " completely exceeded my expectations. Within just 3 weeks, we saw a 43% improvement in our key metrics. The ROI has been incredible.")) ];
        VDict [
          ("name",
            VStr "Sarah J.");
          ("position",
            VStr "Marketing Director");
          ("text",
            VStr ("What I love about "
                  ++ brand
                  ++ " is how practical everything is. No fluff, just actionable strategies that work. We have implemented the system across our entire department with fantastic results.")) ];
        VDict [
          ("name",
            VStr "David K.");
          ("position",
            VStr "Small Business Owner");
          ("text",
            VStr ("As someone who has tried every solution on the market, I can confidently say "
                  ++ brand
                  ++ " is in a league of its own. The support alone is worth the investment, but the results we have achieved make it priceless.")) ] ]);
    ("pricing_section",
      VStr ("Investment In Your Success

The complete "
            ++ brand
            ++ " system is available for just $497 - a fraction of the value you'll receive and the results you'll achieve. This one-time investment gives you lifetime access to the entire system with no recurring fees or hidden costs.

When you consider that most clients report ROI within the first 30 days, this becomes an easy decision for serious professionals."));
    ("guarantee",
      VStr ("Our 100% Risk-Free Guarantee

We are so confident in the power of "
            ++ brand
            ++ " that we offer a complete 30-day money-back guarantee. Try the entire system, implement the strategies, and if you do not see meaningful results, simply let us know and we will refund your entire investment - no questions asked."));
    ("faq",
      VList [
        VDict [
          ("question",
            VStr ("How is "
                  ++ brand
                  ++ " different from other solutions?"));
          ("answer",
            VStr (brand
                  ++ " stands apart through its comprehensive approach that combines proven strategies, ongoing support, and a focus on practical implementation. Unlike most programs that deliver information without guidance, we provide a complete system for success.")) ];
        VDict [
          ("question",
            VStr "How quickly will I see results?");
          ("answer",
            VStr "Most clients begin seeing initial results within the first 2-3 weeks of implementation. However, the most significant improvements typically come after 6-8 weeks of consistent application.") ];
        VDict [
          ("question",
            VStr "Do I need technical skills to implement this?");
          ("answer",
            VStr "No technical expertise is required. We have designed the system to be accessible for everyone, with clear step-by-step guidance and support available if you have questions.") ];
        VDict [
          ("question",
            VStr "Is there ongoing support?");
          ("answer",
            VStr "Yes! Your purchase includes lifetime access to our support team and community. We are committed to your long-term success.") ];
        VDict [
          ("question",
            VStr "What if this does not work for my specific situation?");
          ("answer",
            VStr "Our system is highly adaptable to various scenarios. However, if you find it is not a good fit, our 30-day guarantee ensures you can get a full refund.") ] ]);
    ("cta_primary",
      VStr ("Yes! I Want Access To "
            ++ brand
            ++ " Now"));
    ("cta_secondary",
      VStr "Learn More About Our Process") ].

(** The record of the handler (lines 240-255). *)
Definition copy_fallback (e : exn) : value :=
  VDict [
    ("error", VStr (exn_str e));
    ("headline", VStr "Could not generate headline");
    ("subheadline", VStr "Could not generate subheadline");
    ("intro", VStr "Could not generate intro");
    ("problem_statement", VStr "Could not generate problem statement");
    ("solution_intro", VStr "Could not generate solution intro");
    ("benefits", VList []);
    ("features", VList []);
    ("social_proof", VList []);
    ("pricing_section", VStr "");
    ("guarantee", VStr "");
    ("faq", VList []);
    ("cta_primary", VStr "Buy Now");
    ("cta_secondary", VStr "Learn More")
  ].

(** [pain_points[0].lower() if pain_points else 'common industry challenges']
    and its companion for the second pain point (line 147). *)
Definition first_pain (E : Env) (pain_points : value) : res string :=
  if truthy pain_points
  then p <- index pain_points 0 ;; lower E p
  else Ok "common industry challenges".

Definition second_pain (E : Env) (pain_points : value) : res string :=
  n <- py_len pain_points ;;
  if (1 <? n)%nat
  then p <- index pain_points 1 ;; lower E p
  else Ok "inconsistent results".

(** The [try] block of [generate_copy]: lines 130-236. *)
Definition generate_copy_try (E : Env) (analysis customizations : value)
  : res value :=
  product_type <- dict_get analysis "product_type" (VStr "product") ;;
  main_hook <- dict_get analysis "main_hook" (VStr "") ;;
  analysed_audience <- dict_get analysis "target_audience" (VStr "") ;;
  target_audience <- dict_get customizations "target_audience"
                       analysed_audience ;;
  key_benefits <- dict_get analysis "key_benefits" (VList []) ;;
  pain_points <- dict_get analysis "pain_points" (VList []) ;;
  unique_selling_points <- dict_get analysis "unique_selling_points"
                             (VList []) ;;
  brand_name <- dict_get customizations "brand_name" (VStr "Our Product") ;;
  unique_angle <- dict_get customizations "unique_angle" (VStr "") ;;
  ptype_lower <- lower E product_type ;;
  audience_lower <- lower E target_audience ;;
  pain0 <- first_pain E pain_points ;;
  pain1 <- second_pain E pain_points ;;
  Ok (copy_sample (py_str E brand_name) (py_str E product_type)
        (py_str E main_hook) (py_str E target_audience)
        ptype_lower audience_lower pain0 pain1 (py_str E unique_angle)).

(** [generate_copy(analysis, customizations=None)] (lines 113-255). *)
Definition generate_copy (E : Env) (analysis customizations : value) : value :=
  match generate_copy_try E analysis (or_empty customizations) with
  | Ok copy => copy
  | Raise e => copy_fallback e
  end.

(** The twelve-key dictionary every branch of [generate_upsell] returns,
    keys in the order of the literals. *)
Definition offer (offer_type : string) (position : Z)
  (product_name headline description : string) (key_benefits : list string)
  (main_feature : string) (price : Z)
  (price_description reason_to_buy scarcity_element cta_text : string)
  : list (string * value) :=
  [ ("offer_type", VStr offer_type);
    ("position", VInt position);
    ("product_name", VStr product_name);
    ("headline", VStr headline);
    ("description", VStr description);
    ("key_benefits", strs key_benefits);
    ("main_feature", VStr main_feature);
    ("price", VInt price);
    ("price_description", VStr price_description);
    ("reason_to_buy", VStr reason_to_buy);
    ("scarcity_element", VStr scarcity_element);
    ("cta_text", VStr cta_text) ].

(** The [try] block of [generate_upsell]: lines 272-400. *)
Definition generate_upsell_try (E : Env) (main_product_info : value)
  (upsell_type : string) (position : Z) : res value :=
  product_type <- dict_get main_product_info "product_type" (VStr "product") ;;
  brand_name <- dict_get main_product_info "brand_name" (VStr "Our Product") ;;
  let brand := py_str E brand_name in
  Ok (VDict
    (if (upsell_type =? "upsell")%string then
       if position =? 1 then
         offer "upsell" position
           (brand ++ " Pro Edition")
           ("WAIT! Upgrade to " ++ brand ++ " Pro for Maximum Results")
           ("The Pro Edition includes all features of the standard " ++ brand
              ++ " plus advanced capabilities for power users.")
           [ "Access to premium training resources";
             "Direct 1-on-1 coaching sessions";
             "Priority support response";
             "Advanced customization options";
             "Exclusive community access" ]
           "Personalized implementation strategy call with a senior expert"
           297
           "One-time upgrade payment (save 50% today only)"
           "Triple your results with expert guidance and premium resources"
           "This special upgrade price expires in 15 minutes"
           "Yes, Upgrade My Order to Pro!"
       else if position =? 2 then
         offer "upsell" position
           (brand ++ " Implementation Accelerator")
           ("Get Results 3X Faster with the " ++ brand
              ++ " Implementation Accelerator")
           "This done-for-you implementation package helps you fast-track your success by handling the technical setup and customization."
           [ "Complete system setup by our expert team";
             "Custom configuration for your specific needs";
             "Technical roadblocks removed before you start";
             "Ready-to-use templates and frameworks" ]
           "White-glove implementation service with 48-hour turnaround"
           397
           "One-time service fee (50% less than our standard rate)"
           "Skip the learning curve and get straight to results"
           "Limited to just 10 clients this month"
           "Yes, Fast-Track My Success!"
       else
         offer "upsell" position
           (brand ++ " Enterprise Solution")
           ("Scale Your Success with the " ++ brand ++ " Enterprise Package")
           ("The complete " ++ brand
              ++ " system plus team licenses, advanced integrations, and enterprise-grade support.")
           [ "Multiple user licenses for your entire team";
             "Advanced API integrations with your existing tools";
             "Custom reporting and analytics";
             "Quarterly strategy consultations" ]
           "Unlimited team access with centralized management console"
           997
           "Annual subscription (less than $3 per day)"
           "Scale the system across your entire organization"
           "Early adopter pricing - will increase by 40% next month"
           "Upgrade to Enterprise"
     else
       if position =? 1 then
         offer "downsell" position
           (brand ++ " Essentials")
           ("Get Started with " ++ brand ++ " Essentials for a Lower Investment")
           ("The core features of " ++ brand
              ++ " at a more accessible price point.")
           [ "Core system fundamentals";
             "Step-by-step implementation guides";
             "Community support access";
             "Key resources library" ]
           "Complete foundations course for beginners"
           197
           "One-time payment with option to upgrade later"
           "Get started with the essential features at a lower investment"
           "Special introductory pricing for first-time customers only"
           "Yes, I Want the Essentials Package!"
       else if position =? 2 then
         offer "downsell" position
           (brand ++ " Self-Study Edition")
           ("Access the " ++ brand ++ " System at Your Own Pace")
           "The self-study version gives you all the content without the premium support elements."
           [ "Complete system access";
             "Digital resource library";
             "Self-paced learning modules";
             "Email support" ]
           "Digital-only access to the entire system"
           147
           "One-time payment (60% off the full system)"
           "Get all the content at a reduced price if you are self-motivated"
           "This special self-study offer expires in 24 hours"
           "Yes, Give Me Self-Study Access"
       else
         offer "downsell" position
           (brand ++ " Starter Kit")
           ("Try the " ++ brand ++ " Starter Kit Risk-Free")
           "A simplified version to help you get started and experience initial results."
           [ "Core strategies and techniques";
             "Quick-start implementation guide";
             "Basic support access";
             "Foundational templates" ]
           "90-day quick-start roadmap"
           97
           "One-time payment with 60-day guarantee"
           "Experience initial results without a larger investment"
           "First-time customer special - not available after exit"
           "Yes, I Want the Starter Kit!")).

(** The [except] handler of [generate_upsell]: lines 402-418. *)
Definition upsell_fallback (E : Env) (upsell_type : string) (position : Z)
  (e : exn) : value :=
  VDict (("error", VStr (exn_str e)) ::
    offer upsell_type position
      ("Default " ++ str_title E upsell_type)
      ("Add this " ++ upsell_type ++ " to your order")
      "Could not generate description"
      [ "Benefit 1"; "Benefit 2"; "Benefit 3" ]
      "Main feature"
      (if (upsell_type =? "upsell")%string then 97 else 47)
      "One-time payment"
      "Great value"
      "Limited time offer"
      "Add to Order").

(** [generate_upsell(main_product_info, upsell_type, position)]. *)
Definition generate_upsell (E : Env) (main_product_info : value)
  (upsell_type : string) (position : Z) : value :=
  match generate_upsell_try E main_product_info upsell_type position with
  | Ok o => o
  | Raise e => upsell_fallback E upsell_type position e
  end.

(** What a call hands to [logger]: the level and the message.  The module
    sets the root logger to [DEBUG] (line 8), so every record is
    written. *)
Inductive log_level : Type := DEBUG | ERROR.

Definition log_record : Type := (log_level * string)%type.

(** [generate_upsell] with its effect: the records it logs (line 269
    before the [try], line 403 in the handler) and the offer it
    returns. *)
Definition generate_upsell_run (E : Env) (main_product_info : value)
  (upsell_type : string) (position : Z) : list log_record * value :=
  let started :=
    (DEBUG, "Generating " ++ upsell_type ++ " at position "
              ++ str_of_Z position) in
  match generate_upsell_try E main_product_info upsell_type position with
  | Ok o => ([ started ], o)
  | Raise e =>
      ([ started;
         (ERROR, "Error generating " ++ upsell_type ++ ": " ++ exn_str e) ],
       upsell_fallback E upsell_type position e)
  end.

(** ** funnel_generator.py: composition and flow graph *)

(** One entry of the flow list (the five-key literals of lines 86-124). *)
Definition flow_node (id type : string) (name : value)
  (accept_action decline_action : string) : value :=
  VDict [ ("id", VStr id);
          ("type", VStr type);
          ("name", name);
          ("accept_action", VStr accept_action);
          ("decline_action", VStr decline_action) ].

(** Body of the loop over [enumerate(upsells)] (lines 95-103); [n] is
    [len(upsells)]. *)
Definition upsell_node (n : Z) (ix : nat * value) : res value :=
  let '(i, upsell) := ix in
  name <- dict_get upsell "product_name"
            (VStr ("Upsell " ++ str_of_nat (i + 1))) ;;
  Ok (flow_node ("upsell_" ++ str_of_nat (i + 1)) "upsell" name
        (if Z.of_nat i <? n - 1
         then "to_upsell_" ++ str_of_nat (i + 2)
         else "to_thank_you")
        ("to_downsell_" ++ str_of_nat (i + 1))).

(** Body of the loop over [enumerate(downsells)] (lines 106-115). *)
Definition downsell_node (n : Z) (ix : nat * value) : res value :=
  let '(i, downsell) := ix in
  let next_action :=
    if Z.of_nat i <? n - 1
    then "to_upsell_" ++ str_of_nat (i + 2)
    else "to_thank_you" in
  name <- dict_get downsell "product_name"
            (VStr ("Downsell " ++ str_of_nat (i + 1))) ;;
  Ok (flow_node ("downsell_" ++ str_of_nat (i + 1)) "downsell" name
        next_action next_action).

Definition main_node : value :=
  flow_node "main" "main" (VStr "Main Sales Page") "to_upsell_1" "exit".

Definition thank_you_node : value :=
  flow_node "thank_you" "thank_you" (VStr "Thank You Page") "exit" "exit".

(** [design_funnel_flow(main_page, upsells, downsells)] (lines 71-126). *)
Definition design_funnel_flow (main_page : value)
  (upsells downsells : list value) : res (list value) :=
  let n := Z.of_nat (List.length upsells) in
  ups <- mapM (upsell_node n) (enumerate upsells) ;;
  downs <- mapM (downsell_node n) (enumerate downsells) ;;
  Ok (main_node :: ups ++ downs ++ [thank_you_node])%list.

(** [range(n)], as a list of indices: only an integer (or a boolean, which
    Python counts as 0 or 1) is accepted. *)
Definition py_range (n : value) : res (list nat) :=
  match n with
  | VInt z => Ok (seq 0 (Z.to_nat z))
  | VBool b => Ok (seq 0 (if b then 1 else 0)%nat)
  | _ => Raise (Exn TypeError ("'" ++ type_name n
                   ++ "' object cannot be interpreted as an integer"))
  end.

(** [generate_funnel(analysis, customizations)] (lines 22-69). *)
Definition generate_funnel (E : Env) (analysis customizations : value)
  : res value :=
  let main_page := generate_copy E analysis customizations in
  product_type <- dict_get analysis "product_type" (VStr "product") ;;
  brand_name <- dict_get customizations "brand_name" (VStr "Our Product") ;;
  let main_product_info :=
    VDict [ ("product_type", product_type); ("brand_name", brand_name) ] in
  num_upsells <- dict_get customizations "num_upsells" (VInt 10) ;;
  us <- py_range num_upsells ;;
  let upsells :=
    map (fun i => generate_upsell E main_product_info "upsell"
                    (Z.of_nat i + 1)) us in
  num_downsells <- dict_get customizations "num_downsells" (VInt 10) ;;
  ds <- py_range num_downsells ;;
  let downsells :=
    map (fun i => generate_upsell E main_product_info "downsell"
                    (Z.of_nat i + 1)) ds in
  funnel_flow <- design_funnel_flow main_page upsells downsells ;;
  Ok (VDict [ ("main_page", main_page);
              ("upsells", VList upsells);
              ("downsells", VList downsells);
              ("funnel_flow", VList funnel_flow);
              ("customizations", customizations);
              ("base_analysis", analysis) ]).

(** *** Reading a flow graph *)

Definition node_str (k : string) (node : value) : option string :=
  match field k node with
  | Some (VStr s) => Some s
  | _ => None
  end.

Definition has_type (t : string) (node : value) : bool :=
  match node_str "type" node with
  | Some s => (s =? t)%string
  | None => false
  end.

Definition has_id (x : string) (node : value) : bool :=
  match node_str "id" node with
  | Some s => (s =? x)%string
  | None => false
  end.

Definition count_type (t : string) (flow : list value) : nat :=
  List.length (filter (has_type t) flow).

Definition count_id (x : string) (flow : list value) : nat :=
  List.length (filter (has_id x) flow).

(** [Some x] when the action is [to_x]. *)
Definition action_target (a : string) : option string :=
  match a with
  | String "t" (String "o" (String "_" x)) => Some x
  | _ => None
  end.

Definition declared (flow : list value) (x : string) : bool :=
  existsb (has_id x) flow.

(** The two actions of a node. *)
Definition node_actions (node : value) : list string :=
  flat_map (fun k => match node_str k node with Some a => [a] | None => [] end)
           [ "accept_action"; "decline_action" ].

(** Targets of [to_x] actions that name no node of the flow. *)
Definition dangling (flow : list value) : list string :=
  filter (fun x => negb (declared flow x))
    (flat_map (fun a => match action_target a with Some x => [x] | None => [] end)
       (flat_map node_actions flow)).

Definition flow_of (funnel : value) : list value :=
  match field "funnel_flow" funnel with
  | Some (VList l) => l
  | _ => []
  end.

(** ** funnel_generator.py: export

    The long literals are copied character for character; a double quote
    is written [dq]. *)

(** [generate_css()] (lines 270-382). *)
Definition generate_css : string :=
  "
    /* Custom styles for funnel pages */
    body {
        font-family: 'Arial', sans-serif;
        line-height: 1.6;
        color: #333;
        background-color: #f8f9fa;
    }
    
    .hero-section {
        background-color: #f5f5f5;
        padding: 3rem 0;
        margin-bottom: 2rem;
    }
    
    .headline {
        font-size: 2.5rem;
        font-weight: 700;
        margin-bottom: 1rem;
    }
    
    .subheadline {
        font-size: 1.5rem;
        font-weight: 400;
        margin-bottom: 2rem;
    }
    
    .benefits-box {
        background-color: #f8f8f8;
        border-left: 5px solid #4CAF50;
        padding: 1.5rem;
        margin-bottom: 2rem;
    }
    
    .testimonial {
        background-color: #fff;
        border-left: 3px solid #007bff;
        padding: 1.5rem;
        margin-bottom: 1.5rem;
        box-shadow: 0 2px 5px rgba(0,0,0,0.1);
    }
    
    .cta-button {
        display: inline-block;
        padding: 1rem 2rem;
        font-size: 1.25rem;
        font-weight: 600;
        text-align: center;
        text-decoration: none;
        background-color: #FF5722;
        color: white;
        border-radius: 5px;
        margin: 1.5rem 0;
        transition: background-color 0.3s ease;
    }
    
    .cta-button:hover {
        background-color: #E64A19;
    }
    
    .price-tag {
        font-size: 2.5rem;
        font-weight: 700;
        color: #4CAF50;
        margin: 1rem 0;
    }
    
    .guarantee-box {
        background-color: #FFFDE7;
        border: 1px solid #FFC107;
        padding: 1.5rem;
        margin: 2rem 0;
        text-align: center;
    }
    
    .faq-item {
        margin-bottom: 1.5rem;
    }
    
    .faq-question {
        font-weight: 600;
        margin-bottom: 0.5rem;
    }
    
    .faq-answer {
        color: #555;
    }
    
    .upsell-box {
        background-color: #E3F2FD;
        border: 1px solid #2196F3;
        padding: 2rem;
        margin: 2rem 0;
        text-align: center;
    }
    
    .downsell-box {
        background-color: #E8F5E9;
        border: 1px solid #4CAF50;
        padding: 2rem;
        margin: 2rem 0;
        text-align: center;
    }
    
    .thank-you-box {
        background-color: #E8F5E9;
        text-align: center;
        padding: 3rem;
        margin: 3rem 0;
    }
    ".

(** The text [generate_js] returns (lines 388-434), given [json.dumps] of
    the flow. *)
Definition js_text (funnel_flow_str : string) : string :=
  "
    // Funnel flow data
    const funnelFlow = "
  ++ funnel_flow_str
  ++ ";
    
    // Function to handle button clicks
    function handleButtonClick(action) {
        // Find the next page based on the action
        let nextPage = '';
        
        switch(action) {
            case 'to_thank_you':
                nextPage = 'thank_you.html';
                break;
            case 'exit':
                // Handle exit action (e.g., redirect to external page)
                return;
            default:
                // Extract page ID from action string (e.g., 'to_upsell_1' -> 'upsell_1')
                const pageId = action.replace('to_', '');
                nextPage = pageId + '.html';
        }
        
        // Navigate to the next page
        window.location.href = nextPage;
    }
    
    // Initialize the page
    document.addEventListener('DOMContentLoaded', function() {
        // Add event listeners to accept/decline buttons
        const acceptButtons = document.querySelectorAll('.accept-button');
        const declineButtons = document.querySelectorAll('.decline-button');
        
        acceptButtons.forEach(button => {
            button.addEventListener('click', function() {
                const action = this.getAttribute('data-action');
                handleButtonClick(action);
            });
        });
        
        declineButtons.forEach(button => {
            button.addEventListener('click', function() {
                const action = this.getAttribute('data-action');
                handleButtonClick(action);
            });
        });
    });
    ".

(** The text [generate_documentation] returns (lines 440-489), given its
    rendered fields. *)
Definition documentation_text (name url stamp brand_name target_audience unique_angle
   n_upsells n_downsells : string) : string :=
  "
Affiliate Hijacker Funnel - Documentation
========================================

Project Name: "
  ++ name
  ++ "
Original URL: "
  ++ url
  ++ "
Generated on: "
  ++ stamp
  ++ "

Product Information:
------------------
Brand Name: "
  ++ brand_name
  ++ "
Target Audience: "
  ++ target_audience
  ++ "
Unique Angle: "
  ++ unique_angle
  ++ "

Funnel Structure:
---------------
1. Main Sales Page (index.html)
2. Upsells: "
  ++ n_upsells
  ++ " pages
3. Downsells: "
  ++ n_downsells
  ++ " pages
4. Thank You Page (thank_you.html)

Files Included:
-------------
- index.html: Main sales page
- upsell_*.html: Upsell pages
- downsell_*.html: Downsell pages
- thank_you.html: Thank you page
- style.css: CSS styles for all pages
- funnel.js: JavaScript for funnel flow control
- emails/: Directory containing email sequence (if generated)
- README.txt: This documentation file

How to Use:
---------
1. Upload all files to your web hosting
2. Link your payment processor to the buttons
3. Set up email sequence in your email marketing platform
4. Test the complete funnel flow before driving traffic

Customization:
------------
- Edit HTML files to customize design and content
- Modify CSS in style.css to change appearance
- Update funnel.js if you need to change the flow

Notes:
-----
This funnel was generated by Affiliate Hijacker based on analysis of the original URL.
The design, copy, and flow are optimized for maximum conversions.
    ".

(** The text [create_thank_you_page] returns (lines 496-530). *)
Definition thank_you_text (brand_name : string) : string :=
  "
    <!DOCTYPE html>
    <html>
    <head>
        <meta charset=" ++ dq ++ "UTF-8" ++ dq ++ ">
        <meta name=" ++ dq ++ "viewport" ++ dq ++ " content=" ++ dq ++ "width=device-width, initial-scale=1.0" ++ dq ++ ">
        <title>Thank You for Your Purchase | "
  ++ brand_name
  ++ "</title>
        <link rel=" ++ dq ++ "stylesheet" ++ dq ++ " href=" ++ dq ++ "https://cdn.replit.com/agent/bootstrap-agent-dark-theme.min.css" ++ dq ++ ">
        <link rel=" ++ dq ++ "stylesheet" ++ dq ++ " href=" ++ dq ++ "style.css" ++ dq ++ ">
    </head>
    <body>
        <div class=" ++ dq ++ "container py-5" ++ dq ++ ">
            <div class=" ++ dq ++ "thank-you-box" ++ dq ++ ">
                <h1>Thank You for Your Purchase!</h1>
                <p>Your order has been successfully processed and is on its way to you.</p>
                <div class=" ++ dq ++ "my-4" ++ dq ++ ">
                    <h3>What's Next?</h3>
                    <p>Check your email for your order confirmation and access instructions.</p>
                    <p>If you have any questions, please contact our support team.</p>
                </div>
                <div class=" ++ dq ++ "mt-5" ++ dq ++ ">
                    <h3>Recommended Next Steps</h3>
                    <ul class=" ++ dq ++ "list-group my-3" ++ dq ++ ">
                        <li class=" ++ dq ++ "list-group-item" ++ dq ++ ">Check your email for your order confirmation</li>
                        <li class=" ++ dq ++ "list-group-item" ++ dq ++ ">Bookmark this page for future reference</li>
                        <li class=" ++ dq ++ "list-group-item" ++ dq ++ ">Follow us on social media for updates and tips</li>
                    </ul>
                </div>
            </div>
        </div>
        
        <script src=" ++ dq ++ "funnel.js" ++ dq ++ "></script>
    </body>
    </html>
    ".

(** The page [create_html_page] falls back to (lines 151-168), given its
    rendered fields. *)
Definition html_fallback_text (headline description cta_text : string) : string :=
  "
        <!DOCTYPE html>
        <html>
        <head>
            <meta charset=" ++ dq ++ "UTF-8" ++ dq ++ ">
            <meta name=" ++ dq ++ "viewport" ++ dq ++ " content=" ++ dq ++ "width=device-width, initial-scale=1.0" ++ dq ++ ">
            <title>"
  ++ headline
  ++ "</title>
            <link rel=" ++ dq ++ "stylesheet" ++ dq ++ " href=" ++ dq ++ "https://cdn.replit.com/agent/bootstrap-agent-dark-theme.min.css" ++ dq ++ ">
        </head>
        <body>
            <div class=" ++ dq ++ "container py-5" ++ dq ++ ">
                <h1>"
  ++ headline
  ++ "</h1>
                <p>"
  ++ description
  ++ "</p>
                <button class=" ++ dq ++ "btn btn-primary" ++ dq ++ ">"
  ++ cta_text
  ++ "</button>
            </div>
        </body>
        </html>
        ".

(** The text of one email entry (lines 231-235), given the rendered subject
    and body. *)
Definition email_content_text (subject body : string) : string :=
  "
Subject: "
  ++ subject
  ++ "

"
  ++ body
  ++ "
                    ".

(** The text of [emails/README.txt] (lines 239-258), given its rendered
    fields. *)
Definition email_docs_text (sequence_name n_emails sequence_type timing_lines purpose : string) : string :=
  "
Email Sequence Documentation
===========================

Sequence Name: "
  ++ sequence_name
  ++ "
Number of Emails: "
  ++ n_emails
  ++ "
Sequence Type: "
  ++ sequence_type
  ++ "

Timing:
- Email 1: Immediately after signup
"
  ++ timing_lines
  ++ "

Purpose:
"
  ++ purpose
  ++ "

Instructions:
1. Import these emails into your email marketing platform
2. Set up the automation sequence with the timing above
3. Customize sender name and contact information before sending
                ".

(** A JSON text column of the project row, by what
    [json.loads(col) if col else None] makes of it. *)
Inductive blob : Type :=
| NoText              (* NULL or the empty string: the guard yields [None] *)
| BadText (e : exn)   (* text that [json.loads] rejects with [e] *)
| Text (v : value)    (* text that [json.loads] reads as [v] *).

Definition load (b : blob) : res value :=
  match b with
  | NoText => Ok VNone
  | BadText e => Raise e
  | Text v => Ok v
  end.

(** The columns of [models.Project] the exporter reads. *)
Record project : Type := {
  project_id : Z;
  project_name : string;
  project_url : string;
  project_funnel_data : blob;
  project_email_sequence : blob
}.

(** [create_html_page(page_data, page_type)] (lines 128-168): a fault of the
    template step is caught; the handler reads [page_data] again. *)
Definition create_html_page (E : Env) (page_data : value) (page_type : string)
  : res string :=
  match render_template E (page_type ++ ".html") page_data with
  | Ok html_content => Ok html_content
  | Raise _ =>
      headline <- dict_get page_data "headline" (VStr "Funnel Page") ;;
      description <- dict_get page_data "description" (VStr "") ;;
      cta_text <- dict_get page_data "cta_text" (VStr "Continue") ;;
      Ok (html_fallback_text (py_str E headline) (py_str E description)
            (py_str E cta_text))
  end.

(** [generate_js(funnel_data)] (lines 384-434). *)
Definition generate_js (E : Env) (funnel_data : value) : res string :=
  funnel_flow <- dict_get funnel_data "funnel_flow" (VList []) ;;
  Ok (js_text (json_dumps E funnel_flow)).

(** [len(o.get(k, []))]. *)
Definition len_of (o : value) (k : string) : res nat :=
  l <- dict_get o k (VList []) ;; py_len l.

(** [generate_documentation(project, funnel_data)] (lines 436-489). *)
Definition generate_documentation (E : Env) (p : project) (funnel_data : value)
  : res string :=
  customizations <- dict_get funnel_data "customizations" (VDict []) ;;
  brand_name <- dict_get customizations "brand_name" (VStr "Our Product") ;;
  target_audience <- dict_get customizations "target_audience"
                       (VStr "General audience") ;;
  unique_angle <- dict_get customizations "unique_angle" (VStr "") ;;
  n_upsells <- len_of funnel_data "upsells" ;;
  n_downsells <- len_of funnel_data "downsells" ;;
  Ok (documentation_text (project_name p) (project_url p) (now_stamp E)
        (py_str E brand_name) (py_str E target_audience) (py_str E unique_angle)
        (str_of_nat n_upsells) (str_of_nat n_downsells)).

(** [create_thank_you_page(funnel_data)] (lines 491-530). *)
Definition create_thank_you_page (E : Env) (funnel_data : value) : res string :=
  customizations <- dict_get funnel_data "customizations" (VDict []) ;;
  brand_name <- dict_get customizations "brand_name" (VStr "Our Product") ;;
  Ok (thank_you_text (py_str E brand_name)).

(** One archive entry: name and text. *)
Definition entry : Type := (string * string)%type.

(** Body of the loops of lines 214-221: one page per offer. *)
Definition page_entry (E : Env) (page_type : string) (ix : nat * value)
  : res entry :=
  let '(i, page) := ix in
  html <- create_html_page E page page_type ;;
  Ok (page_type ++ "_" ++ str_of_nat (i + 1) ++ ".html", html).

(** Body of the loop of lines 230-236: one text file per email. *)
Definition email_entry (E : Env) (ix : nat * value) : res entry :=
  let '(i, email) := ix in
  subject <- dict_get email "subject" (VStr ("Email " ++ str_of_nat (i + 1))) ;;
  body <- dict_get email "body" (VStr "Email content") ;;
  Ok ("emails/email_" ++ str_of_nat (i + 1) ++ ".txt",
      email_content_text (py_str E subject) (py_str E body)).

(** One line of the list comprehension of line 249. *)
Definition timing_line (E : Env) (email_sequence : value) (i : nat)
  : res string :=
  timing <- dict_get email_sequence "timing" (VDict []) ;;
  t <- dict_get timing (str_of_nat (i + 2))
         (VStr ("Day " ++ str_of_nat (i + 1))) ;;
  Ok ("- Email " ++ str_of_nat (i + 2) ++ ": " ++ py_str E t).

(** The text of [emails/README.txt] (lines 239-258). *)
Definition email_docs (E : Env) (email_sequence : value) : res string :=
  sequence_name <- dict_get email_sequence "sequence_name"
                     (VStr "Email Sequence") ;;
  n_emails <- len_of email_sequence "emails" ;;
  sequence_type <- dict_get email_sequence "sequence_type" (VStr "sales") ;;
  n <- len_of email_sequence "emails" ;;
  timing_lines <- mapM (timing_line E email_sequence)
                    (seq 0 (Z.to_nat (Z.of_nat n - 1))) ;;
  purpose <- dict_get email_sequence "purpose"
               (VStr "Nurture leads and promote products") ;;
  Ok (email_docs_text (py_str E sequence_name) (str_of_nat n_emails)
        (py_str E sequence_type) (String.concat nl timing_lines)
        (py_str E purpose)).

(** The entries written under [emails/] (lines 228-259). *)
Definition email_entries (E : Env) (email_sequence : value) : res (list entry) :=
  if truthy email_sequence then
    emails <- dict_get email_sequence "emails" (VList []) ;;
    items <- py_iter emails ;;
    files <- mapM (email_entry E) (enumerate items) ;;
    docs <- email_docs E email_sequence ;;
    Ok (files ++ [("emails/README.txt", docs)])%list
  else Ok [].

(** [o.get(k, [])], iterated by [enumerate]. *)
Definition items_of (o : value) (k : string) : res (list (nat * value)) :=
  l <- dict_get o k (VList []) ;;
  items <- py_iter l ;;
  Ok (enumerate items).

(** [create_zip_export(project)] (lines 170-268): the path returned and the
    entries written, in the order of the [writestr] calls.  The handler of
    line 266 raises again whatever it caught.  Creating the directory and
    writing the file are taken to succeed. *)
Definition create_zip_export (E : Env) (p : project)
  : res (string * list entry) :=
  let zip_filename :=
    exports_dir E ++ "/" ++ str_of_Z (project_id p) ++ ".zip" in
  funnel_data <- load (project_funnel_data p) ;;
  email_sequence <- load (project_email_sequence p) ;;
  if negb (truthy funnel_data) then
    Raise (Exn ValueError "No funnel data available for export")
  else
    main_page <- dict_get funnel_data "main_page" (VDict []) ;;
    main_html <- create_html_page E main_page "main" ;;
    js <- generate_js E funnel_data ;;
    upsells <- items_of funnel_data "upsells" ;;
    upsell_pages <- mapM (page_entry E "upsell") upsells ;;
    downsells <- items_of funnel_data "downsells" ;;
    downsell_pages <- mapM (page_entry E "downsell") downsells ;;
    thank_you_html <- create_thank_you_page E funnel_data ;;
    emails <- email_entries E email_sequence ;;
    documentation <- generate_documentation E p funnel_data ;;
    Ok (zip_filename,
        ([ ("index.html", main_html);
           ("style.css", generate_css);
           ("funnel.js", js) ]
         ++ upsell_pages
         ++ downsell_pages
         ++ [ ("thank_you.html", thank_you_html) ]
         ++ emails
         ++ [ ("README.txt", documentation) ])%list).

(** ** email_generator.py *)

(** The prompt of lines 53-78, given its rendered fields. *)
Definition prompt_text (brand_name product_headline benefits sequence_type email_style
   num_emails : string) : string :=
  "
        Generate a complete email sequence for this product:
        
        Brand Name: "
  ++ brand_name
  ++ "
        Product Headline: "
  ++ product_headline
  ++ "
        
        Key Benefits:
        "
  ++ benefits
  ++ "
        
        Sequence Type: "
  ++ sequence_type
  ++ " (Options: sales, nurture, onboarding, abandoned cart)
        Email Style: "
  ++ email_style
  ++ " (Options: conversational, formal, story-based, direct)
        Number of Emails: "
  ++ num_emails
  ++ "
        
        Please generate a complete email sequence with these details in JSON format:
        1. sequence_name: A name for this email sequence
        2. sequence_type: The type of sequence (sales, nurture, etc.)
        3. purpose: The overall purpose of this sequence
        4. timing: When each email should be sent (e.g., " ++ dq ++ "Day 1" ++ dq ++ ", " ++ dq ++ "Day 3" ++ dq ++ ", etc.)
        5. emails: An array of email objects, each containing:
            a. subject: Email subject line
            b. body: Complete email body
            c. purpose: The specific purpose of this email
            d. call_to_action: The main call to action in this email
        
        Return your response in valid JSON format.
        ".

(** The paragraph of lines 87-90 appended for the upsells. *)
Definition upsell_prompt_text (descriptions : string) : string :=
  "
                Upsell Products to Include in Some Emails:
                "
  ++ descriptions
  ++ "
                ".

Definition system_prompt : string :=
  "You are an expert email copywriter specializing in high-converting email sequences for sales funnels.".

(** [min(x, 20)]: the comparison [20 < x] needs a number; a boolean counts
    as 0 or 1 and is returned as it is. *)
Definition min_20 (x : value) : res value :=
  match x with
  | VInt z => Ok (VInt (if 20 <? z then 20 else z))
  | VBool b => Ok (VBool b)
  | _ => Raise (Exn TypeError
                  ("'<' not supported between instances of 'int' and '"
                     ++ type_name x ++ "'"))
  end.

(** [sep.join(l)], item [i] onwards: every item has to be a string. *)
Fixpoint join_from (i : nat) (sep : string) (l : list value) : res string :=
  match l with
  | [] => Ok ""
  | v :: l' =>
      match v with
      | VStr s =>
          match l' with
          | [] => Ok s
          | _ => rest <- join_from (S i) sep l' ;; Ok (s ++ sep ++ rest)
          end
      | _ => Raise (Exn TypeError
                      ("sequence item " ++ str_of_nat i
                         ++ ": expected str instance, " ++ type_name v
                         ++ " found"))
      end
  end.

Definition join (sep : string) (l : list value) : res string :=
  join_from 0 sep l.

(** [x[:n]]: lists and strings can be sliced.  (A dictionary cannot; Python
    3.12 reports that as a [KeyError], earlier versions as a [TypeError].) *)
Definition slice_to (n : nat) (x : value) : res (list value) :=
  match x with
  | VList l => Ok (firstn n l)
  | VStr s => Ok (firstn n (chars s))
  | VDict _ => Raise (Exn TypeError "unhashable type: 'slice'")
  | _ => Raise (Exn TypeError
                  ("'" ++ type_name x ++ "' object is not subscriptable"))
  end.

(** Lines 36-38: the three reads of [funnel_data]; [customizations] is the
    last name bound. *)
Definition read_funnel (funnel_data : value) : res (value * value * value) :=
  main_page <- dict_get funnel_data "main_page" (VDict []) ;;
  upsells <- dict_get funnel_data "upsells" (VList []) ;;
  customizations <- dict_get funnel_data "customizations" (VDict []) ;;
  Ok (main_page, upsells, customizations).

(** Body of the loop of lines 83-84. *)
Definition upsell_description (E : Env) (ix : nat * value) : res string :=
  let '(i, upsell) := ix in
  product_name <- dict_get upsell "product_name"
                    (VStr ("Upsell " ++ str_of_nat (i + 1))) ;;
  description <- dict_get upsell "description" (VStr "") ;;
  Ok (py_str E product_name ++ " - " ++ py_str E description).

(** Lines 81-90: what is appended to the prompt. *)
Definition upsell_section (E : Env) (upsells : value) : res string :=
  if truthy upsells then
    first3 <- slice_to 3 upsells ;;
    upsell_descriptions <- mapM (upsell_description E) (enumerate first3) ;;
    match upsell_descriptions with
    | [] => Ok ""
    | _ => Ok (upsell_prompt_text (String.concat nl upsell_descriptions))
    end
  else Ok "".

(** Lines 41-90: the brand name and the prompt. *)
Definition build_prompt (E : Env) (main_page upsells customizations params : value)
  : res (value * string) :=
  n <- dict_get params "num_emails" (VInt 10) ;;
  num_emails <- min_20 n ;;
  sequence_type <- dict_get params "sequence_type" (VStr "sales") ;;
  email_style <- dict_get params "email_style" (VStr "conversational") ;;
  brand_name <- dict_get customizations "brand_name" (VStr "Our Product") ;;
  product_headline <- dict_get main_page "headline"
                        (VStr "Our Amazing Product") ;;
  benefits <- dict_get main_page "benefits" (VList []) ;;
  let product_benefits :=
    match benefits with
    | VDict d => VList (map snd d)
    | _ => benefits
    end in
  joined <- match product_benefits with
            | VList l => join ", " (firstn 5 l)
            | _ => Ok ""
            end ;;
  let prompt :=
    prompt_text (py_str E brand_name) (py_str E product_headline) joined
      (py_str E sequence_type) (py_str E email_style) (py_str E num_emails) in
  extra <- upsell_section E upsells ;;
  Ok (brand_name, prompt ++ extra).

(** Lines 104-110: the parsed response gets its two derived fields. *)
Definition add_metadata (email_sequence brand_name : value) : res value :=
  n <- len_of email_sequence "emails" ;;
  match email_sequence with
  | VDict d =>
      Ok (VDict (dict_set "brand_name" brand_name
                   (dict_set "num_emails" (VInt (Z.of_nat n)) d)))
  | _ => Raise (no_attribute email_sequence "get")
  end.

(** Lines 93-110: the request and what is made of the answer. *)
Definition request (E : Env) (brand_name : value) (prompt : string) : res value :=
  match chat E system_prompt prompt with
  | CallFault e => Raise e
  | Content parsed =>
      email_sequence <- parsed ;;
      add_metadata email_sequence brand_name
  end.

(** The record the handler builds (lines 115-147). *)
Definition email (subject body purpose call_to_action : string) : value :=
  VDict [ ("subject", VStr subject);
          ("body", VStr body);
          ("purpose", VStr purpose);
          ("call_to_action", VStr call_to_action) ].

Definition email_fallback (e : exn) (brand_name : value) : value :=
  VDict [
    ("error", VStr (exn_str e));
    ("sequence_name", VStr "Basic Sales Sequence");
    ("sequence_type", VStr "sales");
    ("purpose", VStr "To nurture leads and drive sales");
    ("num_emails", VInt 3);
    ("brand_name", brand_name);
    ("timing", VDict [ ("1", VStr "Day 0 (Immediately)");
                       ("2", VStr "Day 2");
                       ("3", VStr "Day 4") ]);
    ("emails", VList [
       email "Welcome to [Brand Name]" "Welcome email content goes here..."
             "Introduction" "Visit our website";
       email "Benefits of [Product Name]" "Benefits email content goes here..."
             "Highlight benefits" "Learn more";
       email "Special Offer Inside" "Promotional email content goes here..."
             "Drive sales" "Buy now" ])
  ].

(** What reading a local name that no statement has bound raises (wording of
    Python 3.11 and later). *)
Definition unbound_local (name : string) : exn :=
  Exn UnboundLocalError
      ("cannot access local variable '" ++ name
         ++ "' where it is not associated with a value").

(** [generate_email_sequence(funnel_data, params)] (lines 18-147).  The
    handler reads [customizations]: when the [try] block stopped before
    line 38 finished, the name is unbound and the handler itself raises;
    otherwise it calls [customizations.get]. *)
Definition generate_email_sequence (E : Env) (funnel_data params : value)
  : res value :=
  let params := or_empty params in
  match read_funnel funnel_data with
  | Raise _ => Raise (unbound_local "customizations")
  | Ok (main_page, upsells, customizations) =>
      match
        (bp <- build_prompt E main_page upsells customizations params ;;
         request E (fst bp) (snd bp))
      with
      | Ok email_sequence => Ok email_sequence
      | Raise e =>
          brand_name <- dict_get customizations "brand_name"
                          (VStr "Our Product") ;;
          Ok (email_fallback e brand_name)
      end
  end.

(** The request of lines 36-90: the brand name and the user prompt that
    line 93 sends, or the fault that stops the [try] block before it. *)
Definition email_prompt (E : Env) (funnel_data params : value)
  : res (value * string) :=
  fm <- read_funnel funnel_data ;;
  let '(main_page, upsells, customizations) := fm in
  build_prompt E main_page upsells customizations (or_empty params).

(** ** Vocabulary of the statements *)

(** An offer without its [position] entry: what the template contributes. *)
Definition template_of (o : value) : value :=
  match o with
  | VDict d => VDict (filter (fun kv => negb (fst kv =? "position")%string) d)
  | _ => o
  end.

(** The project has funnel data: the column holds text that reads as a
    truthy value (line 197 tests [not funnel_data]). *)
Definition has_funnel_data (p : project) : bool :=
  match project_funnel_data p with
  | Text v => truthy v
  | _ => false
  end.

(** The value under [k] passes [ok], or [k] is absent. *)
Definition key_ok (ok : value -> bool) (k : string) (o : value) : bool :=
  match field k o with
  | Some v => ok v
  | None => true
  end.

Definition list_of_dicts (v : value) : bool :=
  match v with
  | VList l => forallb is_dict l
  | _ => false
  end.

(** Funnel data shaped as the data model has it: a non-empty record whose
    page, offers and customizations, where present, are records. *)
Definition funnel_shaped (funnel_data : value) : bool :=
  is_dict funnel_data && truthy funnel_data
  && key_ok is_dict "main_page" funnel_data
  && key_ok list_of_dicts "upsells" funnel_data
  && key_ok list_of_dicts "downsells" funnel_data
  && key_ok is_dict "customizations" funnel_data.

(** An email sequence shaped as the data model has it. *)
Definition sequence_shaped (email_sequence : value) : bool :=
  is_dict email_sequence
  && key_ok list_of_dicts "emails" email_sequence
  && key_ok is_dict "timing" email_sequence.

Definition export_shaped (p : project) : bool :=
  match project_funnel_data p with
  | Text fd => funnel_shaped fd
  | _ => false
  end
  &&
  match project_email_sequence p with
  | NoText => true
  | BadText _ => false
  | Text es => negb (truthy es) || sequence_shaped es
  end.

(** The records stored under [k]. *)
Definition records (k : string) (b : blob) : list value :=
  match b with
  | Text o => match field k o with Some (VList l) => l | _ => [] end
  | _ => []
  end.

Definition entry_names (z : string * list entry) : list string :=
  map fst (snd z).

(** The texts written under [name]. *)
Definition entry_texts (name : string) (z : string * list entry) : list string :=
  map snd (filter (fun e => (fst e =? name)%string) (snd z)).

Definition spaces (n : nat) : string :=
  String.concat "" (repeat " " n).

(** The fields of an analysis record (section 3 of the specification). *)
Definition analysis_shape : list string :=
  [ "url"; "title"; "product_type"; "main_hook"; "target_audience";
    "key_benefits"; "pain_points"; "unique_selling_points";
    "pricing_strategy"; "cta_strategy"; "persuasion_techniques";
    "structure_analysis"; "content_tone"; "suggested_improvements" ].

(** The fields of [shape] that [o] lacks. *)
Definition missing (shape : list string) (o : value) : list string :=
  filter (fun k => negb (has_key k o)) shape.

(** The external step of [generate_email_sequence] faults with [e]: the
    request raises, or the returned text is not JSON, or the parsed value
    has not the shape lines 107-108 rely on. *)
Inductive call_fault (E : Env) (brand_name : value) (prompt : string) (e : exn)
  : Prop :=
| network_fault :
    chat E system_prompt prompt = CallFault e ->
    call_fault E brand_name prompt e
| malformed_json :
    chat E system_prompt prompt = Content (Raise e) ->
    call_fault E brand_name prompt e
| wrong_shape (v : value) :
    chat E system_prompt prompt = Content (Ok v) ->
    add_metadata v brand_name = Raise e ->
    call_fault E brand_name prompt e.

(** Names of the pages written for [n] offers of one type, and of the
    files written for [n] emails. *)
Definition page_names (page_type : string) (n : nat) : list string :=
  map (fun i => page_type ++ "_" ++ str_of_nat (i + 1) ++ ".html") (seq 0 n).

Definition email_names (n : nat) : list string :=
  map (fun i => "emails/email_" ++ str_of_nat (i + 1) ++ ".txt") (seq 0 n).

(** Names of the entries written under [emails/] for a stored sequence. *)
Definition email_entry_names (b : blob) : list string :=
  match b with
  | Text es =>
      if truthy es
      then (email_names (List.length (records "emails" b))
            ++ [ "emails/README.txt" ])%list
      else []
  | _ => []
  end.

(** Names of the archive entries of a project, in the order written. *)
Definition archive_names (p : project) : list string :=
  ([ "index.html"; "style.css"; "funnel.js" ]
   ++ page_names "upsell"
        (List.length (records "upsells" (project_funnel_data p)))
   ++ page_names "downsell"
        (List.length (records "downsells" (project_funnel_data p)))
   ++ [ "thank_you.html" ]
   ++ email_entry_names (project_email_sequence p)
   ++ [ "README.txt" ])%list.

(** The text the exporter writes for the email at index [i]. *)
Definition email_text (E : Env) (i : nat) (email : value) : string :=
  let subject :=
    match field "subject" email with
    | Some v => py_str E v
    | None => "Email " ++ str_of_nat (i + 1)
    end in
  let body :=
    match field "body" email with
    | Some v => py_str E v
    | None => "Email content"
    end in
  nl ++ "Subject: " ++ subject ++ nl ++ nl ++ body ++ nl ++ spaces 20.

(** One email file, as written for the email at index [i]. *)
Definition email_file (E : Env) (ix : nat * value) : entry :=
  ("emails/email_" ++ str_of_nat (fst ix + 1) ++ ".txt",
   email_text E (fst ix) (snd ix)).

(** The format the specification gives for an email entry. *)
Definition email_text_spec (subject body : string) : string :=
  "Subject: " ++ subject ++ nl ++ nl ++ body.

(** The texts the export of [p] writes under [name] (none when it raises). *)
Definition exported (E : Env) (p : project) (name : string) : list string :=
  match create_zip_export E p with
  | Ok z => entry_texts name z
  | Raise _ => []
  end.

(** Entries whose name starts with [emails/]. *)
Definition under_emails (entries : list entry) : list entry :=
  filter (fun e => prefix "emails/" (fst e)) entries.

(** ** A sample deployment

    No template directory (as in this source tree), no network, a fixed
    clock; the renderers cover plain ASCII data that needs no escaping. *)

Fixpoint repr_plain (v : value) : string :=
  match v with
  | VNone => "None"
  | VBool true => "True"
  | VBool false => "False"
  | VInt z => str_of_Z z
  | VStr s => "'" ++ s ++ "'"
  | VList l => "[" ++ String.concat ", " (map repr_plain l) ++ "]"
  | VDict d =>
      "{" ++ String.concat ", "
               (map (fun kv => let '(k, x) := kv in
                               "'" ++ k ++ "': " ++ repr_plain x) d) ++ "}"
  end.

Fixpoint dumps_plain (v : value) : string :=
  match v with
  | VNone => "null"
  | VBool true => "true"
  | VBool false => "false"
  | VInt z => str_of_Z z
  | VStr s => dq ++ s ++ dq
  | VList l => "[" ++ String.concat ", " (map dumps_plain l) ++ "]"
  | VDict d =>
      "{" ++ String.concat ", "
               (map (fun kv => let '(k, x) := kv in
                               dq ++ k ++ dq ++ ": " ++ dumps_plain x) d) ++ "}"
  end.

Definition is_lower (c : ascii) : bool :=
  (97 <=? nat_of_ascii c)%nat && (nat_of_ascii c <=? 122)%nat.
Definition is_upper (c : ascii) : bool :=
  (65 <=? nat_of_ascii c)%nat && (nat_of_ascii c <=? 90)%nat.
Definition to_upper (c : ascii) : ascii :=
  if is_lower c then ascii_of_nat (nat_of_ascii c - 32) else c.
Definition to_lower (c : ascii) : ascii :=
  if is_upper c then ascii_of_nat (nat_of_ascii c + 32) else c.

Fixpoint lower_plain (s : string) : string :=
  match s with
  | EmptyString => EmptyString
  | String c s' => String (to_lower c) (lower_plain s')
  end.

(** [s.title()] on ASCII text; [inside] tells whether the previous character
    was a letter. *)
Fixpoint title_from (inside : bool) (s : string) : string :=
  match s with
  | EmptyString => EmptyString
  | String c s' =>
      String (if inside then to_lower c else to_upper c)
             (title_from (is_lower c || is_upper c) s')
  end.

(** [urlparse(url).netloc] on the addresses used below. *)
Definition netloc_sample (url : string) : res string :=
  if (url =? "https://example.com/offer")%string then Ok "example.com"
  else if (url =? "http://[")%string then Raise (Exn ValueError "Invalid IPv6 URL")
  else Ok "".

Definition offline : Env := {|
  py_repr := repr_plain;
  str_lower := lower_plain;
  str_title := title_from false;
  json_dumps := dumps_plain;
  urlparse_netloc := netloc_sample;
  render_template := fun name _ => Raise (Exn TemplateError name);
  chat := fun _ _ => CallFault (Exn ServiceError "Connection error.");
  now_stamp := "2024-05-13 09:00";
  exports_dir := "/app/static/exports"
|}.

(** The same deployment with a template directory whose pages render and a
    service that answers with a JSON object that has a name and nothing
    else. *)
Definition online : Env := {|
  py_repr := repr_plain;
  str_lower := lower_plain;
  str_title := title_from false;
  json_dumps := dumps_plain;
  urlparse_netloc := netloc_sample;
  render_template := fun name _ => Ok ("<html>" ++ name ++ "</html>");
  chat := fun _ _ =>
    Content (Ok (VDict [ ("sequence_name", VStr "Launch sequence") ]));
  now_stamp := "2025-01-01 00:00";
  exports_dir := "/srv/static/exports"
|}.

Definition customize (u d : Z) : value :=
  VDict [ ("brand_name", VStr "Acme");
          ("num_upsells", VInt u);
          ("num_downsells", VInt d) ].

Definition acme_info : value :=
  VDict [ ("product_type", VStr "course"); ("brand_name", VStr "Acme") ].

Definition blob_of (r : res value) : blob :=
  match r with
  | Ok v => Text v
  | Raise e => BadText e
  end.

Definition acme_analysis : value :=
  analyze_page offline (VDict [ ("title", VStr "Offer") ])
    "https://example.com/offer".

(** A funnel of two upsells and two downsells as the composer makes it, and
    the three-email sequence the email generator returns for it. *)
Definition acme_funnel : res value :=
  generate_funnel offline acme_analysis (customize 2 2).

(** Funnel data written by hand, with benefits given as plain strings. *)
Definition plain_funnel : value :=
  VDict [ ("main_page",
           VDict [ ("headline", VStr "Introducing Acme");
                   ("benefits", VList [ VStr "Save time" ]) ]);
          ("customizations", VDict [ ("brand_name", VStr "Acme") ]) ].

Definition acme_emails : res value :=
  f <- acme_funnel ;;
  generate_email_sequence offline f (VDict [ ("num_emails", VInt 3) ]).

Definition acme_project : project := {|
  project_id := 7;
  project_name := "Acme funnel";
  project_url := "https://example.com/offer";
  project_funnel_data := blob_of acme_funnel;
  project_email_sequence := blob_of acme_emails
|}.

(** A project whose stored email sequence lists subject lines instead of
    email records. *)
Definition subjects_only_project : project := {|
  project_id := 8;
  project_name := "Acme funnel";
  project_url := "https://example.com/offer";
  project_funnel_data := blob_of acme_funnel;
  project_email_sequence :=
    Text (VDict [ ("sequence_name", VStr "Launch");
                  ("emails", VList [ VStr "Welcome"; VStr "Last call" ]) ])
|}.

Definition empty_project : project := {|
  project_id := 9;
  project_name := "New project";
  project_url := "https://example.com/offer";
  project_funnel_data := NoText;
  project_email_sequence := NoText
|}.

(** ** scraper.py

    Only [scrape_url] is modelled: the [extract_*] helpers and
    [analyze_page_structure] work on a parsed document and nothing calls
    them. *)

(** What [urlparse] returns, as far as [scrape_url] reads it. *)
Record url_parts : Type := {
  url_scheme : string;
  url_netloc : string;
  url_path : string
}.

(** The placeholder page text of lines 47-77. *)
Definition scraped_text (domain path : string) : string :=
  "
        Welcome to our premium offer at "
  ++ domain
  ++ path
  ++ ". 
        This is a comprehensive solution designed to help you achieve your goals faster.
        Our product has been carefully created to solve the biggest challenges you face.
        
        KEY BENEFITS:
        - Save time and increase productivity
        - Improve results with our proven system
        - Access exclusive resources and community
        - Learn from industry experts and professionals
        - Implement strategies that actually work
        
        Don't miss this opportunity to transform your results.
        
        OUR CUSTOMERS SAY:
        " ++ dq ++ "This product completely changed how I approach the problem. I've seen a 300% improvement!" ++ dq ++ "
        " ++ dq ++ "I wish I had found this years ago. The value is incredible." ++ dq ++ "
        " ++ dq ++ "The support and community alone make this worth every penny." ++ dq ++ "
        
        PRICING OPTIONS:
        Basic package: $97 one-time payment
        Premium package: $197 one-time payment
        Complete solution: $497 one-time payment
        
        LIMITED TIME OFFER:
        Act now and receive 50% off plus our exclusive bonuses worth over $1,000!
        
        GUARANTEE:
        We stand behind our product with a 30-day money-back guarantee.
        ".

(** The record of lines 80-133, given the parts of the address. *)
Definition scraped_page (url domain path : string) : value :=
  let title := "Sales Page for "
    ++ domain in
  let meta_desc := "Premium product offering from "
    ++ domain in
  let main_text := scraped_text domain path in
  VDict [
    ("url",
      VStr url);
    ("title",
      VStr title);
    ("meta_description",
      VStr meta_desc);
    ("main_text",
      VStr main_text);
    ("headings",
      VList [
        VDict [
          ("type",
            VStr "h1");
          ("text",
            VStr ("Premium Solution from "
                  ++ domain)) ];
        VDict [
          ("type",
            VStr "h2");
          ("text",
            VStr "Key Benefits") ];
        VDict [
          ("type",
            VStr "h2");
          ("text",
            VStr "Customer Testimonials") ];
        VDict [
          ("type",
            VStr "h2");
          ("text",
            VStr "Pricing Options") ];
        VDict [
          ("type",
            VStr "h3");
          ("text",
            VStr "Limited Time Offer") ] ]);
    ("sales_elements",
      VList [
        VDict [
          ("type",
            VStr "list");
          ("items",
            VList [
              VStr "Save time and increase productivity";
              VStr "Improve results with our proven system";
              VStr "Access exclusive resources and community";
              VStr "Learn from industry experts and professionals";
              VStr "Implement strategies that actually work" ]) ];
        VDict [
          ("type",
            VStr "testimonials");
          ("items",
            VList [
              VStr "This product completely changed how I approach the problem. I've seen a 300% improvement!";
              VStr "I wish I had found this years ago. The value is incredible.";
              VStr "The support and community alone make this worth every penny." ]) ] ]);
    ("images",
      VList [
        VDict [
          ("url",
            VStr "https://via.placeholder.com/600x400");
          ("alt",
            VStr "Product showcase") ];
        VDict [
          ("url",
            VStr "https://via.placeholder.com/300x300");
          ("alt",
            VStr "Customer results") ] ]);
    ("ctas",
      VList [
        VDict [
          ("type",
            VStr "button");
          ("text",
            VStr "Get Started Now");
          ("url",
            VStr "#order") ];
        VDict [
          ("type",
            VStr "form");
          ("elements",
            VList [
              VDict [
                ("type",
                  VStr "text");
                ("name",
                  VStr "name");
                ("placeholder",
                  VStr "Your Name") ];
              VDict [
                ("type",
                  VStr "email");
                ("name",
                  VStr "email");
                ("placeholder",
                  VStr "Your Email") ] ]);
          ("submit_text",
            VStr "Claim Your Discount") ] ]);
    ("pricing",
      VList [
        VDict [
          ("title",
            VStr "Basic Package");
          ("amount",
            VStr "97");
          ("text",
            VStr "Basic package: $97 one-time payment") ];
        VDict [
          ("title",
            VStr "Premium Package");
          ("amount",
            VStr "197");
          ("text",
            VStr "Premium package: $197 one-time payment") ];
        VDict [
          ("title",
            VStr "Complete Solution");
          ("amount",
            VStr "497");
          ("text",
            VStr "Complete solution: $497 one-time payment") ] ]);
    ("structure",
      VDict [
        ("header",
          VDict [
            ("content",
              VStr "Header navigation");
            ("has_nav",
              VBool true) ]);
        ("main_content",
          VDict [
            ("text_length",
              VInt 1500) ]);
        ("footer",
          VDict [
            ("content",
              VStr "Footer links and copyright") ]);
        ("sections",
          VList [
            VDict [
              ("heading",
                VStr "Key Benefits");
              ("text_length",
                VInt 300);
              ("has_image",
                VBool true);
              ("has_form",
                VBool false);
              ("has_button",
                VBool false) ];
            VDict [
              ("heading",
                VStr "Customer Testimonials");
              ("text_length",
                VInt 400);
              ("has_image",
                VBool true);
              ("has_form",
                VBool false);
              ("has_button",
                VBool false) ];
            VDict [
              ("heading",
                VStr "Pricing Options");
              ("text_length",
                VInt 200);
              ("has_image",
                VBool false);
              ("has_form",
                VBool false);
              ("has_button",
                VBool true) ];
            VDict [
              ("heading",
                VStr "Order Now");
              ("text_length",
                VInt 150);
              ("has_image",
                VBool false);
              ("has_form",
                VBool true);
              ("has_button",
                VBool true) ] ]) ]) ].

(** [scrape_url(url)] (lines 21-137), given the library's [urlparse]: any
    fault of the [try] block ends in [return None]. *)
Definition scrape_url (urlparse : string -> res url_parts) (url : string)
  : value :=
  match urlparse url with
  | Ok parsed_url =>
      if negb (truthy (VStr (url_scheme parsed_url)))
         || negb (truthy (VStr (url_netloc parsed_url)))
      then VNone
      else scraped_page url (url_netloc parsed_url) (url_path parsed_url)
  | Raise _ => VNone
  end.

(** ** app.py: the dictionary of the funnel form

    Lines 121-127 of [create_funnel]: the three text fields as
    [request.form.get] returns them ([None] when the form lacks the field)
    and the two counts after [int]. *)
Definition form_text (field : option string) : value :=
  match field with
  | Some s => VStr s
  | None => VNone
  end.

Definition form_customizations (brand_name unique_angle target_audience
  : option string) (num_upsells num_downsells : Z) : value :=
  VDict [ ("brand_name", form_text brand_name);
          ("unique_angle", form_text unique_angle);
          ("target_audience", form_text target_audience);
          ("num_upsells", VInt num_upsells);
          ("num_downsells", VInt num_downsells) ].

(** ** The script of [funnel.js]

    [handleButtonClick] of lines 393-412, as the browser runs it: the page
    it navigates to, or [None] when it returns without navigating. *)

(** [s.replace(pat, '')] in JavaScript: the first occurrence goes. *)
Fixpoint remove_first (pat s : string) {struct s} : string :=
  if prefix pat s
  then substring (String.length pat) (String.length s - String.length pat) s
  else match s with
       | EmptyString => EmptyString
       | String c s' => String c (remove_first pat s')
       end.

Definition handleButtonClick (action : string) : option string :=
  if (action =? "to_thank_you")%string then Some "thank_you.html"
  else if (action =? "exit")%string then None
  else Some (remove_first "to_" action ++ ".html").

(** ** More vocabulary *)

(** The fields of a main-page copy record. *)
Definition copy_shape : list string :=
  [ "headline"; "subheadline"; "intro"; "problem_statement";
    "solution_intro"; "benefits"; "features"; "social_proof";
    "pricing_section"; "guarantee"; "faq"; "cta_primary"; "cta_secondary" ].

(** The fields of an offer record. *)
Definition offer_shape : list string :=
  [ "offer_type"; "position"; "product_name"; "headline"; "description";
    "key_benefits"; "main_feature"; "price"; "price_description";
    "reason_to_buy"; "scarcity_element"; "cta_text" ].

Definition is_str (v : value) : bool :=
  match v with VStr _ => true | _ => false end.

(** What [o.get(k, default)] returns when [o] is a dictionary. *)
Definition get_or (o : value) (k : string) (default : value) : value :=
  match field k o with
  | Some v => v
  | None => default
  end.

(** The pain points line 147 can render: a string, an empty dictionary, or
    a list whose first two items, as far as present, are strings. *)
Definition pains_ok (pain_points : value) : bool :=
  match pain_points with
  | VStr _ => true
  | VDict [] => true
  | VList [] => true
  | VList [ p ] => is_str p
  | VList (p :: q :: _) => is_str p && is_str q
  | _ => false
  end.

(** The inputs the [try] block of [generate_copy] goes through. *)
Definition copy_inputs_ok (analysis customizations : value) : bool :=
  is_dict analysis && is_dict customizations
  && is_str (get_or analysis "product_type" (VStr "product"))
  && is_str (get_or customizations "target_audience"
               (get_or analysis "target_audience" (VStr "")))
  && pains_ok (get_or analysis "pain_points" (VList [])).

(** What [range] accepts. *)
Definition countable (v : value) : bool :=
  match v with VInt _ | VBool _ => true | _ => false end.

(** Price of the offer by type and position (the literals of lines
    293-395). *)
Definition offer_price (upsell : bool) (position : Z) : Z :=
  if position =? 1 then (if upsell then 297 else 197)
  else if position =? 2 then (if upsell then 397 else 147)
  else (if upsell then 997 else 97).

(** A rank for the positions of a flow of [U] upsells and [D] downsells:
    [main] first, then [upsell_i] before [downsell_i] before
    [upsell_(i+1)], and [thank_you] last. *)
Definition flow_rank (U D k : nat) : nat :=
  if (k =? 0)%nat then 0%nat
  else if (k <=? U)%nat then (2 * k - 1)%nat
  else if (k <=? U + D)%nat then (2 * (k - U))%nat
  else (2 * (U + D) + 1)%nat.

(** What [len] accepts among the values. *)
Definition sized (v : value) : bool :=
  match v with VList _ | VStr _ | VDict _ => true | _ => false end.

(** [urlparse] on the addresses of the sample deployment. *)
Definition urlparse_sample (url : string) : res url_parts :=
  if (url =? "https://example.com/offer")%string
  then Ok {| url_scheme := "https"; url_netloc := "example.com";
             url_path := "/offer" |}
  else if (url =? "http://[")%string
  then Raise (Exn ValueError "Invalid IPv6 URL")
  else Ok {| url_scheme := ""; url_netloc := ""; url_path := url |}.

(** The flow of [U] upsells and [D] downsells read by position: [main],
    the upsells, the downsells, [thank_you]. *)
Definition id_at (U D j : nat) : string :=
  if (j =? 0)%nat then "main"
  else if (j <=? U)%nat then "upsell_" ++ str_of_nat j
  else if (j <=? U + D)%nat then "downsell_" ++ str_of_nat (j - U)
  else "thank_you".

(** A click on the page at position [k] can lead to the page at position
    [j]: one of the two actions of the first is [to_x] and [x] is the id
    of the second. *)
Definition follows (flow : list value) (k j : nat) : Prop :=
  exists node target a x,
    nth_error flow k = Some node /\
    In a (node_actions node) /\
    action_target a = Some x /\
    nth_error flow j = Some target /\
    has_id x target = true.

(** * Proofs *)

(** ** The error monad and loops *)

Lemma bind_ok {A B : Type} (m : res A) (k : A -> res B) (b : B) :
  bind m k = Ok b -> exists a, m = Ok a /\ k a = Ok b.
Proof.
  destruct m as [a | e]; simpl; intros H; [eauto | discriminate].
Qed.

Ltac bind_inv H :=
  let a := fresh "a" in
  let Ha := fresh "Ha" in
  apply bind_ok in H; destruct H as (a & Ha & H).

Ltac bind_as H a Ha :=
  apply bind_ok in H; destruct H as (a & Ha & H).

Lemma mapM_ok_Forall2 {A B : Type} (f : A -> res B) (l : list A) (bs : list B) :
  mapM f l = Ok bs -> Forall2 (fun a b => f a = Ok b) l bs.
Proof.
  revert bs; induction l as [| a l IH]; simpl; intros bs H.
  - injection H as <-. constructor.
  - bind_inv H. bind_inv H. injection H as <-. constructor; auto.
Qed.

Lemma mapM_ok_Forall {A B : Type} (f : A -> res B) (P : B -> Prop)
  (l : list A) (bs : list B) :
  (forall a b, f a = Ok b -> P b) -> mapM f l = Ok bs -> Forall P bs.
Proof.
  intros HP H. apply mapM_ok_Forall2 in H.
  induction H; constructor; eauto.
Qed.

Lemma mapM_ok_length {A B : Type} (f : A -> res B) (l : list A) (bs : list B) :
  mapM f l = Ok bs -> List.length bs = List.length l.
Proof.
  intros H. apply mapM_ok_Forall2 in H. symmetry. eapply Forall2_length; eauto.
Qed.

Lemma enumerate_from_length {A : Type} (i : nat) (l : list A) :
  List.length (enumerate_from i l) = List.length l.
Proof.
  revert i; induction l; simpl; intros; [reflexivity | now rewrite IHl].
Qed.

(** ** Shape of the flow list *)

Lemma design_funnel_flow_ok main_page upsells downsells flow :
  design_funnel_flow main_page upsells downsells = Ok flow ->
  exists ups downs,
    mapM (upsell_node (Z.of_nat (List.length upsells))) (enumerate upsells) = Ok ups /\
    mapM (downsell_node (Z.of_nat (List.length upsells))) (enumerate downsells) = Ok downs /\
    flow = (main_node :: ups ++ downs ++ [thank_you_node])%list.
Proof.
  unfold design_funnel_flow. intros H.
  bind_inv H. bind_inv H. injection H as <-. eauto.
Qed.

Lemma upsell_node_ok n i u node :
  upsell_node n (i, u) = Ok node ->
  exists name,
    node = flow_node ("upsell_" ++ str_of_nat (i + 1)) "upsell" name
             (if Z.of_nat i <? n - 1
              then "to_upsell_" ++ str_of_nat (i + 2) else "to_thank_you")
             ("to_downsell_" ++ str_of_nat (i + 1)).
Proof.
  unfold upsell_node. intros H. bind_inv H. injection H as <-. eauto.
Qed.

Lemma downsell_node_ok n i d node :
  downsell_node n (i, d) = Ok node ->
  exists name,
    node = flow_node ("downsell_" ++ str_of_nat (i + 1)) "downsell" name
             (if Z.of_nat i <? n - 1
              then "to_upsell_" ++ str_of_nat (i + 2) else "to_thank_you")
             (if Z.of_nat i <? n - 1
              then "to_upsell_" ++ str_of_nat (i + 2) else "to_thank_you").
Proof.
  unfold downsell_node. intros H. bind_inv H. injection H as <-. eauto.
Qed.

Lemma count_app {A : Type} (p : A -> bool) (l1 l2 : list A) :
  List.length (filter p (l1 ++ l2))
  = (List.length (filter p l1) + List.length (filter p l2))%nat.
Proof.
  now rewrite filter_app, length_app.
Qed.

Lemma count_all {A : Type} (p : A -> bool) (l : list A) :
  Forall (fun x => p x = true) l -> List.length (filter p l) = List.length l.
Proof.
  induction 1 as [| x l Hx _ IH]; simpl; [reflexivity |].
  rewrite Hx. simpl. now rewrite IH.
Qed.

Lemma count_none {A : Type} (p : A -> bool) (l : list A) :
  Forall (fun x => p x = false) l -> List.length (filter p l) = 0%nat.
Proof.
  induction 1 as [| x l Hx _ IH]; simpl; [reflexivity |].
  now rewrite Hx.
Qed.

Lemma declared_app flow1 flow2 x :
  declared (flow1 ++ flow2) x = declared flow1 x || declared flow2 x.
Proof.
  unfold declared. apply existsb_app.
Qed.

Lemma declared_none flow x :
  Forall (fun n => has_id x n = false) flow -> declared flow x = false.
Proof.
  unfold declared. induction 1 as [| n l Hn _ IH]; simpl; [reflexivity |].
  now rewrite Hn.
Qed.

(** Every node the downsell loop appends is a downsell whose id starts
    with [downsell_]. *)
Lemma downsell_nodes n k downsells downs :
  mapM (downsell_node n) (enumerate_from k downsells) = Ok downs ->
  Forall (fun nd => has_type "downsell" nd = true /\
                    has_type "upsell" nd = false /\
                    has_id "upsell_1" nd = false /\
                    has_id "main" nd = false /\
                    has_id "thank_you" nd = false) downs.
Proof.
  apply mapM_ok_Forall. intros [i d] b H.
  apply downsell_node_ok in H. destruct H as (name & ->).
  repeat split; reflexivity.
Qed.

Lemma upsell_nodes n k upsells ups :
  mapM (upsell_node n) (enumerate_from k upsells) = Ok ups ->
  Forall (fun nd => has_type "upsell" nd = true /\
                    has_type "downsell" nd = false /\
                    has_id "main" nd = false /\
                    has_id "thank_you" nd = false) ups.
Proof.
  apply mapM_ok_Forall. intros [i d] b H.
  apply upsell_node_ok in H. destruct H as (name & ->).
  repeat split; reflexivity.
Qed.

(** ** Flow graph: the boundary cases *)

Lemma generate_funnel_ok E analysis customizations funnel :
  generate_funnel E analysis customizations = Ok funnel ->
  exists num_upsells num_downsells us ds info,
    dict_get customizations "num_upsells" (VInt 10) = Ok num_upsells /\
    py_range num_upsells = Ok us /\
    dict_get customizations "num_downsells" (VInt 10) = Ok num_downsells /\
    py_range num_downsells = Ok ds /\
    design_funnel_flow (generate_copy E analysis customizations)
      (map (fun i => generate_upsell E info "upsell" (Z.of_nat i + 1)) us)
      (map (fun i => generate_upsell E info "downsell" (Z.of_nat i + 1)) ds)
    = Ok (flow_of funnel).
Proof.
  unfold generate_funnel. intros H.
  bind_inv H. bind_inv H. bind_inv H. bind_inv H. bind_inv H. bind_inv H.
  bind_inv H. injection H as <-.
  do 5 eexists. repeat split; eauto.
Qed.

(** C3. With [num_upsells] equal to 0 the flow still opens with the main
    node whose accept action is the literal [to_upsell_1], and no node of
    the flow has the id [upsell_1]: the flow has no upsell node at all. *)
Theorem zero_upsells_dangling_accept E analysis customizations funnel :
  dict_get customizations "num_upsells" (VInt 10) = Ok (VInt 0) ->
  generate_funnel E analysis customizations = Ok funnel ->
  (exists rest, flow_of funnel = main_node :: rest) /\
  node_str "id" main_node = Some "main" /\
  node_str "accept_action" main_node = Some "to_upsell_1" /\
  count_type "upsell" (flow_of funnel) = 0%nat /\
  declared (flow_of funnel) "upsell_1" = false /\
  In "upsell_1" (dangling (flow_of funnel)).
Proof.
  intros Hn H.
  apply generate_funnel_ok in H.
  destruct H as (nu & nd & us & ds & info & Hnu & Hus & _ & _ & H).
  rewrite Hn in Hnu. injection Hnu as <-.
  simpl in Hus. injection Hus as <-. simpl in H.
  apply design_funnel_flow_ok in H. destruct H as (ups & downs & Hu & Hd & ->).
  simpl in Hu. injection Hu as <-. simpl app.
  pose proof (downsell_nodes _ _ _ _ Hd) as Hds.
  assert (Hdecl : declared (main_node :: downs ++ [thank_you_node]) "upsell_1"
                  = false).
  { change (main_node :: downs ++ [thank_you_node])%list
      with ([main_node] ++ downs ++ [thank_you_node])%list.
    rewrite !declared_app.
    rewrite (declared_none downs).
    - reflexivity.
    - eapply Forall_impl; [| exact Hds]. simpl. tauto. }
  repeat split.
  - eauto.
  - change (main_node :: downs ++ [thank_you_node])%list
      with ([main_node] ++ downs ++ [thank_you_node])%list.
    unfold count_type. rewrite !count_app.
    rewrite (count_none (has_type "upsell") downs).
    + reflexivity.
    + eapply Forall_impl; [| exact Hds]. simpl. tauto.
  - exact Hdecl.
  - unfold dangling. apply filter_In. split.
    + simpl. left. reflexivity.
    + now rewrite Hdecl.
Qed.

Lemma zero_upsells_dangling_accept_witness :
  exists funnel,
    generate_funnel offline (VDict []) (customize 0 2) = Ok funnel /\
    In "upsell_1" (dangling (flow_of funnel)).
Proof.
  eexists. split; [reflexivity |].
  eapply (zero_upsells_dangling_accept offline (VDict [])
            (customize 0 2)); reflexivity.
Defined.

(** C1, at [num_upsells = 2], [num_downsells = 1].  The counts are as the
    claim says (two upsell nodes, one downsell node, one [main], one
    [thank_you]), but the decline action of [upsell_2] is [to_downsell_2]
    and the flow declares no node [downsell_2]. *)
Theorem more_upsells_than_downsells E fields :
  exists funnel,
    generate_funnel E (VDict fields) (customize 2 1) = Ok funnel /\
    count_type "upsell" (flow_of funnel) = 2%nat /\
    count_type "downsell" (flow_of funnel) = 1%nat /\
    count_id "main" (flow_of funnel) = 1%nat /\
    count_id "thank_you" (flow_of funnel) = 1%nat /\
    (exists name,
       nth_error (flow_of funnel) 2 =
       Some (flow_node "upsell_2" "upsell" name "to_thank_you" "to_downsell_2")) /\
    declared (flow_of funnel) "downsell_2" = false /\
    dangling (flow_of funnel) = ["downsell_2"].
Proof.
  eexists. split; [reflexivity |].
  repeat split; try reflexivity.
  eexists. reflexivity.
Qed.

(** ** Flow graph: counts, and closure when no upsell outnumbers the
    downsells *)

Lemma mapM_enumerate_In {A B : Type} (f : nat * A -> res B) (k : nat)
  (l : list A) (bs : list B) (b : B) :
  mapM f (enumerate_from k l) = Ok bs -> In b bs ->
  exists i a, (k <= i < k + List.length l)%nat /\ f (i, a) = Ok b.
Proof.
  revert k bs; induction l as [| a l IH]; simpl; intros k bs H Hin.
  - injection H as <-. contradiction.
  - bind_as H b0 Hb0. bind_as H bs0 Hbs0. injection H as <-.
    destruct Hin as [<- | Hin].
    + exists k, a. split; [lia | assumption].
    + destruct (IH _ _ Hbs0 Hin) as (i & a' & Hi & Hf).
      exists i, a'. split; [lia | assumption].
Qed.

Lemma mapM_enumerate_nth {A B : Type} (f : nat * A -> res B) (k : nat)
  (l : list A) (bs : list B) (j : nat) :
  mapM f (enumerate_from k l) = Ok bs -> (j < List.length l)%nat ->
  exists a b, In b bs /\ f ((k + j)%nat, a) = Ok b.
Proof.
  revert k bs j; induction l as [| a l IH]; simpl; intros k bs j H Hj.
  - lia.
  - bind_as H b0 Hb0. bind_as H bs0 Hbs0. injection H as <-.
    destruct j as [| j].
    + exists a, b0. rewrite Nat.add_0_r. split; [now left | assumption].
    + destruct (IH (S k) bs0 j Hbs0) as (a' & b & Hin & Hf); [lia |].
      exists a', b. replace (k + S j)%nat with (S k + j)%nat by lia.
      split; [now right | assumption].
Qed.

Lemma has_id_flow_node id type name accept decline :
  has_id id (flow_node id type name accept decline) = true.
Proof.
  unfold has_id. simpl. apply String.eqb_refl.
Qed.

Lemma declared_In flow node x :
  In node flow -> has_id x node = true -> declared flow x = true.
Proof.
  intros Hin Hid. unfold declared. apply existsb_exists. eauto.
Qed.

(** The upsell loop declares [upsell_(j+1)] for every [j] below
    [len(upsells)]. *)
Lemma upsell_declared n upsells ups j :
  mapM (upsell_node n) (enumerate upsells) = Ok ups ->
  (j < List.length upsells)%nat ->
  declared ups ("upsell_" ++ str_of_nat (j + 1)) = true.
Proof.
  intros H Hj.
  destruct (mapM_enumerate_nth _ _ _ _ j H Hj) as (a & b & Hin & Hf).
  simpl in Hf. apply upsell_node_ok in Hf. destruct Hf as (name & ->).
  eapply declared_In; [exact Hin | apply has_id_flow_node].
Qed.

Lemma downsell_declared n downsells downs j :
  mapM (downsell_node n) (enumerate downsells) = Ok downs ->
  (j < List.length downsells)%nat ->
  declared downs ("downsell_" ++ str_of_nat (j + 1)) = true.
Proof.
  intros H Hj.
  destruct (mapM_enumerate_nth _ _ _ _ j H Hj) as (a & b & Hin & Hf).
  simpl in Hf. apply downsell_node_ok in Hf. destruct Hf as (name & ->).
  eapply declared_In; [exact Hin | apply has_id_flow_node].
Qed.

Lemma design_funnel_flow_counts main_page upsells downsells flow :
  design_funnel_flow main_page upsells downsells = Ok flow ->
  count_type "upsell" flow = List.length upsells /\
  count_type "downsell" flow = List.length downsells /\
  count_id "main" flow = 1%nat /\
  count_id "thank_you" flow = 1%nat.
Proof.
  intros H. apply design_funnel_flow_ok in H.
  destruct H as (ups & downs & Hu & Hd & ->).
  pose proof (upsell_nodes _ _ _ _ Hu) as Hus.
  pose proof (downsell_nodes _ _ _ _ Hd) as Hds.
  pose proof (mapM_ok_length _ _ _ Hu) as Lu.
  pose proof (mapM_ok_length _ _ _ Hd) as Ld.
  unfold enumerate in Lu, Ld. rewrite enumerate_from_length in Lu, Ld.
  change (main_node :: ups ++ downs ++ [thank_you_node])%list
    with ([main_node] ++ ups ++ downs ++ [thank_you_node])%list.
  unfold count_type, count_id. rewrite !count_app.
  repeat split.
  - rewrite (count_all (has_type "upsell") ups),
      (count_none (has_type "upsell") downs);
      try (eapply Forall_impl; [| eassumption]; simpl; tauto).
    simpl. lia.
  - rewrite (count_none (has_type "downsell") ups),
      (count_all (has_type "downsell") downs);
      try (eapply Forall_impl; [| eassumption]; simpl; tauto).
    simpl. lia.
  - rewrite (count_none (has_id "main") ups),
      (count_none (has_id "main") downs);
      try (eapply Forall_impl; [| eassumption]; simpl; tauto).
    reflexivity.
  - rewrite (count_none (has_id "thank_you") ups),
      (count_none (has_id "thank_you") downs);
      try (eapply Forall_impl; [| eassumption]; simpl; tauto).
    reflexivity.
Qed.

(** With at least one upsell and at least as many downsells as upsells,
    every [to_x] action of the flow names a declared node. *)
Lemma design_funnel_flow_closed main_page upsells downsells flow :
  design_funnel_flow main_page upsells downsells = Ok flow ->
  (1 <= List.length upsells <= List.length downsells)%nat ->
  forall node a x,
    In node flow -> In a (node_actions node) -> action_target a = Some x ->
    declared flow x = true.
Proof.
  intros H [HU HD] node a x Hnode Ha Hx.
  apply design_funnel_flow_ok in H.
  destruct H as (ups & downs & Hu & Hd & ->).
  set (n := Z.of_nat (List.length upsells)) in *.
  assert (Hup : forall j, (j < List.length upsells)%nat ->
            declared (main_node :: ups ++ downs ++ [thank_you_node])
              ("upsell_" ++ str_of_nat (j + 1)) = true).
  { intros j Hj.
    change (main_node :: ups ++ downs ++ [thank_you_node])%list
      with ([main_node] ++ ups ++ downs ++ [thank_you_node])%list.
    rewrite !declared_app, (upsell_declared _ _ _ _ Hu Hj).
    now rewrite orb_true_r. }
  assert (Hdown : forall j, (j < List.length downsells)%nat ->
            declared (main_node :: ups ++ downs ++ [thank_you_node])
              ("downsell_" ++ str_of_nat (j + 1)) = true).
  { intros j Hj.
    change (main_node :: ups ++ downs ++ [thank_you_node])%list
      with ([main_node] ++ ups ++ downs ++ [thank_you_node])%list.
    rewrite !declared_app, (downsell_declared _ _ _ _ Hd Hj).
    now rewrite !orb_true_r. }
  assert (Hty : declared (main_node :: ups ++ downs ++ [thank_you_node])
                  "thank_you" = true).
  { change (main_node :: ups ++ downs ++ [thank_you_node])%list
      with ([main_node] ++ ups ++ downs ++ [thank_you_node])%list.
    rewrite !declared_app. simpl. now rewrite !orb_true_r. }
  assert (Hnext : forall i,
            action_target (if Z.of_nat i <? n - 1
                           then "to_upsell_" ++ str_of_nat (i + 2)
                           else "to_thank_you") = Some x ->
            declared (main_node :: ups ++ downs ++ [thank_you_node]) x = true).
  { intros i. destruct (Z.ltb_spec (Z.of_nat i) (n - 1)) as [Hlt | Hge]; simpl;
      intros [= <-]; [| exact Hty].
    replace (i + 2)%nat with (i + 1 + 1)%nat by lia.
    apply Hup. unfold n in Hlt. lia. }
  destruct Hnode as [<- | Hnode].
  - (* main *)
    simpl in Ha. destruct Ha as [<- | [<- | []]]; simpl in Hx;
      [| discriminate].
    injection Hx as <-. apply (Hup 0%nat). lia.
  - apply in_app_or in Hnode. destruct Hnode as [Hnode | Hnode].
    + (* an upsell *)
      destruct (mapM_enumerate_In _ _ _ _ _ Hu Hnode) as (i & u & Hi & Hf).
      apply upsell_node_ok in Hf. destruct Hf as (name & ->).
      simpl in Ha. destruct Ha as [<- | [<- | []]].
      * apply (Hnext i). exact Hx.
      * simpl in Hx. injection Hx as <-. apply Hdown. lia.
    + apply in_app_or in Hnode. destruct Hnode as [Hnode | Hnode].
      * (* a downsell *)
        destruct (mapM_enumerate_In _ _ _ _ _ Hd Hnode) as (i & d & Hi & Hf).
        apply downsell_node_ok in Hf. destruct Hf as (name & ->).
        simpl in Ha. destruct Ha as [<- | [<- | []]];
          apply (Hnext i); exact Hx.
      * (* thank you *)
        destruct Hnode as [<- | []].
        simpl in Ha. destruct Ha as [<- | [<- | []]]; discriminate.
Qed.

Lemma dict_get_dict o k default :
  is_dict o = true -> exists v, dict_get o k default = Ok v.
Proof.
  destruct o; try discriminate. simpl. eauto.
Qed.

Lemma generate_upsell_is_dict E info kind position :
  is_dict (generate_upsell E info kind position) = true.
Proof.
  unfold generate_upsell, generate_upsell_try.
  destruct info; reflexivity.
Qed.

Lemma mapM_defined {A B : Type} (f : A -> res B) (l : list A) :
  (forall a, In a l -> exists b, f a = Ok b) -> exists bs, mapM f l = Ok bs.
Proof.
  induction l as [| a l IH]; simpl; intros H; [eauto |].
  destruct (H a (or_introl eq_refl)) as (b & ->).
  destruct IH as (bs & ->); [intros; apply H; now right |].
  simpl. eauto.
Qed.

Lemma enumerate_from_In {A : Type} (k i : nat) (a : A) (l : list A) :
  In (i, a) (enumerate_from k l) -> In a l.
Proof.
  revert k; induction l as [| b l IH]; simpl; intros k H; [assumption |].
  destruct H as [[= _ ->] | H]; [now left | right; eauto].
Qed.

(** The flow of a list of records is always built. *)
Lemma design_funnel_flow_defined main_page upsells downsells :
  Forall (fun o => is_dict o = true) upsells ->
  Forall (fun o => is_dict o = true) downsells ->
  exists flow, design_funnel_flow main_page upsells downsells = Ok flow.
Proof.
  intros Hu Hd. unfold design_funnel_flow.
  rewrite Forall_forall in Hu, Hd.
  destruct (mapM_defined (upsell_node (Z.of_nat (List.length upsells)))
              (enumerate upsells)) as (ups & ->).
  { intros [i u] Hin. apply enumerate_from_In in Hin. apply Hu in Hin.
    destruct u; try discriminate. simpl. eauto. }
  destruct (mapM_defined (downsell_node (Z.of_nat (List.length upsells)))
              (enumerate downsells)) as (downs & ->).
  { intros [i d] Hin. apply enumerate_from_In in Hin. apply Hd in Hin.
    destruct d; try discriminate. simpl. eauto. }
  simpl. eauto.
Qed.

Lemma dangling_nil flow :
  (forall node a x,
     In node flow -> In a (node_actions node) -> action_target a = Some x ->
     declared flow x = true) ->
  dangling flow = [].
Proof.
  intros H. unfold dangling.
  match goal with |- filter ?p ?l = [] =>
    assert (Hall : forall x, In x l -> p x = false) end.
  { intros x Hx. apply in_flat_map in Hx. destruct Hx as (a & Ha & Hx).
    apply in_flat_map in Ha. destruct Ha as (node & Hnode & Ha).
    destruct (action_target a) as [y |] eqn:Hy; [| contradiction].
    destruct Hx as [<- | []].
    now rewrite (H node a y Hnode Ha Hy). }
  induction (flat_map _ _) as [| x l IH]; simpl; [reflexivity |].
  rewrite (Hall x (or_introl eq_refl)). simpl.
  apply IH. intros; apply Hall; now right.
Qed.

(** X1. The counts of the flow, for any two requested numbers: the composer
    returns a funnel whose flow has as many upsell nodes as requested
    upsells, as many downsell nodes as requested downsells, one [main] and
    one [thank_you]. *)
Theorem generate_funnel_counts E analysis customizations U D :
  is_dict analysis = true ->
  dict_get customizations "num_upsells" (VInt 10) = Ok (VInt U) ->
  dict_get customizations "num_downsells" (VInt 10) = Ok (VInt D) ->
  exists funnel,
    generate_funnel E analysis customizations = Ok funnel /\
    count_type "upsell" (flow_of funnel) = Z.to_nat U /\
    count_type "downsell" (flow_of funnel) = Z.to_nat D /\
    count_id "main" (flow_of funnel) = 1%nat /\
    count_id "thank_you" (flow_of funnel) = 1%nat.
Proof.
  intros Ha HU HD.
  assert (Hc : is_dict customizations = true)
    by (destruct customizations; try discriminate; reflexivity).
  destruct (dict_get_dict analysis "product_type" (VStr "product") Ha)
    as (product_type & Hp).
  destruct (dict_get_dict customizations "brand_name" (VStr "Our Product") Hc)
    as (brand_name & Hb).
  unfold generate_funnel.
  rewrite Hp, Hb, HU, HD. cbn [bind py_range].
  match goal with |- context [design_funnel_flow ?m ?u ?d] =>
    destruct (design_funnel_flow_defined m u d) as (flow & Hflow) end.
  { apply Forall_forall. intros o Ho. apply in_map_iff in Ho.
    destruct Ho as (i & <- & _). apply generate_upsell_is_dict. }
  { apply Forall_forall. intros o Ho. apply in_map_iff in Ho.
    destruct Ho as (i & <- & _). apply generate_upsell_is_dict. }
  rewrite Hflow. simpl. eexists. split; [reflexivity |].
  unfold flow_of. simpl field.
  apply design_funnel_flow_counts in Hflow.
  rewrite !length_map, !length_seq in Hflow. exact Hflow.
Qed.

Lemma generate_funnel_counts_witness :
  exists funnel,
    generate_funnel offline (VDict []) (customize 3 5) = Ok funnel /\
    count_type "upsell" (flow_of funnel) = 3%nat /\
    count_type "downsell" (flow_of funnel) = 5%nat /\
    count_id "main" (flow_of funnel) = 1%nat /\
    count_id "thank_you" (flow_of funnel) = 1%nat.
Proof.
  exact (generate_funnel_counts offline (VDict []) (customize 3 5)
           3 5 eq_refl eq_refl eq_refl).
Defined.

(** X2. When at least one upsell is requested and at least as many
    downsells as upsells, every [to_x] action of the flow names a declared
    node. *)
Theorem generate_funnel_closed E analysis customizations U D funnel :
  dict_get customizations "num_upsells" (VInt 10) = Ok (VInt U) ->
  dict_get customizations "num_downsells" (VInt 10) = Ok (VInt D) ->
  1 <= U <= D ->
  generate_funnel E analysis customizations = Ok funnel ->
  (forall node a x,
     In node (flow_of funnel) -> In a (node_actions node) ->
     action_target a = Some x -> declared (flow_of funnel) x = true) /\
  dangling (flow_of funnel) = [].
Proof.
  intros HU HD HUD H.
  apply generate_funnel_ok in H.
  destruct H as (nu & nd & us & ds & info & Hnu & Hus & Hnd & Hds & H).
  rewrite HU in Hnu. injection Hnu as <-.
  rewrite HD in Hnd. injection Hnd as <-.
  simpl in Hus, Hds. injection Hus as <-. injection Hds as <-.
  assert (Hclosed := design_funnel_flow_closed _ _ _ _ H).
  rewrite !length_map, !length_seq in Hclosed.
  assert (Hlen : (1 <= Z.to_nat U <= Z.to_nat D)%nat) by lia.
  split; [exact (Hclosed Hlen) | apply dangling_nil; exact (Hclosed Hlen)].
Qed.

Lemma generate_funnel_closed_witness :
  exists funnel,
    generate_funnel offline (VDict []) (customize 2 2) = Ok funnel /\
    dangling (flow_of funnel) = [].
Proof.
  eexists. split; [reflexivity |].
  apply (generate_funnel_closed offline (VDict []) (customize 2 2)
           2 2 _ eq_refl eq_refl ltac:(lia) eq_refl).
Defined.

(** ** Offer generator *)

Lemma py_str_ext E1 E2 v :
  (forall x, py_repr E1 x = py_repr E2 x) -> py_str E1 v = py_str E2 v.
Proof.
  intros H. destruct v; simpl; auto.
Qed.

(** C4. For a position beyond 3 the offer is built from the same template
    as at position 3: the two records agree on every entry but [position],
    which holds the position asked for.  More generally, from position 1
    on the template is the one of [min(position, 3)]. *)
Theorem positions_beyond_three_reuse_variant_three E info kind position :
  3 < position ->
  template_of (generate_upsell E info kind position)
  = template_of (generate_upsell E info kind 3) /\
  field "position" (generate_upsell E info kind position)
  = Some (VInt position) /\
  (forall p, 1 <= p ->
     template_of (generate_upsell E info kind p)
     = template_of (generate_upsell E info kind (Z.min p 3))).
Proof.
  intros Hpos.
  assert (Hgen : forall p q,
            (p =? 1) = (q =? 1) -> (p =? 2) = (q =? 2) ->
            template_of (generate_upsell E info kind p)
            = template_of (generate_upsell E info kind q)).
  { intros p q H1 H2.
    unfold generate_upsell, generate_upsell_try.
    destruct (dict_get info "product_type" (VStr "product")) as [pt | e];
      [| reflexivity].
    destruct (dict_get info "brand_name" (VStr "Our Product")) as [bn | e];
      [| reflexivity].
    cbn [bind]. rewrite H1, H2.
    destruct (kind =? "upsell")%string, (q =? 1), (q =? 2); reflexivity. }
  split; [| split].
  - apply Hgen.
    + destruct (Z.eqb_spec position 1); [lia | reflexivity].
    + destruct (Z.eqb_spec position 2); [lia | reflexivity].
  - unfold generate_upsell, generate_upsell_try.
    destruct (dict_get info "product_type" (VStr "product")) as [pt | e];
      [| reflexivity].
    destruct (dict_get info "brand_name" (VStr "Our Product")) as [bn | e];
      [| reflexivity].
    cbn [bind].
    destruct (kind =? "upsell")%string, (position =? 1), (position =? 2);
      reflexivity.
  - intros p Hp. apply Hgen.
    + destruct (Z.eqb_spec p 1), (Z.eqb_spec (Z.min p 3) 1); try reflexivity; lia.
    + destruct (Z.eqb_spec p 2), (Z.eqb_spec (Z.min p 3) 2); try reflexivity; lia.
Qed.

Lemma positions_beyond_three_reuse_variant_three_witness :
  template_of (generate_upsell offline acme_info "downsell" 7)
  = template_of (generate_upsell offline acme_info "downsell" 3) /\
  field "price" (generate_upsell offline acme_info "downsell" 7)
  = Some (VInt 97).
Proof.
  split.
  - exact (proj1 (positions_beyond_three_reuse_variant_three offline acme_info
                    "downsell" 7 eq_refl)).
  - reflexivity.
Defined.

(** C9, as the code has it.  What a call does is fixed by its arguments
    and by how Python renders text: two calls with the same arguments log
    the same records and return the same offer, whatever the templates,
    the text-generation service, the clock and the export directory are
    at either call.  The call is not free of output: it logs one [DEBUG]
    record when it starts and, when the product information is not a
    dictionary, one [ERROR] record with the fault. *)
Theorem generate_upsell_deterministic E1 E2 info kind position :
  (forall v, py_repr E1 v = py_repr E2 v) ->
  (forall s, str_title E1 s = str_title E2 s) ->
  generate_upsell_run E1 info kind position
  = generate_upsell_run E2 info kind position /\
  snd (generate_upsell_run E1 info kind position)
  = generate_upsell E1 info kind position /\
  generate_upsell E1 info kind position
  = generate_upsell E2 info kind position /\
  fst (generate_upsell_run E1 info kind position)
  = (DEBUG, "Generating " ++ kind ++ " at position " ++ str_of_Z position)
    :: (if is_dict info then []
        else [ (ERROR, "Error generating " ++ kind ++ ": "
                         ++ exn_str (no_attribute info "get")) ]).
Proof.
  intros Hr Ht.
  unfold generate_upsell_run, generate_upsell, generate_upsell_try.
  destruct info as [| b | z | s | l | d]; cbn [dict_get bind is_dict];
    try (unfold upsell_fallback; rewrite Ht; repeat split; reflexivity).
  rewrite (py_str_ext E1 E2 _ Hr). repeat split; reflexivity.
Qed.

Lemma generate_upsell_deterministic_witness :
  generate_upsell_run offline acme_info "upsell" 2
  = generate_upsell_run online acme_info "upsell" 2 /\
  generate_upsell offline acme_info "upsell" 2
  = generate_upsell online acme_info "upsell" 2.
Proof.
  destruct (generate_upsell_deterministic offline online acme_info "upsell" 2)
    as (Hrun & _ & Hoffer & _); try reflexivity.
  split; assumption.
Defined.

(** C9 as stated fails on "no I/O": a call with well-formed arguments
    writes a log record, and one whose product information is missing
    writes two. *)
Lemma generate_upsell_writes_log :
  fst (generate_upsell_run offline acme_info "upsell" 2)
  = [ (DEBUG, "Generating upsell at position 2") ] /\
  fst (generate_upsell_run offline VNone "downsell" 1)
  = [ (DEBUG, "Generating downsell at position 1");
      (ERROR, "Error generating downsell: 'NoneType' object has no attribute 'get'") ] /\
  fst (generate_upsell_run offline acme_info "upsell" 2) <> [].
Proof.
  repeat split; try reflexivity. discriminate.
Qed.

(** ** Page analyzer *)

(** C5, on a fault inside the [try] block of [analyze_page].  The function
    does return a record with [error] set, but the record has no [title]
    entry: [title] is the one field of the analysis shape it lacks. *)
Theorem analyze_page_fallback_lacks_title E page_data url e :
  analyze_page_try E page_data url = Raise e ->
  analyze_page E page_data url = analysis_fallback url e /\
  field "error" (analyze_page E page_data url) = Some (VStr (exn_str e)) /\
  has_key "title" (analyze_page E page_data url) = false /\
  missing analysis_shape (analyze_page E page_data url) = [ "title" ].
Proof.
  intros H. unfold analyze_page. rewrite H. repeat split.
Qed.

Lemma analyze_page_fallback_lacks_title_witness :
  analyze_page_try offline (VDict [ ("title", VStr "Offer") ]) "http://["
  = Raise (Exn ValueError "Invalid IPv6 URL") /\
  missing analysis_shape
    (analyze_page offline (VDict [ ("title", VStr "Offer") ]) "http://[")
  = [ "title" ].
Proof.
  split; [reflexivity |].
  apply (analyze_page_fallback_lacks_title offline
           (VDict [ ("title", VStr "Offer") ]) "http://["
           (Exn ValueError "Invalid IPv6 URL")).
  reflexivity.
Defined.

(** Without a fault the record has every field of the shape. *)
Lemma analyze_page_sample_complete E page_data url analysis :
  analyze_page_try E page_data url = Ok analysis ->
  analyze_page E page_data url = analysis /\
  missing analysis_shape analysis = [] /\
  has_key "error" analysis = false.
Proof.
  intros H. unfold analyze_page. rewrite H. split; [reflexivity |].
  unfold analyze_page_try in H.
  bind_as H domain Hd. bind_as H title Ht. injection H as <-.
  split; reflexivity.
Qed.

(** ** Email sequence generator *)

Lemma build_prompt_brand E main_page upsells customizations params brand prompt :
  build_prompt E main_page upsells customizations params = Ok (brand, prompt) ->
  dict_get customizations "brand_name" (VStr "Our Product") = Ok brand.
Proof.
  unfold build_prompt. intros H.
  bind_as H n Hn. bind_as H num Hnum. bind_as H st Hst. bind_as H es Hes.
  bind_as H b Hb. bind_as H ph Hph. bind_as H bs Hbs. bind_as H j Hj.
  bind_as H extra Hx. injection H as <- _. exact Hb.
Qed.

Lemma call_fault_request E brand prompt e :
  call_fault E brand prompt e <-> request E brand prompt = Raise e.
Proof.
  unfold request. split.
  - intros [H | H | v H Hv]; rewrite H; simpl; auto.
  - destruct (chat E system_prompt prompt) as [e' | [v | e']] eqn:Hc; simpl.
    + intros [= ->]. now apply network_fault.
    + intros H. now apply (wrong_shape _ _ _ _ v).
    + intros [= ->]. now apply malformed_json.
Qed.

(** C6, as the code has it.  When the [try] block reaches the request and
    the external step faults (the request raises, the text is not JSON, or
    the parsed value has the wrong shape), the function returns the fixed
    sequence: [num_emails] is 3, [error] holds the text of the fault, three
    emails are listed, and nothing is raised.  An answer that is a JSON
    object without [emails] is no fault: it is returned with [num_emails]
    0 and [brand_name] added, and gets no [error]. *)
Theorem service_fault_returns_fallback
  E funnel_data params main_page upsells customizations brand prompt :
  read_funnel funnel_data = Ok (main_page, upsells, customizations) ->
  build_prompt E main_page upsells customizations (or_empty params)
  = Ok (brand, prompt) ->
  (forall e,
     call_fault E brand prompt e ->
     exists sequence,
       generate_email_sequence E funnel_data params = Ok sequence /\
       sequence = email_fallback e brand /\
       field "num_emails" sequence = Some (VInt 3) /\
       field "error" sequence = Some (VStr (exn_str e)) /\
       List.length (records "emails" (Text sequence)) = 3%nat) /\
  (forall d,
     chat E system_prompt prompt = Content (Ok (VDict d)) ->
     assoc "emails" d = None ->
     generate_email_sequence E funnel_data params
     = Ok (VDict (dict_set "brand_name" brand
                    (dict_set "num_emails" (VInt 0) d)))).
Proof.
  intros Hr Hb.
  pose proof (build_prompt_brand _ _ _ _ _ _ _ Hb) as Hbrand.
  split.
  - intros e Hf. apply call_fault_request in Hf.
    exists (email_fallback e brand).
    unfold generate_email_sequence. rewrite Hr, Hb. cbn [bind fst snd].
    rewrite Hf, Hbrand. repeat split.
  - intros d Hchat Hemails.
    unfold generate_email_sequence. rewrite Hr, Hb. cbn [bind fst snd].
    unfold request. rewrite Hchat. cbn [bind].
    unfold add_metadata, len_of. cbn [dict_get]. rewrite Hemails.
    reflexivity.
Qed.

Lemma service_fault_returns_fallback_witness :
  exists sequence,
    generate_email_sequence offline plain_funnel VNone = Ok sequence /\
    field "num_emails" sequence = Some (VInt 3) /\
    field "error" sequence = Some (VStr "Connection error.").
Proof.
  destruct (read_funnel plain_funnel) as [[[m u] c] | e] eqn:Hr;
    [| discriminate Hr].
  destruct (build_prompt offline m u c (or_empty VNone)) as [[b p] | e] eqn:Hb;
    [| vm_compute in Hr; injection Hr as <- <- <-; vm_compute in Hb;
       discriminate Hb].
  destruct (proj1 (service_fault_returns_fallback offline plain_funnel VNone
                     m u c b p Hr Hb)
              (Exn ServiceError "Connection error."))
    as (sequence & Hs & _ & Hn & He & _).
  { apply network_fault. reflexivity. }
  exists sequence. repeat split; assumption.
Defined.

(** C6 as stated fails for missing fields: when the service answers with a
    JSON object that lacks [emails] and the other fields, nothing faults
    and the object is returned as it is, with [num_emails] 0 and no
    [error]. *)
Lemma missing_fields_are_not_a_fault :
  (forall system user,
     chat online system user
     = Content (Ok (VDict [ ("sequence_name", VStr "Launch sequence") ]))) /\
  generate_email_sequence online plain_funnel VNone
  = Ok (VDict [ ("sequence_name", VStr "Launch sequence");
                ("num_emails", VInt 0);
                ("brand_name", VStr "Acme") ]).
Proof.
  split; reflexivity.
Qed.

(** X3. A funnel composed by [generate_funnel] whose main page is not the
    fallback copy never reaches the text-generation service: its
    [benefits] are records, [", ".join] of line 60 raises, and the email
    generator returns the fixed three-email sequence whatever the service
    would have answered. *)
Theorem composed_funnel_never_reaches_service E analysis customizations funnel
  params :
  generate_funnel E analysis customizations = Ok funnel ->
  has_key "error" (generate_copy E analysis customizations) = false ->
  (exists e brand,
     generate_email_sequence E funnel params = Ok (email_fallback e brand)) /\
  (exists brand,
     generate_email_sequence E funnel VNone
     = Ok (email_fallback
             (Exn TypeError "sequence item 0: expected str instance, dict found")
             brand)).
Proof.
  intros H Hcopy.
  assert (Hc : exists cd, customizations = VDict cd).
  { unfold generate_funnel in H. bind_as H pt Hpt. bind_as H bn Hbn.
    destruct customizations; try discriminate. eauto. }
  destruct Hc as (cd & ->).
  assert (Hshape : exists ups downs flow brand,
            funnel = VDict [ ("main_page", generate_copy E analysis (VDict cd));
                             ("upsells", VList ups);
                             ("downsells", VList downs);
                             ("funnel_flow", VList flow);
                             ("customizations", VDict cd);
                             ("base_analysis", analysis) ] /\
            dict_get (VDict cd) "brand_name" (VStr "Our Product") = Ok brand).
  { unfold generate_funnel in H.
    bind_as H pt Hpt. bind_as H bn Hbn. bind_as H nu Hnu. bind_as H us Hus.
    bind_as H nd Hnd. bind_as H ds Hds. bind_as H fl Hfl. injection H as <-.
    do 4 eexists. split; [reflexivity | exact Hbn]. }
  destruct Hshape as (ups & downs & flow & brand & -> & Hbrand).
  assert (Hsample : exists b pt h a pl al p0 p1 an,
            generate_copy E analysis (VDict cd)
            = copy_sample b pt h a pl al p0 p1 an).
  { unfold generate_copy in Hcopy |- *.
    destruct (generate_copy_try E analysis (or_empty (VDict cd)))
      as [copy | e] eqn:Htry; [| cbn in Hcopy; discriminate Hcopy].
    unfold generate_copy_try in Htry.
    repeat (let x := fresh "x" in let Hx := fresh "Hx" in bind_as Htry x Hx).
    injection Htry as <-. do 9 eexists. reflexivity. }
  destruct Hsample as (b & pt & h & a & pl & al & p0 & p1 & an & Hsample).
  assert (Hbuild : forall ps,
            exists e,
              build_prompt E (copy_sample b pt h a pl al p0 p1 an) (VList ups)
                (VDict cd) ps = Raise e /\
              (ps = VDict [] ->
               e = Exn TypeError
                     "sequence item 0: expected str instance, dict found")).
  { intros ps. unfold build_prompt.
    destruct (dict_get ps "num_emails" (VInt 10)) as [n | e] eqn:Hn;
      [| exists e; split; [reflexivity | intros ->; discriminate Hn]].
    cbn [bind].
    destruct (min_20 n) as [m | e] eqn:Hm;
      [| exists e; split;
         [reflexivity | intros ->; injection Hn as <-; discriminate Hm]].
    cbn [bind].
    destruct (dict_get ps "sequence_type" (VStr "sales")) as [st | e] eqn:Hst;
      [| exists e; split; [reflexivity | intros ->; discriminate Hst]].
    cbn [bind].
    destruct (dict_get ps "email_style" (VStr "conversational"))
      as [es | e] eqn:Hes;
      [| exists e; split; [reflexivity | intros ->; discriminate Hes]].
    cbn [bind]. rewrite Hbrand. cbn [bind].
    eexists. split; [reflexivity | reflexivity]. }
  unfold generate_email_sequence.
  change (read_funnel
            (VDict [ ("main_page", generate_copy E analysis (VDict cd));
                     ("upsells", VList ups);
                     ("downsells", VList downs);
                     ("funnel_flow", VList flow);
                     ("customizations", VDict cd);
                     ("base_analysis", analysis) ]))
    with (Ok (generate_copy E analysis (VDict cd), VList ups, VDict cd)).
  rewrite Hsample. cbv iota beta.
  split.
  - destruct (Hbuild (or_empty params)) as (e & -> & _). cbn [bind].
    rewrite Hbrand. cbn [bind]. eauto.
  - destruct (Hbuild (or_empty VNone)) as (e & -> & He). cbn [bind].
    rewrite Hbrand. cbn [bind]. rewrite (He eq_refl). eauto.
Qed.

Lemma composed_funnel_never_reaches_service_witness :
  exists funnel brand,
    acme_funnel = Ok funnel /\
    generate_email_sequence online funnel VNone
    = Ok (email_fallback
            (Exn TypeError "sequence item 0: expected str instance, dict found")
            brand).
Proof.
  assert (Hf : exists funnel,
            generate_funnel online acme_analysis (customize 2 2) = Ok funnel /\
            acme_funnel = Ok funnel).
  { eexists. split; vm_compute; reflexivity. }
  destruct Hf as (funnel & Hon & Hoff).
  destruct (proj2 (composed_funnel_never_reaches_service online acme_analysis
                     (customize 2 2) funnel VNone Hon eq_refl))
    as (brand & Hb).
  exists funnel, brand. split; assumption.
Defined.

(** C10. When [funnel_data] is not a dictionary the first line of the
    [try] block raises, the handler reads the unbound [customizations] and
    the call raises to its caller.  So a call that returns, fallback
    included, has bound [customizations]: its [funnel_data] is a
    dictionary. *)
Theorem unbound_customizations_escapes E funnel_data params :
  (is_dict funnel_data = false ->
   generate_email_sequence E funnel_data params
   = Raise (unbound_local "customizations")) /\
  (forall sequence,
     generate_email_sequence E funnel_data params = Ok sequence ->
     is_dict funnel_data = true /\
     exists main_page upsells customizations,
       read_funnel funnel_data = Ok (main_page, upsells, customizations) /\
       is_dict customizations = true).
Proof.
  split.
  - intros H. destruct funnel_data; try discriminate; reflexivity.
  - intros sequence H.
    destruct funnel_data as [| | | | | d]; try discriminate.
    split; [reflexivity |].
    unfold generate_email_sequence in H.
    destruct (read_funnel (VDict d)) as [[[m u] c] | e] eqn:Hr;
      [| discriminate].
    exists m, u, c. split; [reflexivity |].
    destruct (build_prompt E m u c (or_empty params)) as [[b p] | e] eqn:Hb.
    + apply build_prompt_brand in Hb. destruct c; try discriminate. reflexivity.
    + cbn [bind] in H. destruct c; try discriminate. reflexivity.
Qed.

Lemma unbound_customizations_escapes_witness :
  generate_email_sequence offline VNone (VDict [ ("num_emails", VInt 3) ])
  = Raise (unbound_local "customizations") /\
  generate_email_sequence online (VList [ VStr "main_page" ]) VNone
  = Raise (unbound_local "customizations").
Proof.
  split.
  - apply (proj1 (unbound_customizations_escapes offline VNone
                    (VDict [ ("num_emails", VInt 3) ]))). reflexivity.
  - apply (proj1 (unbound_customizations_escapes online
                    (VList [ VStr "main_page" ]) VNone)). reflexivity.
Defined.

(** ** Exporter: structure of a successful run *)

Lemma create_zip_export_ok E p z :
  create_zip_export E p = Ok z ->
  exists fd es main_html js upl ups downl downs thank_you emails docs,
    load (project_funnel_data p) = Ok fd /\
    load (project_email_sequence p) = Ok es /\
    truthy fd = true /\
    items_of fd "upsells" = Ok upl /\
    mapM (page_entry E "upsell") upl = Ok ups /\
    items_of fd "downsells" = Ok downl /\
    mapM (page_entry E "downsell") downl = Ok downs /\
    email_entries E es = Ok emails /\
    z = (exports_dir E ++ "/" ++ str_of_Z (project_id p) ++ ".zip",
         ([ ("index.html", main_html); ("style.css", generate_css);
            ("funnel.js", js) ]
          ++ ups ++ downs ++ [ ("thank_you.html", thank_you) ]
          ++ emails ++ [ ("README.txt", docs) ])%list).
Proof.
  unfold create_zip_export. intros H.
  bind_as H fd Hfd. bind_as H es Hes.
  destruct (truthy fd) eqn:Ht; [| discriminate]. cbn [negb] in H.
  bind_as H main_page Hmp. bind_as H main_html Hmain. bind_as H js Hjs.
  bind_as H upl Hupl. bind_as H ups Hups.
  bind_as H downl Hdownl. bind_as H downs Hdowns.
  bind_as H thank_you Hty. bind_as H emails Hemails. bind_as H docs Hdocs.
  injection H as <-.
  exists fd, es, main_html, js, upl, ups, downl, downs, thank_you, emails, docs.
  repeat split; assumption.
Qed.

Lemma page_entry_names E page_type k l pages :
  mapM (page_entry E page_type) (enumerate_from k l) = Ok pages ->
  map fst pages
  = map (fun i => page_type ++ "_" ++ str_of_nat (i + 1) ++ ".html")
        (seq k (List.length l)).
Proof.
  revert k pages; induction l as [| a l IH]; simpl; intros k pages H.
  - injection H as <-. reflexivity.
  - bind_as H b Hb. bind_as H bs Hbs. injection H as <-.
    bind_as Hb html Hhtml. injection Hb as <-.
    simpl. f_equal. apply IH. exact Hbs.
Qed.

Lemma email_entry_ok E i email e :
  email_entry E (i, email) = Ok e ->
  e = ("emails/email_" ++ str_of_nat (i + 1) ++ ".txt", email_text E i email).
Proof.
  unfold email_entry. intros H.
  destruct email as [| | | | | d]; try discriminate.
  simpl in H. injection H as <-. unfold email_text. simpl field.
  destruct (assoc "subject" d), (assoc "body" d); reflexivity.
Qed.

Lemma email_entries_files E k l files :
  mapM (email_entry E) (enumerate_from k l) = Ok files ->
  files = map (email_file E) (enumerate_from k l).
Proof.
  revert k files; induction l as [| a l IH]; simpl; intros k files H.
  - injection H as <-. reflexivity.
  - bind_as H b Hb. bind_as H bs Hbs. injection H as <-.
    apply email_entry_ok in Hb. subst b. f_equal. apply IH. exact Hbs.
Qed.

Lemma email_entries_ok E es emails :
  email_entries E es = Ok emails -> truthy es = true ->
  exists v items docs,
    dict_get es "emails" (VList []) = Ok v /\
    py_iter v = Ok items /\
    emails = (map (email_file E) (enumerate items)
              ++ [ ("emails/README.txt", docs) ])%list.
Proof.
  unfold email_entries. intros H Ht. rewrite Ht in H.
  bind_as H v Hv. bind_as H items Hitems. bind_as H files Hfiles.
  bind_as H docs Hdocs. injection H as <-.
  apply email_entries_files in Hfiles. subst files.
  exists v, items, docs. repeat split; assumption.
Qed.

Lemma under_emails_app l1 l2 :
  under_emails (l1 ++ l2) = (under_emails l1 ++ under_emails l2)%list.
Proof.
  apply filter_app.
Qed.

Lemma filter_none {A : Type} (p : A -> bool) (l : list A) :
  Forall (fun x => p x = false) l -> filter p l = [].
Proof.
  induction 1 as [| x l Hx _ IH]; [reflexivity |].
  cbn [filter]. now rewrite Hx.
Qed.

Lemma under_emails_pages E page_type k l pages :
  page_type = "upsell" \/ page_type = "downsell" ->
  mapM (page_entry E page_type) (enumerate_from k l) = Ok pages ->
  under_emails pages = [].
Proof.
  intros Hty H.
  assert (Hall : Forall (fun e => prefix "emails/" (fst e) = false) pages).
  { eapply mapM_ok_Forall; [| exact H].
    intros [i a] b Hb. unfold page_entry in Hb.
    bind_as Hb html Hhtml. injection Hb as <-.
    destruct Hty as [-> | ->]; reflexivity. }
  unfold under_emails. now apply filter_none.
Qed.

Lemma under_emails_files E l :
  under_emails (map (email_file E) l) = map (email_file E) l.
Proof.
  unfold under_emails. induction l as [| a l IH]; simpl; [reflexivity |].
  now rewrite IH.
Qed.

Lemma append_assoc (a b c : string) : (a ++ b) ++ c = a ++ (b ++ c).
Proof.
  induction a as [| x a IH]; simpl; [reflexivity | now rewrite IH].
Qed.

Lemma email_text_plain E i email subject body :
  field "subject" email = Some (VStr subject) ->
  field "body" email = Some (VStr body) ->
  email_text E i email = nl ++ email_text_spec subject body ++ nl ++ spaces 20.
Proof.
  intros Hs Hb. unfold email_text, email_text_spec. rewrite Hs, Hb.
  cbn [py_str]. now rewrite !append_assoc.
Qed.

Lemma items_of_ok o k items :
  items_of o k = Ok items -> exists l, items = enumerate l.
Proof.
  unfold items_of. intros H. bind_as H v Hv. bind_as H l Hl.
  injection H as <-. eauto.
Qed.

(** C8, as the code has it.  Whenever the export returns and the project
    stores an email sequence whose [emails] is a list, the entries written
    under [emails/] are, in order, one file per email and then the
    [README.txt] of the sequence; the file of the email at index [i] is
    named [emails/email_(i+1).txt] and its text is a newline, [Subject: ]
    and the subject, two newlines, the body, a newline and twenty spaces
    (subject and body default to [Email (i+1)] and [Email content]). *)
Theorem email_entries_written E p z es items :
  create_zip_export E p = Ok z ->
  project_email_sequence p = Text es ->
  truthy es = true ->
  field "emails" es = Some (VList items) ->
  (exists docs,
     under_emails (snd z)
     = (map (email_file E) (enumerate items)
        ++ [ ("emails/README.txt", docs) ])%list) /\
  (forall i email,
     nth_error items i = Some email ->
     In ("emails/email_" ++ str_of_nat (i + 1) ++ ".txt", email_text E i email)
        (snd z)) /\
  (forall i email subject body,
     nth_error items i = Some email ->
     field "subject" email = Some (VStr subject) ->
     field "body" email = Some (VStr body) ->
     In ("emails/email_" ++ str_of_nat (i + 1) ++ ".txt",
         nl ++ email_text_spec subject body ++ nl ++ spaces 20) (snd z)).
Proof.
  intros H Hp Ht Hf.
  apply create_zip_export_ok in H.
  destruct H as (fd & es' & main_html & js & upl & ups & downl & downs
                 & thank_you & emails & docs & _ & Hes & _ & Hupl & Hups
                 & Hdownl & Hdowns & Hemails & ->).
  rewrite Hp in Hes. simpl in Hes. injection Hes as <-.
  apply email_entries_ok in Hemails; [| exact Ht].
  destruct Hemails as (v & items' & edocs & Hv & Hitems & ->).
  assert (items' = items) as ->.
  { destruct es as [| | | | | d]; try discriminate.
    simpl in Hf, Hv. rewrite Hf in Hv. injection Hv as <-.
    simpl in Hitems. now injection Hitems. }
  apply items_of_ok in Hupl, Hdownl.
  destruct Hupl as (ul & ->). destruct Hdownl as (dl & ->).
  assert (Hunder :
    under_emails
      (snd (exports_dir E ++ "/" ++ str_of_Z (project_id p) ++ ".zip",
            ([ ("index.html", main_html); ("style.css", generate_css);
               ("funnel.js", js) ]
             ++ ups ++ downs ++ [ ("thank_you.html", thank_you) ]
             ++ (map (email_file E) (enumerate items)
                 ++ [ ("emails/README.txt", edocs) ])
             ++ [ ("README.txt", docs) ])%list))
    = (map (email_file E) (enumerate items)
       ++ [ ("emails/README.txt", edocs) ])%list).
  { cbn [snd]. rewrite !under_emails_app.
    rewrite (under_emails_pages E "upsell" 0 ul ups (or_introl eq_refl) Hups).
    rewrite (under_emails_pages E "downsell" 0 dl downs (or_intror eq_refl) Hdowns).
    rewrite under_emails_files.
    change (under_emails [ ("index.html", main_html);
                           ("style.css", generate_css); ("funnel.js", js) ])
      with (@nil entry).
    change (under_emails [ ("thank_you.html", thank_you) ]) with (@nil entry).
    change (under_emails [ ("README.txt", docs) ]) with (@nil entry).
    change (under_emails [ ("emails/README.txt", edocs) ])
      with [ ("emails/README.txt", edocs) ].
    cbn [app]. now rewrite app_nil_r. }
  assert (Hin : forall i email,
            nth_error items i = Some email ->
            In ("emails/email_" ++ str_of_nat (i + 1) ++ ".txt",
                email_text E i email)
               (map (email_file E) (enumerate items))).
  { unfold enumerate. intros i email Hnth.
    assert (Hgen : forall k l j,
              nth_error l j = Some email ->
              In (email_file E ((k + j)%nat, email))
                 (map (email_file E) (enumerate_from k l))).
    { intros k l; revert k; induction l as [| a l IH]; intros k j Hj.
      - destruct j; discriminate.
      - destruct j as [| j]; simpl in Hj |- *.
        + injection Hj as ->. left. now rewrite Nat.add_0_r.
        + right. replace (k + S j)%nat with (S k + j)%nat by lia.
          now apply IH. }
    exact (Hgen 0%nat items i Hnth). }
  split; [eexists; exact Hunder |].
  assert (Hall : forall i email,
            nth_error items i = Some email ->
            In ("emails/email_" ++ str_of_nat (i + 1) ++ ".txt",
                email_text E i email)
               (snd (exports_dir E ++ "/" ++ str_of_Z (project_id p) ++ ".zip",
            ([ ("index.html", main_html); ("style.css", generate_css);
               ("funnel.js", js) ]
             ++ ups ++ downs ++ [ ("thank_you.html", thank_you) ]
             ++ (map (email_file E) (enumerate items)
                 ++ [ ("emails/README.txt", edocs) ])
             ++ [ ("README.txt", docs) ])%list))).
  { intros i email Hnth. cbn [snd].
    apply in_or_app. right. apply in_or_app. right. apply in_or_app. right.
    apply in_or_app. right. apply in_or_app. left. apply in_or_app. left.
    now apply Hin. }
  split; [exact Hall |].
  intros i email subject body Hnth Hs Hb.
  rewrite <- (email_text_plain E i email subject body Hs Hb).
  exact (Hall i _ Hnth).
Qed.

Lemma email_entries_written_witness :
  In ("emails/email_1.txt",
      nl ++ email_text_spec "Welcome to [Brand Name]"
              "Welcome email content goes here..." ++ nl ++ spaces 20)
     (match create_zip_export offline acme_project with
      | Ok z => snd z
      | Raise _ => []
      end).
Proof.
  destruct (create_zip_export offline acme_project) as [z | e] eqn:H;
    [| vm_compute in H; discriminate H].
  destruct (project_email_sequence acme_project) as [| e | es] eqn:Hes;
    try (vm_compute in Hes; discriminate Hes).
  assert (Hitems : exists items email,
            field "emails" es = Some (VList items) /\
            truthy es = true /\
            nth_error items 0 = Some email /\
            field "subject" email = Some (VStr "Welcome to [Brand Name]") /\
            field "body" email
            = Some (VStr "Welcome email content goes here...")).
  { vm_compute in Hes. injection Hes as <-.
    do 2 eexists. repeat split; reflexivity. }
  destruct Hitems as (items & email & Hf & Ht & Hn & Hs & Hb).
  exact (proj2 (proj2 (email_entries_written offline acme_project z es items
                         H Hes Ht Hf)) 0%nat email _ _ Hn Hs Hb).
Defined.

(** C8 as stated fails: the text written for the first email of the sample
    project is not the bare [Subject: ...] format; it starts with a newline
    and ends with a newline and twenty spaces. *)
Lemma email_entry_has_surrounding_whitespace :
  exported offline acme_project "emails/email_1.txt"
  = [ nl ++ email_text_spec "Welcome to [Brand Name]"
              "Welcome email content goes here..." ++ nl ++ spaces 20 ] /\
  exported offline acme_project "emails/email_1.txt"
  <> [ email_text_spec "Welcome to [Brand Name]"
         "Welcome email content goes here..." ].
Proof.
  split.
  - vm_compute. reflexivity.
  - vm_compute. intros H. discriminate H.
Qed.

(** ** Exporter: well-shaped projects always export *)

Lemma create_html_page_dict E page page_type :
  is_dict page = true -> exists html, create_html_page E page page_type = Ok html.
Proof.
  intros H. unfold create_html_page.
  destruct (render_template E (page_type ++ ".html") page); [eauto |].
  destruct page; try discriminate. simpl. eauto.
Qed.

Lemma dict_get_key_ok (ok : value -> bool) k o default :
  is_dict o = true -> key_ok ok k o = true -> ok default = true ->
  exists v, dict_get o k default = Ok v /\ ok v = true.
Proof.
  destruct o as [| | | | | d]; try discriminate. intros _.
  unfold key_ok. simpl. destruct (assoc k d); eauto.
Qed.

Lemma pages_defined E page_type k l :
  forallb is_dict l = true ->
  exists pages, mapM (page_entry E page_type) (enumerate_from k l) = Ok pages.
Proof.
  intros H. apply mapM_defined. intros [i page] Hin.
  apply enumerate_from_In in Hin.
  rewrite forallb_forall in H. apply H in Hin.
  destruct (create_html_page_dict E page page_type Hin) as (html & Hhtml).
  unfold page_entry. rewrite Hhtml. simpl. eauto.
Qed.

Lemma items_of_shaped o k :
  is_dict o = true -> key_ok list_of_dicts k o = true ->
  items_of o k = Ok (enumerate (records k (Text o))) /\
  forallb is_dict (records k (Text o)) = true /\
  len_of o k = Ok (List.length (records k (Text o))).
Proof.
  destruct o as [| | | | | d]; try discriminate. intros _.
  unfold key_ok, items_of, len_of, records. simpl.
  destruct (assoc k d) as [v |]; [| repeat split].
  destruct v; try discriminate. simpl. intros H. repeat split. exact H.
Qed.

Lemma timing_lines_defined E es ns :
  is_dict es = true -> key_ok is_dict "timing" es = true ->
  exists lines, mapM (timing_line E es) ns = Ok lines.
Proof.
  intros Hd Ht. apply mapM_defined. intros i _.
  destruct (dict_get_key_ok is_dict "timing" es (VDict []) Hd Ht eq_refl)
    as (t & Hget & Hdict).
  unfold timing_line. rewrite Hget. cbn [bind].
  destruct t; try discriminate. simpl. eauto.
Qed.

Lemma emails_defined E l k :
  forallb is_dict l = true ->
  exists files, mapM (email_entry E) (enumerate_from k l) = Ok files.
Proof.
  intros H. apply mapM_defined. intros [i email] Hin.
  apply enumerate_from_In in Hin.
  rewrite forallb_forall in H. apply H in Hin.
  destruct email; try discriminate. simpl. eauto.
Qed.

Lemma email_file_names E k l :
  map fst (map (email_file E) (enumerate_from k l))
  = map (fun i => "emails/email_" ++ str_of_nat (i + 1) ++ ".txt")
        (seq k (List.length l)).
Proof.
  revert k; induction l as [| a l IH]; intros k; [reflexivity |].
  simpl. f_equal. apply IH.
Qed.

Lemma email_entries_shaped E es :
  negb (truthy es) || sequence_shaped es = true ->
  exists emails,
    email_entries E es = Ok emails /\
    map fst emails
    = if truthy es
      then (email_names (List.length (records "emails" (Text es)))
            ++ [ "emails/README.txt" ])%list
      else [].
Proof.
  intros H. unfold email_entries.
  destruct (truthy es) eqn:Ht; [| eauto].
  simpl in H. unfold sequence_shaped in H.
  apply andb_prop in H. destruct H as [H Htiming].
  apply andb_prop in H. destruct H as [Hdict Hemails].
  destruct (items_of_shaped es "emails" Hdict Hemails) as (Hitems & Hall & Hlen).
  unfold items_of in Hitems.
  destruct (dict_get es "emails" (VList [])) as [v |] eqn:Hv;
    [| discriminate]. cbn [bind] in Hitems |- *.
  destruct (py_iter v) as [items |] eqn:Hiter; [| discriminate].
  cbn [bind] in Hitems |- *. injection Hitems as Hitems.
  destruct (emails_defined E (records "emails" (Text es)) 0%nat Hall)
    as (files & Hfiles).
  unfold enumerate in Hitems |- *.
  change (enumerate_from 0 items
          = enumerate_from 0 (records "emails" (Text es))) in Hitems.
  rewrite Hitems, Hfiles. cbn [bind].
  assert (Hdocs : exists docs, email_docs E es = Ok docs).
  { unfold email_docs. rewrite Hlen. cbn [bind].
    destruct es as [| | | | | d]; try discriminate. simpl dict_get.
    cbn [bind].
    destruct (timing_lines_defined E (VDict d)
                (seq 0 (Z.to_nat
                          (Z.of_nat (List.length (records "emails" (Text (VDict d))))
                           - 1))) Hdict Htiming) as (lines & ->).
    cbn [bind]. eauto. }
  destruct Hdocs as (docs & ->). cbn [bind].
  eexists. split; [reflexivity |].
  rewrite map_app. simpl. f_equal.
  apply email_entries_files in Hfiles. subst files.
  apply email_file_names.
Qed.

Lemma export_shaped_names E p :
  export_shaped p = true ->
  exists z, create_zip_export E p = Ok z /\ entry_names z = archive_names p.
Proof.
  unfold export_shaped, archive_names. intros H.
  apply andb_prop in H. destruct H as [Hf He].
  destruct (project_funnel_data p) as [| e | fd] eqn:Hfd; try discriminate.
  unfold funnel_shaped in Hf.
  repeat (apply andb_prop in Hf; destruct Hf as [Hf ?]).
  rename Hf into Hdict.
  match goal with H : truthy fd = true |- _ => rename H into Htruthy end.
  match goal with H : key_ok _ "main_page" _ = _ |- _ => rename H into Hmain end.
  match goal with H : key_ok _ "upsells" _ = _ |- _ => rename H into Hups end.
  match goal with H : key_ok _ "downsells" _ = _ |- _ => rename H into Hdowns end.
  match goal with H : key_ok _ "customizations" _ = _ |- _ => rename H into Hcust end.
  destruct (dict_get_key_ok is_dict "main_page" fd (VDict []) Hdict Hmain eq_refl)
    as (main_page & Hmp & Hmpd).
  destruct (create_html_page_dict E main_page "main" Hmpd) as (main_html & Hhtml).
  destruct (dict_get_dict fd "funnel_flow" (VList []) Hdict) as (flow & Hflow).
  destruct (items_of_shaped fd "upsells" Hdict Hups) as (Hupl & Hupd & Hupn).
  destruct (items_of_shaped fd "downsells" Hdict Hdowns) as (Hdl & Hdd & Hdn).
  destruct (pages_defined E "upsell" 0 _ Hupd) as (ups & Hupages).
  destruct (pages_defined E "downsell" 0 _ Hdd) as (downs & Hdpages).
  destruct (dict_get_key_ok is_dict "customizations" fd (VDict []) Hdict Hcust
              eq_refl) as (cust & Hc & Hcd).
  assert (Hes : exists es emails,
            load (project_email_sequence p) = Ok es /\
            email_entries E es = Ok emails /\
            map fst emails = email_entry_names (project_email_sequence p)).
  { destruct (project_email_sequence p) as [| e | es]; try discriminate.
    - exists VNone, []. repeat split.
    - destruct (email_entries_shaped E es He) as (emails & Hem & Hnames).
      exists es, emails. repeat split; assumption. }
  destruct Hes as (es & emails & Hload & Hemails & Hnames).
  unfold create_zip_export. rewrite Hfd. cbn [load bind].
  rewrite Hload. cbn [bind]. rewrite Htruthy. cbn [negb].
  rewrite Hmp. cbn [bind]. rewrite Hhtml. cbn [bind].
  unfold generate_js. rewrite Hflow. cbn [bind].
  rewrite Hupl. cbn [bind]. unfold enumerate. rewrite Hupages. cbn [bind].
  rewrite Hdl. cbn [bind]. unfold enumerate. rewrite Hdpages. cbn [bind].
  unfold create_thank_you_page, generate_documentation. rewrite Hc. cbn [bind].
  destruct cust as [| | | | | cd]; try discriminate. cbn [dict_get bind].
  rewrite Hemails. cbn [bind]. rewrite Hupn, Hdn. cbn [bind].
  eexists. split; [reflexivity |].
  unfold entry_names. cbn [snd]. rewrite !map_app. cbn [map fst app].
  pose proof (page_entry_names _ _ _ _ _ Hupages) as Hn1.
  pose proof (page_entry_names _ _ _ _ _ Hdpages) as Hn2.
  unfold entry in *. rewrite Hn1, Hn2, Hnames.
  reflexivity.
Qed.

(** C2, as the code has it.  The export raises whenever the project has no
    funnel data, with the [ValueError] of line 198 when both columns can
    be read.  When funnel data and email sequence have the shape of the
    data model, it returns the archive whatever the template step does:
    a page whose template fails is replaced by the fallback page. *)
Theorem create_zip_export_faults E p :
  (has_funnel_data p = false ->
   exists e,
     create_zip_export E p = Raise e /\
     (is_ok (load (project_funnel_data p))
      && is_ok (load (project_email_sequence p)) = true ->
      e = Exn ValueError "No funnel data available for export")) /\
  (export_shaped p = true ->
   exists z, create_zip_export E p = Ok z /\ entry_names z = archive_names p).
Proof.
  split; [| apply export_shaped_names].
  unfold has_funnel_data, create_zip_export. intros H.
  destruct (project_funnel_data p) as [| e | fd]; cbn [load bind].
  - destruct (project_email_sequence p) as [| e | es];
      cbn [load bind truthy negb is_ok andb];
      eexists; (split; [reflexivity |]); intros; try reflexivity; discriminate.
  - eexists. split; [reflexivity |]. discriminate.
  - rewrite H.
    destruct (project_email_sequence p) as [| e | es];
      cbn [load bind truthy negb is_ok andb];
      eexists; (split; [reflexivity |]); intros; try reflexivity; discriminate.
Qed.

Lemma create_zip_export_faults_witness :
  (exists e, create_zip_export offline empty_project = Raise e) /\
  (exists z, create_zip_export offline acme_project = Ok z /\
             entry_names z = archive_names acme_project).
Proof.
  split.
  - destruct (proj1 (create_zip_export_faults offline empty_project) eq_refl)
      as (e & H & _).
    exists e. exact H.
  - apply (proj2 (create_zip_export_faults offline acme_project)).
    vm_compute. reflexivity.
Defined.

(** C2 as stated fails: this project has funnel data, and yet the export
    raises, with or without a template directory: the stored sequence
    lists subject lines, and the loop over the emails calls [.get] on a
    string. *)
Lemma export_raises_with_funnel_data :
  has_funnel_data subjects_only_project = true /\
  create_zip_export offline subjects_only_project
  = Raise (Exn AttributeError "'str' object has no attribute 'get'") /\
  create_zip_export online subjects_only_project
  = Raise (Exn AttributeError "'str' object has no attribute 'get'").
Proof.
  repeat split; vm_compute; reflexivity.
Qed.

Lemma records_listed k b n :
  List.length (records k b) = S n ->
  exists o, b = Text o /\ field k o = Some (VList (records k b)).
Proof.
  intros H. destruct b as [| e | o]; try discriminate H.
  exists o. split; [reflexivity |]. unfold records in *.
  destruct (field k o) as [[| | | | l |] |]; try discriminate H.
  reflexivity.
Qed.

Lemma items_of_listed o k l :
  field k o = Some (VList l) -> items_of o k = Ok (enumerate l).
Proof.
  unfold items_of, field. destruct o; try discriminate.
  cbn [dict_get bind]. intros ->. reflexivity.
Qed.

(** C7. For every project whose funnel data lists two upsells and two
    downsells and whose email sequence lists three emails, whatever else
    it stores: an archive the export produces holds exactly these thirteen
    entries, in this order.  The export does produce one whenever the
    stored data has the shape of the data model. *)
Theorem two_two_three_archive E p :
  List.length (records "upsells" (project_funnel_data p)) = 2%nat ->
  List.length (records "downsells" (project_funnel_data p)) = 2%nat ->
  List.length (records "emails" (project_email_sequence p)) = 3%nat ->
  (forall z,
     create_zip_export E p = Ok z ->
     entry_names z
     = [ "index.html"; "style.css"; "funnel.js";
         "upsell_1.html"; "upsell_2.html";
         "downsell_1.html"; "downsell_2.html";
         "thank_you.html";
         "emails/email_1.txt"; "emails/email_2.txt"; "emails/email_3.txt";
         "emails/README.txt"; "README.txt" ] /\
     List.length (snd z) = 13%nat) /\
  (export_shaped p = true -> exists z, create_zip_export E p = Ok z).
Proof.
  intros Hu Hd He. split.
  - intros z Hz.
    destruct (records_listed _ _ _ Hu) as (fd & Hfd & Fu).
    destruct (records_listed _ _ _ Hd) as (fd' & Hfd' & Fd).
    destruct (records_listed _ _ _ He) as (es & Hes & Fe).
    rewrite Hfd in Hfd'. injection Hfd' as <-.
    apply create_zip_export_ok in Hz.
    destruct Hz as (fd0 & es0 & main_html & js & upl & ups & downl & downs
                    & ty & emails & docs & Hload & Hloades & _ & Hupl & Hups
                    & Hdownl & Hdowns & Hemails & ->).
    rewrite Hfd in Hload. injection Hload as <-.
    rewrite Hes in Hloades. injection Hloades as <-.
    rewrite (items_of_listed _ _ _ Fu) in Hupl. injection Hupl as <-.
    rewrite (items_of_listed _ _ _ Fd) in Hdownl. injection Hdownl as <-.
    apply page_entry_names in Hups. apply page_entry_names in Hdowns.
    rewrite Hu in Hups. rewrite Hd in Hdowns.
    assert (Ht : truthy es = true).
    { destruct es as [| | | | | d]; try discriminate Fe.
      destruct d; [discriminate Fe | reflexivity]. }
    destruct (email_entries_ok _ _ _ Hemails Ht)
      as (v & items & edocs & Hv & Hitems & ->).
    assert (Hl : items = records "emails" (project_email_sequence p)).
    { destruct es as [| | | | | d]; try discriminate Fe.
      cbn [dict_get field] in Hv, Fe. rewrite Fe in Hv.
      injection Hv as <-. injection Hitems as <-. reflexivity. }
    assert (Hnames :
      entry_names
        (exports_dir E ++ "/" ++ str_of_Z (project_id p) ++ ".zip",
         ([ ("index.html", main_html); ("style.css", generate_css);
            ("funnel.js", js) ]
          ++ ups ++ downs ++ [ ("thank_you.html", ty) ]
          ++ (map (email_file E) (enumerate items)
              ++ [ ("emails/README.txt", edocs) ])
          ++ [ ("README.txt", docs) ])%list)
      = [ "index.html"; "style.css"; "funnel.js";
          "upsell_1.html"; "upsell_2.html";
          "downsell_1.html"; "downsell_2.html";
          "thank_you.html";
          "emails/email_1.txt"; "emails/email_2.txt"; "emails/email_3.txt";
          "emails/README.txt"; "README.txt" ]).
    { unfold entry_names, entry in *. cbn [snd].
      rewrite !map_app. unfold enumerate. rewrite email_file_names.
      rewrite Hups, Hdowns, Hl, He. reflexivity. }
    split; [exact Hnames |].
    apply (f_equal (@List.length string)) in Hnames.
    unfold entry_names in Hnames. rewrite length_map in Hnames.
    exact Hnames.
  - intros Hshape.
    destruct (export_shaped_names E p Hshape) as (z & Hz & _). eauto.
Qed.

Lemma two_two_three_archive_witness :
  exists z,
    create_zip_export offline acme_project = Ok z /\
    List.length (snd z) = 13%nat.
Proof.
  destruct (two_two_three_archive offline acme_project)
    as (Hall & Hex); try (vm_compute; reflexivity).
  destruct (Hex ltac:(vm_compute; reflexivity)) as (z & Hz).
  exists z. split; [exact Hz | exact (proj2 (Hall z Hz))].
Defined.

(** ** Decimal rendering *)

Lemma str_of_Z_inj a b : str_of_Z a = str_of_Z b -> a = b.
Proof.
  unfold str_of_Z. intros H.
  apply DecimalZ.to_int_inj.
  assert (Hnil : forall z, Z.to_int z <> Decimal.Pos Decimal.Nil /\
                           Z.to_int z <> Decimal.Neg Decimal.Nil).
  { intros [| p | p]; simpl; split; try discriminate;
      intros [= Hp]; now apply DecimalPos.Unsigned.to_uint_nonnil in Hp. }
  assert (Hs : NilZero.int_of_string (NilZero.string_of_int (Z.to_int a))
               = NilZero.int_of_string (NilZero.string_of_int (Z.to_int b)))
    by now rewrite H.
  rewrite !NilZero.isi in Hs by apply Hnil.
  now injection Hs.
Qed.

Lemma str_of_nat_inj a b : str_of_nat a = str_of_nat b -> a = b.
Proof.
  unfold str_of_nat. intros H. apply str_of_Z_inj in H. lia.
Qed.

(** ** Copy generator *)

Lemma first_pain_ok E pain_points :
  is_ok (first_pain E pain_points) && is_ok (second_pain E pain_points)
  = pains_ok pain_points.
Proof.
  unfold first_pain, second_pain.
  destruct pain_points as [| b | z | s | l | d]; try reflexivity.
  - destruct b; reflexivity.
  - simpl. destruct (z =? 0); reflexivity.
  - destruct s as [| c [| c' s']]; reflexivity.
  - destruct l as [| p [| q r]]; try reflexivity.
    + destruct p; reflexivity.
    + destruct p, q; reflexivity.
  - destruct d as [| kv d]; reflexivity.
Qed.

Lemma generate_copy_cases E analysis customizations :
  missing copy_shape (generate_copy E analysis customizations) = [] /\
  has_key "error" (generate_copy E analysis customizations)
  = negb (copy_inputs_ok analysis (or_empty customizations)).
Proof.
  unfold generate_copy, copy_inputs_ok.
  generalize (or_empty customizations) as c. intros c.
  destruct analysis as [| | | | | ad]; try (split; reflexivity).
  destruct c as [| | | | | cd]; try (split; reflexivity).
  unfold generate_copy_try, get_or.
  cbn [dict_get bind field is_dict andb].
  destruct (match assoc "product_type" ad with
            | Some v => v
            | None => VStr "product"
            end) as [| | | pt | |]; try (split; reflexivity).
  destruct (match assoc "target_audience" cd with
            | Some v => v
            | None =>
                match assoc "target_audience" ad with
                | Some v => v
                | None => VStr ""
                end
            end) as [| | | ta | |]; try (split; reflexivity).
  cbn [lower bind is_str andb].
  rewrite <- (first_pain_ok E).
  destruct (first_pain E _) as [p0 | e0]; [| split; reflexivity].
  destruct (second_pain E _) as [p1 | e1]; split; reflexivity.
Qed.

(** X4. [generate_copy] always returns a record with the thirteen fields of
    a main-page copy, and the record carries [error] exactly when the
    [try] block cannot go through: the analysis or the customizations are
    not dictionaries, the product type or the target audience is not a
    string, or the pain points cannot be rendered. *)
Theorem generate_copy_fallback_iff E analysis customizations :
  missing copy_shape (generate_copy E analysis customizations) = [] /\
  has_key "error" (generate_copy E analysis customizations)
  = negb (copy_inputs_ok analysis (or_empty customizations)).
Proof.
  apply generate_copy_cases.
Qed.

(** ** The wizard: analysis, funnel, emails *)

Lemma copy_without_error E analysis customizations :
  has_key "error" (generate_copy E analysis customizations) = false ->
  exists b pt h a pl al p0 p1 an,
    generate_copy E analysis customizations
    = copy_sample b pt h a pl al p0 p1 an.
Proof.
  unfold generate_copy. intros H.
  destruct (generate_copy_try E analysis (or_empty customizations))
    as [copy | e] eqn:Htry; [| cbn in H; discriminate H].
  unfold generate_copy_try in Htry.
  repeat (let x := fresh "x" in let Hx := fresh "Hx" in bind_as Htry x Hx).
  injection Htry as <-. do 9 eexists. reflexivity.
Qed.

(** A main page with the sample copy stops the prompt at line 60. *)
Lemma build_prompt_sample_copy E b pt h a pl al p0 p1 an upsells customizations
  params :
  exists e,
    build_prompt E (copy_sample b pt h a pl al p0 p1 an) upsells customizations
      params = Raise e.
Proof.
  unfold build_prompt.
  destruct (dict_get params "num_emails" (VInt 10)); [| eexists; reflexivity]. cbn [bind].
  destruct (min_20 _); [| eexists; reflexivity]. cbn [bind].
  destruct (dict_get params "sequence_type" _); [| eexists; reflexivity]. cbn [bind].
  destruct (dict_get params "email_style" _); [| eexists; reflexivity]. cbn [bind].
  destruct (dict_get customizations "brand_name" _); [| eexists; reflexivity]. cbn [bind].
  eexists. reflexivity.
Qed.

Lemma generate_funnel_defined E analysis customizations :
  is_dict analysis = true -> is_dict customizations = true ->
  countable (get_or customizations "num_upsells" (VInt 10)) = true ->
  countable (get_or customizations "num_downsells" (VInt 10)) = true ->
  exists upsells downsells flow,
    generate_funnel E analysis customizations
    = Ok (VDict [ ("main_page", generate_copy E analysis customizations);
                  ("upsells", VList upsells);
                  ("downsells", VList downsells);
                  ("funnel_flow", VList flow);
                  ("customizations", customizations);
                  ("base_analysis", analysis) ]) /\
    forallb is_dict upsells = true /\ forallb is_dict downsells = true /\
    (forall U, get_or customizations "num_upsells" (VInt 10) = VInt U ->
               List.length upsells = Z.to_nat U) /\
    (forall D, get_or customizations "num_downsells" (VInt 10) = VInt D ->
               List.length downsells = Z.to_nat D).
Proof.
  intros Ha Hc Hu Hd.
  destruct analysis as [| | | | | ad]; try discriminate.
  destruct customizations as [| | | | | cd]; try discriminate.
  unfold generate_funnel, get_or in *. cbn [dict_get bind field] in *.
  set (info := VDict [ ("product_type", _); ("brand_name", _) ]).
  assert (Hustep : exists us,
            py_range (match assoc "num_upsells" cd with
                      | Some v => v
                      | None => VInt 10
                      end) = Ok us /\
            forall U, match assoc "num_upsells" cd with
                      | Some v => v
                      | None => VInt 10
                      end = VInt U -> List.length us = Z.to_nat U).
  { destruct (match assoc "num_upsells" cd with
              | Some v => v
              | None => VInt 10
              end); try discriminate; simpl; eexists; split; try reflexivity;
      intros U [= <-]; now rewrite length_seq. }
  assert (Hdstep : exists ds,
            py_range (match assoc "num_downsells" cd with
                      | Some v => v
                      | None => VInt 10
                      end) = Ok ds /\
            forall D, match assoc "num_downsells" cd with
                      | Some v => v
                      | None => VInt 10
                      end = VInt D -> List.length ds = Z.to_nat D).
  { destruct (match assoc "num_downsells" cd with
              | Some v => v
              | None => VInt 10
              end); try discriminate; simpl; eexists; split; try reflexivity;
      intros D [= <-]; now rewrite length_seq. }
  destruct Hustep as (us & -> & Hlu). destruct Hdstep as (ds & -> & Hld).
  cbn [bind].
  assert (Hall : forall kind l,
            forallb is_dict
              (map (fun i => generate_upsell E info kind (Z.of_nat i + 1)) l)
            = true).
  { intros kind l. apply forallb_forall. intros o Ho.
    apply in_map_iff in Ho. destruct Ho as (i & <- & _).
    apply generate_upsell_is_dict. }
  match goal with |- context [design_funnel_flow ?m ?u ?d] =>
    destruct (design_funnel_flow_defined m u d) as (flow & ->) end.
  { apply Forall_forall. apply forallb_forall. apply Hall. }
  { apply Forall_forall. apply forallb_forall. apply Hall. }
  cbn [bind]. do 3 eexists. split; [reflexivity |].
  repeat split; try apply Hall.
  - intros U HU. rewrite length_map. now apply Hlu.
  - intros D HD. rewrite length_map. now apply Hld.
Qed.

Lemma email_fallback_of_sample_copy E analysis customizations upsells downsells
  flow params brand :
  has_key "error" (generate_copy E analysis customizations) = false ->
  dict_get customizations "brand_name" (VStr "Our Product") = Ok brand ->
  exists e,
    generate_email_sequence E
      (VDict [ ("main_page", generate_copy E analysis customizations);
               ("upsells", VList upsells);
               ("downsells", VList downsells);
               ("funnel_flow", VList flow);
               ("customizations", customizations);
               ("base_analysis", analysis) ]) params
    = Ok (email_fallback e brand).
Proof.
  intros Hcopy Hbrand.
  destruct (copy_without_error _ _ _ Hcopy)
    as (b & pt & h & a & pl & al & p0 & p1 & an & Hsample).
  unfold generate_email_sequence.
  change (read_funnel
            (VDict [ ("main_page", generate_copy E analysis customizations);
                     ("upsells", VList upsells);
                     ("downsells", VList downsells);
                     ("funnel_flow", VList flow);
                     ("customizations", customizations);
                     ("base_analysis", analysis) ]))
    with (Ok (generate_copy E analysis customizations, VList upsells,
              customizations)).
  rewrite Hsample. cbv iota beta.
  destruct (build_prompt_sample_copy E b pt h a pl al p0 p1 an (VList upsells)
              customizations (or_empty params)) as (e & ->).
  cbn [bind]. rewrite Hbrand. cbn [bind]. eauto.
Qed.

(** X5. Through the wizard.  For a page analysed without fault and the
    customizations [create_funnel] builds from its form, the composer
    returns a funnel.  When the form carries a target audience, the main
    page is the full copy and the email generator never reaches the
    text-generation service: it returns the fixed sequence for every
    [params].  When the form lacks the field, the stored [None] shadows the
    analysed audience and the main page is the fallback copy. *)
Theorem wizard_copy_and_emails E page_data url analysis brand angle audience
  U D params :
  analyze_page_try E page_data url = Ok analysis ->
  exists funnel main_page,
    generate_funnel E (analyze_page E page_data url)
      (form_customizations brand angle audience U D) = Ok funnel /\
    field "main_page" funnel = Some main_page /\
    match audience with
    | Some _ =>
        has_key "error" main_page = false /\
        exists e,
          generate_email_sequence E funnel params
          = Ok (email_fallback e (form_text brand))
    | None =>
        field "error" main_page
        = Some (VStr "'NoneType' object has no attribute 'lower'")
    end.
Proof.
  intros Han.
  assert (Hdict : exists title domain,
            analyze_page E page_data url = analysis_sample url title domain).
  { unfold analyze_page. rewrite Han. unfold analyze_page_try in Han.
    bind_as Han domain Hd. bind_as Han title Ht. injection Han as <-. eauto. }
  destruct Hdict as (title & domain & ->).
  destruct (generate_funnel_defined E (analysis_sample url title domain)
              (form_customizations brand angle audience U D)
              eq_refl eq_refl eq_refl eq_refl)
    as (upsells & downsells & flow & Hfunnel & _).
  rewrite Hfunnel. do 2 eexists. split; [reflexivity |].
  split; [reflexivity |].
  destruct audience as [audience |].
  - assert (Hcopy : has_key "error"
                      (generate_copy E (analysis_sample url title domain)
                         (form_customizations brand angle (Some audience) U D))
                    = false).
    { rewrite (proj2 (generate_copy_cases _ _ _)). reflexivity. }
    split; [exact Hcopy |].
    apply email_fallback_of_sample_copy; [exact Hcopy | reflexivity].
  - reflexivity.
Qed.

Lemma wizard_copy_and_emails_witness :
  exists funnel main_page e,
    generate_funnel online
      (analyze_page online (VDict [ ("title", VStr "Offer") ])
         "https://example.com/offer")
      (form_customizations (Some "Acme") (Some "") (Some "Busy founders") 2 2)
    = Ok funnel /\
    field "main_page" funnel = Some main_page /\
    has_key "error" main_page = false /\
    generate_email_sequence online funnel VNone
    = Ok (email_fallback e (VStr "Acme")).
Proof.
  destruct (wizard_copy_and_emails online (VDict [ ("title", VStr "Offer") ])
              "https://example.com/offer"
              (analysis_sample "https://example.com/offer" (VStr "Offer")
                 "example.com")
              (Some "Acme") (Some "") (Some "Busy founders") 2 2 VNone eq_refl)
    as (funnel & main_page & Hf & Hm & Herr & e & He).
  exists funnel, main_page, e. repeat split; assumption.
Defined.

(** ** Offers *)

(** X6. Every call of [generate_upsell] returns a record with the twelve
    offer fields and the position it was given.  With a dictionary of
    product information the record has no [error], any type other than
    [upsell] is labelled [downsell], and the price follows the table of
    positions 1, 2 and beyond (zero and negative positions included).
    Without one the record has an [error], echoes the type as given and is
    priced 97 for an upsell and 47 otherwise. *)
Theorem generate_upsell_fields E info kind position :
  missing offer_shape (generate_upsell E info kind position) = [] /\
  has_key "error" (generate_upsell E info kind position)
  = negb (is_dict info) /\
  field "position" (generate_upsell E info kind position)
  = Some (VInt position) /\
  field "offer_type" (generate_upsell E info kind position)
  = Some (VStr (if is_dict info
                then if (kind =? "upsell")%string then "upsell" else "downsell"
                else kind)) /\
  field "price" (generate_upsell E info kind position)
  = Some (VInt (if is_dict info
                then offer_price (kind =? "upsell")%string position
                else if (kind =? "upsell")%string then 97 else 47)).
Proof.
  unfold generate_upsell, offer_price.
  destruct info as [| | | | | d]; try (repeat split; reflexivity).
  unfold generate_upsell_try. cbn [dict_get bind is_dict negb].
  destruct (kind =? "upsell")%string, (position =? 1), (position =? 2);
    repeat split; reflexivity.
Qed.

(** ** Composer *)

(** X7. [generate_funnel] returns exactly when the analysis and the
    customizations are dictionaries and both counts are integers (or
    booleans): a fault inside [generate_copy] or [generate_upsell] never
    reaches the caller, and no count, however large or negative, makes the
    flow step raise. *)
Theorem generate_funnel_returns_iff E analysis customizations :
  is_ok (generate_funnel E analysis customizations)
  = is_dict analysis && is_dict customizations
    && countable (get_or customizations "num_upsells" (VInt 10))
    && countable (get_or customizations "num_downsells" (VInt 10)).
Proof.
  destruct analysis as [| | | | | ad]; try reflexivity.
  destruct customizations as [| | | | | cd]; try reflexivity.
  destruct (countable (get_or (VDict cd) "num_upsells" (VInt 10))) eqn:Hu.
  - destruct (countable (get_or (VDict cd) "num_downsells" (VInt 10))) eqn:Hd.
    + destruct (generate_funnel_defined E (VDict ad) (VDict cd)
                  eq_refl eq_refl Hu Hd) as (u & d & flow & -> & _).
      reflexivity.
    + unfold generate_funnel, get_or in *. cbn [dict_get bind field] in *.
      destruct (match assoc "num_upsells" cd with
                | Some v => v
                | None => VInt 10
                end); try discriminate Hu; cbn [py_range bind];
        destruct (match assoc "num_downsells" cd with
                  | Some v => v
                  | None => VInt 10
                  end); try discriminate Hd; reflexivity.
  - unfold generate_funnel, get_or in *. cbn [dict_get bind field] in *.
    destruct (match assoc "num_upsells" cd with
              | Some v => v
              | None => VInt 10
              end); try discriminate Hu; reflexivity.
Qed.

(** ** Email generator *)

Lemma build_prompt_customizations E main_page upsells customizations params
  bp :
  build_prompt E main_page upsells customizations params = Ok bp ->
  is_dict customizations = true.
Proof.
  destruct bp as [brand prompt]. intros H.
  apply build_prompt_brand in H.
  destruct customizations; try discriminate. reflexivity.
Qed.

(** X8. [generate_email_sequence] returns exactly when [funnel_data] is a
    dictionary whose [customizations], where present, is one too; then
    nothing the service, the parameters or the pages do makes it raise.
    With a dictionary whose [customizations] is something else, the
    handler's own [customizations.get] raises [AttributeError] to the
    caller. *)
Theorem generate_email_sequence_returns_iff E funnel_data params :
  is_ok (generate_email_sequence E funnel_data params)
  = is_dict funnel_data
    && is_dict (get_or funnel_data "customizations" (VDict [])) /\
  (is_dict funnel_data = true ->
   is_dict (get_or funnel_data "customizations" (VDict [])) = false ->
   generate_email_sequence E funnel_data params
   = Raise (no_attribute
              (get_or funnel_data "customizations" (VDict [])) "get")).
Proof.
  destruct funnel_data as [| | | | | d];
    try (split; [reflexivity | discriminate]).
  unfold generate_email_sequence, read_funnel, get_or.
  cbn [dict_get bind field is_dict andb].
  set (c := match assoc "customizations" d with
            | Some v => v
            | None => VDict []
            end).
  destruct (bp <- build_prompt E
                    match assoc "main_page" d with
                    | Some v => v
                    | None => VDict []
                    end
                    match assoc "upsells" d with
                    | Some v => v
                    | None => VList []
                    end c (or_empty params) ;;
            request E (fst bp) (snd bp)) as [s | e] eqn:Hrun.
  - bind_as Hrun bp Hbp. apply build_prompt_customizations in Hbp.
    rewrite Hbp. split; [reflexivity | discriminate].
  - destruct c; split; try reflexivity; try discriminate; intros _ _;
      reflexivity.
Qed.

Lemma generate_email_sequence_returns_iff_witness :
  generate_email_sequence offline
    (VDict [ ("customizations", VStr "Acme") ]) VNone
  = Raise (Exn AttributeError "'str' object has no attribute 'get'").
Proof.
  exact (proj2 (generate_email_sequence_returns_iff offline
                  (VDict [ ("customizations", VStr "Acme") ]) VNone)
           eq_refl eq_refl).
Defined.

Lemma assoc_dict_set_same k v d : assoc k (dict_set k v d) = Some v.
Proof.
  induction d as [| [k' v'] d IH]; simpl.
  - now rewrite String.eqb_refl.
  - destruct (k' =? k)%string eqn:Hk; simpl.
    + now rewrite String.eqb_refl.
    + now rewrite Hk.
Qed.

Lemma assoc_dict_set_other k k' v d :
  k <> k' -> assoc k' (dict_set k v d) = assoc k' d.
Proof.
  intros Hne. apply String.eqb_neq in Hne.
  induction d as [| [k0 v0] d IH]; simpl.
  - now rewrite Hne.
  - destruct (k0 =? k)%string eqn:Hk; simpl.
    + apply String.eqb_eq in Hk. subst k0. now rewrite Hne.
    + destruct (k0 =? k')%string; [reflexivity | exact IH].
Qed.

Lemma py_len_sized v : is_ok (py_len v) = sized v.
Proof.
  destruct v; reflexivity.
Qed.

(** X9. What is made of the service's answer.  When the prompt is built
    and the service answers with JSON, the call returns.  An answer that
    is an object whose [emails], where present, has a length is returned
    with [brand_name] set to the funnel's brand and [num_emails] set to
    that length, whatever the answer held under these two keys and
    however many emails were asked for; every other field is passed on
    untouched.  Any other answer is replaced by the fixed sequence. *)
Theorem service_answer_passes_through
  E funnel_data params main_page upsells customizations brand prompt answer :
  read_funnel funnel_data = Ok (main_page, upsells, customizations) ->
  build_prompt E main_page upsells customizations (or_empty params)
  = Ok (brand, prompt) ->
  chat E system_prompt prompt = Content (Ok answer) ->
  exists sequence,
    generate_email_sequence E funnel_data params = Ok sequence /\
    if is_dict answer && sized (get_or answer "emails" (VList []))
    then
      field "brand_name" sequence = Some brand /\
      (exists n,
         py_len (get_or answer "emails" (VList [])) = Ok n /\
         field "num_emails" sequence = Some (VInt (Z.of_nat n))) /\
      (forall k, k <> "num_emails" -> k <> "brand_name" ->
                 field k sequence = field k answer)
    else
      exists e, sequence = email_fallback e brand.
Proof.
  intros Hr Hb Hchat.
  pose proof (build_prompt_brand _ _ _ _ _ _ _ Hb) as Hbrand.
  unfold generate_email_sequence. rewrite Hr, Hb. cbn [bind fst snd].
  unfold request. rewrite Hchat. cbn [bind].
  destruct answer as [| | | | | d];
    try (cbn [add_metadata len_of dict_get bind is_dict andb];
         rewrite Hbrand; cbn [bind]; eexists; split; [reflexivity |];
         eexists; reflexivity).
  unfold add_metadata, len_of, get_or. cbn [dict_get bind field is_dict andb].
  set (emails := match assoc "emails" d with
                 | Some v => v
                 | None => VList []
                 end).
  rewrite <- py_len_sized.
  destruct (py_len emails) as [n | e] eqn:Hlen; cbn [bind is_ok].
  - eexists. split; [reflexivity |]. cbn [field].
    split; [apply assoc_dict_set_same |].
    split.
    + exists n. split; [reflexivity |].
      rewrite assoc_dict_set_other by discriminate.
      apply assoc_dict_set_same.
    + intros k Hn Hbn.
      rewrite assoc_dict_set_other by congruence.
      apply assoc_dict_set_other. congruence.
  - rewrite Hbrand. cbn [bind]. eexists. split; [reflexivity |].
    eexists; reflexivity.
Qed.

Lemma service_answer_passes_through_witness :
  exists sequence,
    generate_email_sequence online plain_funnel VNone = Ok sequence /\
    field "brand_name" sequence = Some (VStr "Acme") /\
    field "num_emails" sequence = Some (VInt 0) /\
    field "sequence_name" sequence = Some (VStr "Launch sequence").
Proof.
  destruct (read_funnel plain_funnel) as [[[m u] c] | e] eqn:Hr;
    [| discriminate Hr].
  destruct (build_prompt online m u c (or_empty VNone)) as [[b p] | e] eqn:Hb;
    [| vm_compute in Hr; injection Hr as <- <- <-; vm_compute in Hb;
       discriminate Hb].
  destruct (service_answer_passes_through online plain_funnel VNone
              m u c b p (VDict [ ("sequence_name", VStr "Launch sequence") ])
              Hr Hb eq_refl)
    as (sequence & Hs & Hbrand & (n & Hn & Hnum) & Hrest).
  assert (Hbv : b = VStr "Acme").
  { vm_compute in Hr. injection Hr as <- <- <-.
    apply build_prompt_brand in Hb. vm_compute in Hb. congruence. }
  exists sequence. split; [exact Hs |].
  split; [rewrite Hbrand, Hbv; reflexivity |].
  split.
  - rewrite Hnum. vm_compute in Hn. injection Hn as <-. reflexivity.
  - rewrite (Hrest "sequence_name"); [reflexivity | discriminate | discriminate].
Defined.

(** ** Scraper and analysis *)

(** X10. From the address to the analysis, as the [analyze] route chains
    them.  [scrape_url] yields content exactly when the parsed address has
    a scheme and a host.  The analysis of that content then has no
    [error], carries the address and the title [Sales Page for <host>],
    and is the analysis an empty page would get: nothing else of the
    scraped content reaches it. *)
Theorem scraped_page_analysis E urlparse url parts :
  urlparse url = Ok parts ->
  urlparse_netloc E url = Ok (url_netloc parts) ->
  truthy (scrape_url urlparse url)
  = negb (url_scheme parts =? "")%string
    && negb (url_netloc parts =? "")%string /\
  (truthy (scrape_url urlparse url) = true ->
   analyze_page E (scrape_url urlparse url) url
   = analyze_page E (VDict []) url /\
   has_key "error" (analyze_page E (scrape_url urlparse url) url) = false /\
   field "url" (analyze_page E (scrape_url urlparse url) url)
   = Some (VStr url) /\
   field "title" (analyze_page E (scrape_url urlparse url) url)
   = Some (VStr ("Sales Page for " ++ url_netloc parts))).
Proof.
  intros Hparse Hnet. unfold scrape_url. rewrite Hparse.
  cbn [truthy]. rewrite !negb_involutive.
  destruct (url_scheme parts =? "")%string;
    [split; [reflexivity | discriminate] |].
  destruct (url_netloc parts =? "")%string;
    [split; [reflexivity | discriminate] |].
  cbn [orb negb andb]. split; [reflexivity |]. intros _.
  unfold analyze_page, analyze_page_try. rewrite Hnet. cbn [bind].
  repeat split; reflexivity.
Qed.

Lemma scraped_page_analysis_witness :
  truthy (scrape_url urlparse_sample "https://example.com/offer") = true /\
  truthy (scrape_url urlparse_sample "example.com/offer") = false /\
  field "title"
    (analyze_page offline
       (scrape_url urlparse_sample "https://example.com/offer")
       "https://example.com/offer")
  = Some (VStr "Sales Page for example.com").
Proof.
  destruct (scraped_page_analysis offline urlparse_sample
              "https://example.com/offer"
              {| url_scheme := "https"; url_netloc := "example.com";
                 url_path := "/offer" |} eq_refl eq_refl)
    as (Ht & Ha).
  destruct (scraped_page_analysis offline urlparse_sample
              "example.com/offer"
              {| url_scheme := ""; url_netloc := "";
                 url_path := "example.com/offer" |} eq_refl eq_refl)
    as (Hf & _).
  split; [rewrite Ht; reflexivity |].
  split; [rewrite Hf; reflexivity |].
  destruct (Ha ltac:(rewrite Ht; reflexivity)) as (_ & _ & _ & Htitle).
  exact Htitle.
Defined.

(** ** Flow graph: order of the pages *)

Lemma mapM_enumerate_nth_error {A B : Type} (f : nat * A -> res B) (k : nat)
  (l : list A) (bs : list B) (j : nat) (b : B) :
  mapM f (enumerate_from k l) = Ok bs -> nth_error bs j = Some b ->
  (j < List.length l)%nat /\ exists a, f ((k + j)%nat, a) = Ok b.
Proof.
  revert k bs j; induction l as [| a l IH]; simpl; intros k bs j H Hj.
  - injection H as <-. destruct j; discriminate.
  - bind_as H b0 Hb0. bind_as H bs0 Hbs0. injection H as <-.
    destruct j as [| j]; simpl in Hj.
    + injection Hj as <-. split; [lia |].
      exists a. now rewrite Nat.add_0_r.
    + destruct (IH (S k) bs0 j Hbs0 Hj) as (Hlt & a' & Hf).
      split; [lia |]. exists a'.
      now replace (k + S j)%nat with (S k + j)%nat by lia.
Qed.

(** The node at each position of a designed flow: its id and its two
    actions. *)
Lemma flow_positions main_page upsells downsells flow j node :
  design_funnel_flow main_page upsells downsells = Ok flow ->
  nth_error flow j = Some node ->
  let U := List.length upsells in
  let D := List.length downsells in
  (j <= U + D + 1)%nat /\
  node_str "id" node = Some (id_at U D j) /\
  forall a, In a (node_actions node) ->
    (j = 0%nat /\ (a = "to_upsell_1" \/ a = "exit")) \/
    ((1 <= j <= U)%nat /\
     (a = "to_upsell_" ++ str_of_nat (j + 1) /\ (j < U)%nat \/
      a = "to_thank_you" \/
      a = "to_downsell_" ++ str_of_nat j)) \/
    ((U < j <= U + D)%nat /\
     (a = "to_upsell_" ++ str_of_nat (j - U + 1) /\ (j - U < U)%nat \/
      a = "to_thank_you")) \/
    ((j = U + D + 1)%nat /\ a = "exit").
Proof.
  intros H Hj U D.
  apply design_funnel_flow_ok in H. destruct H as (ups & downs & Hu & Hd & ->).
  pose proof (mapM_ok_length _ _ _ Hu) as Lu.
  pose proof (mapM_ok_length _ _ _ Hd) as Ld.
  unfold enumerate in Lu, Ld. rewrite enumerate_from_length in Lu, Ld.
  fold U in Lu. fold D in Ld.
  destruct j as [| j]; simpl in Hj.
  { injection Hj as <-. split; [lia |]. split; [reflexivity |].
    intros a Ha. left. split; [reflexivity |].
    simpl in Ha. destruct Ha as [<- | [<- | []]]; auto. }
  destruct (Nat.lt_ge_cases j U) as [Hlt | Hge].
  { rewrite nth_error_app1 in Hj by lia.
    destruct (mapM_enumerate_nth_error _ _ _ _ _ _ Hu Hj) as (_ & u & Hf).
    simpl in Hf. apply upsell_node_ok in Hf. destruct Hf as (name & ->).
    split; [lia |]. split.
    - unfold id_at. cbn [Nat.eqb].
      destruct (Nat.leb_spec (S j) U); [| lia].
      cbn. now replace (j + 1)%nat with (S j) by lia.
    - intros a Ha. right. left. split; [lia |].
      simpl in Ha. fold U in Ha.
      replace (j + 2)%nat with (S j + 1)%nat in Ha by lia.
      replace (j + 1)%nat with (S j) in Ha by lia.
      destruct Ha as [<- | [<- | []]].
      + destruct (Z.ltb_spec (Z.of_nat j) (Z.of_nat U - 1)).
        * left. split; [reflexivity | lia].
        * right. now left.
      + right. now right. }
  rewrite nth_error_app2 in Hj by lia. rewrite Lu in Hj.
  destruct (Nat.lt_ge_cases (j - U) D) as [Hlt | Hge'].
  { rewrite nth_error_app1 in Hj by lia.
    destruct (mapM_enumerate_nth_error _ _ _ _ _ _ Hd Hj) as (_ & d & Hf).
    simpl in Hf. apply downsell_node_ok in Hf. destruct Hf as (name & ->).
    split; [lia |]. split.
    - unfold id_at. cbn [Nat.eqb].
      destruct (Nat.leb_spec (S j) U); [lia |].
      destruct (Nat.leb_spec (S j) (U + D)); [| lia].
      cbn. now replace (j - U + 1)%nat with (S j - U)%nat by lia.
    - intros a Ha. right. right. left. split; [lia |].
      simpl in Ha. fold U in Ha.
      replace (j - U + 2)%nat with (S j - U + 1)%nat in Ha by lia.
      destruct (Z.ltb_spec (Z.of_nat (j - U)) (Z.of_nat U - 1)).
      + left. split; [| lia]. destruct Ha as [<- | [<- | []]]; reflexivity.
      + right. destruct Ha as [<- | [<- | []]]; reflexivity. }
  rewrite nth_error_app2 in Hj by lia. rewrite Ld in Hj.
  destruct (j - U - D)%nat as [| r] eqn:Hr; simpl in Hj;
    [| destruct r; discriminate].
  injection Hj as <-. split; [lia |]. split.
  - unfold id_at. cbn [Nat.eqb].
    destruct (Nat.leb_spec (S j) U); [lia |].
    destruct (Nat.leb_spec (S j) (U + D)); [lia |]. reflexivity.
  - intros a Ha. right. right. right. split; [lia |].
    simpl in Ha. destruct Ha as [<- | [<- | []]]; reflexivity.
Qed.

Lemma has_id_node_str x node s :
  node_str "id" node = Some s -> has_id x node = true -> x = s.
Proof.
  unfold has_id. intros ->. intros H. apply String.eqb_eq in H. now subst.
Qed.

Ltac rank_cases U D j :=
  unfold flow_rank, id_at in *;
  repeat match goal with
         | |- context [(?a =? ?b)%nat] => destruct (Nat.eqb_spec a b)
         | H : context [(?a =? ?b)%nat] |- _ => destruct (Nat.eqb_spec a b)
         | |- context [(?a <=? ?b)%nat] => destruct (Nat.leb_spec a b)
         | H : context [(?a <=? ?b)%nat] |- _ => destruct (Nat.leb_spec a b)
         end.

Lemma follows_ascends main_page upsells downsells flow k j :
  design_funnel_flow main_page upsells downsells = Ok flow ->
  follows flow k j ->
  (flow_rank (List.length upsells) (List.length downsells) k
   < flow_rank (List.length upsells) (List.length downsells) j)%nat.
Proof.
  intros H (node & target & a & x & Hk & Ha & Hx & Hj & Hid).
  destruct (flow_positions _ _ _ _ _ _ H Hk) as (Hkb & _ & Hact).
  destruct (flow_positions _ _ _ _ _ _ H Hj) as (Hjb & Hidj & _).
  apply (has_id_node_str _ _ _ Hidj) in Hid. clear Hidj Hk Hj H.
  set (U := List.length upsells) in *.
  set (D := List.length downsells) in *.
  specialize (Hact a Ha). clear Ha.
  destruct Hact as [(-> & [-> | ->])
                   | [(Hr & [(-> & Hlt) | [-> | ->]])
                     | [(Hr & [(-> & Hlt) | ->])
                       | (-> & ->)]]];
    simpl in Hx; try discriminate Hx; injection Hx as <-;
    rank_cases U D j; simpl in Hid; try discriminate Hid;
    try (injection Hid as Hid; apply str_of_nat_inj in Hid);
    lia.
Qed.

(** X11. The pages of a designed flow are ordered: [main], then
    [upsell_1], [downsell_1], [upsell_2], [downsell_2] and so on, then
    [thank_you]; every click that leads to a page of the flow leads to a
    later one.  So no sequence of clicks comes back to a page it left,
    whatever the numbers of upsells and downsells. *)
Theorem flow_has_no_cycle main_page upsells downsells flow k j :
  design_funnel_flow main_page upsells downsells = Ok flow ->
  clos_trans nat (follows flow) k j ->
  (flow_rank (List.length upsells) (List.length downsells) k
   < flow_rank (List.length upsells) (List.length downsells) j)%nat /\
  k <> j.
Proof.
  intros H Hpath.
  assert (Hrank : (flow_rank (List.length upsells) (List.length downsells) k
                   < flow_rank (List.length upsells) (List.length downsells) j)%nat).
  { induction Hpath as [k j Hstep | k m j _ IH1 _ IH2].
    - eapply follows_ascends; eassumption.
    - lia. }
  split; [exact Hrank |]. intros ->. lia.
Qed.

Lemma flow_has_no_cycle_witness :
  exists flow,
    design_funnel_flow (VDict []) [ VDict [] ] [ VDict [] ] = Ok flow /\
    clos_trans nat (follows flow) 0%nat 3%nat /\
    (flow_rank 1 1 0 < flow_rank 1 1 3)%nat.
Proof.
  destruct (design_funnel_flow (VDict []) [ VDict [] ] [ VDict [] ])
    as [flow | e] eqn:H; [| vm_compute in H; discriminate H].
  exists flow. split; [reflexivity |].
  assert (Hpath : clos_trans nat (follows flow) 0%nat 3%nat).
  { vm_compute in H. injection H as <-.
    apply t_trans with 1%nat; [| apply t_trans with 2%nat]; apply t_step.
    - do 2 eexists. exists "to_upsell_1", "upsell_1".
      repeat split; try reflexivity. simpl. now left.
    - do 2 eexists. exists "to_downsell_1", "downsell_1".
      repeat split; try reflexivity. simpl. right. now left.
    - do 2 eexists. exists "to_thank_you", "thank_you".
      repeat split; try reflexivity. simpl. now left. }
  split; [exact Hpath |].
  exact (proj1 (flow_has_no_cycle (VDict []) [ VDict [] ] [ VDict [] ] flow
                  0%nat 3%nat H Hpath)).
Defined.

(** ** Exporter: names of the entries *)

Lemma append_inv_head (a b c : string) : a ++ b = a ++ c -> b = c.
Proof.
  induction a as [| x a IH]; simpl; intros H; [exact H |].
  injection H as H. now apply IH.
Qed.

Lemma length_append (a b : string) :
  String.length (a ++ b) = (String.length a + String.length b)%nat.
Proof.
  induction a as [| x a IH]; simpl; [reflexivity | now rewrite IH].
Qed.

Lemma append_inv_tail (a b s : string) : a ++ s = b ++ s -> a = b.
Proof.
  revert b; induction a as [| x a IH]; intros [| y b] H; simpl in H.
  - reflexivity.
  - apply (f_equal String.length) in H. simpl in H.
    rewrite length_append in H. lia.
  - apply (f_equal String.length) in H. simpl in H.
    rewrite length_append in H. lia.
  - injection H as -> H. f_equal. now apply IH.
Qed.

Lemma numbered_names_NoDup (pre post : string) (k n : nat) :
  NoDup (map (fun i => pre ++ str_of_nat (i + 1) ++ post) (seq k n)).
Proof.
  apply NoDup_map_NoDup_ForallPairs; [| apply seq_NoDup].
  intros i j _ _ H.
  apply append_inv_head, append_inv_tail, str_of_nat_inj in H. lia.
Qed.

Lemma numbered_names_In (pre post : string) (k n : nat) (x : string) :
  In x (map (fun i => pre ++ str_of_nat (i + 1) ++ post) (seq k n)) ->
  exists s, x = pre ++ s.
Proof.
  intros H. apply in_map_iff in H. destruct H as (i & <- & _). eauto.
Qed.

Ltac split_in H :=
  repeat match type of H with
         | In _ (_ ++ _) => apply in_app_or in H; destruct H as [H | H]
         | In _ (_ :: _) => destruct H as [H | H]
         | In _ [] => destruct H
         end.

(** The names of the entries of an archive, group by group. *)
Lemma entry_names_of_export E p z :
  create_zip_export E p = Ok z ->
  exists fd lu ld ems,
    load (project_funnel_data p) = Ok fd /\
    items_of fd "upsells" = Ok (enumerate lu) /\
    items_of fd "downsells" = Ok (enumerate ld) /\
    entry_names z
    = ([ "index.html"; "style.css"; "funnel.js" ]
       ++ page_names "upsell" (List.length lu)
       ++ page_names "downsell" (List.length ld)
       ++ [ "thank_you.html" ] ++ ems ++ [ "README.txt" ])%list /\
    (ems = [] \/
     exists ne, ems = (email_names ne ++ [ "emails/README.txt" ])%list).
Proof.
  intros H. apply create_zip_export_ok in H.
  destruct H as (fd & es & main_html & js & upl & ups & downl & downs & ty
                 & emails & docs & Hfd & _ & _ & Hupl & Hups & Hdownl & Hdowns
                 & Hemails & ->).
  destruct (items_of_ok _ _ _ Hupl) as (lu & ->).
  destruct (items_of_ok _ _ _ Hdownl) as (ld & ->).
  apply page_entry_names in Hups. apply page_entry_names in Hdowns.
  exists fd, lu, ld, (map fst emails).
  split; [exact Hfd |]. split; [exact Hupl |]. split; [exact Hdownl |].
  split.
  - unfold entry_names, entry, page_names in *. cbn [snd].
    rewrite !map_app. cbn [map fst app]. rewrite Hups, Hdowns.
    reflexivity.
  - destruct (truthy es) eqn:Ht.
    + right. destruct (email_entries_ok _ _ _ Hemails Ht)
        as (v & items & d & _ & _ & ->).
      exists (List.length items).
      rewrite map_app. unfold enumerate, email_names.
      rewrite email_file_names. reflexivity.
    + left. unfold email_entries in Hemails. rewrite Ht in Hemails.
      injection Hemails as <-. reflexivity.
Qed.

(** X12. Whenever the export returns, no two entries of the archive have
    the same name, whatever the project stores: no page, email file or
    README replaces another. *)
Theorem archive_names_distinct E p z :
  create_zip_export E p = Ok z -> NoDup (entry_names z).
Proof.
  intros H. apply entry_names_of_export in H.
  destruct H as (fd & lu & ld & ems & _ & _ & _ & -> & Hems).
  set (U := page_names "upsell" (List.length lu)).
  set (D := page_names "downsell" (List.length ld)).
  assert (HU : forall x, In x U -> exists s, x = "upsell_" ++ s)
    by apply (numbered_names_In "upsell_" ".html").
  assert (HD : forall x, In x D -> exists s, x = "downsell_" ++ s)
    by apply (numbered_names_In "downsell_" ".html").
  assert (NU : NoDup U) by apply (numbered_names_NoDup "upsell_" ".html").
  assert (ND : NoDup D) by apply (numbered_names_NoDup "downsell_" ".html").
  assert (HE : forall x, In x ems -> exists s, x = "emails/" ++ s).
  { destruct Hems as [-> | (ne & ->)]; [intros x [] |].
    intros x Hx. apply in_app_or in Hx. destruct Hx as [Hx | [<- | []]].
    - apply (numbered_names_In "emails/email_" ".txt") in Hx.
      destruct Hx as (s & ->). now exists ("email_" ++ s).
    - now exists "README.txt". }
  assert (NE : NoDup ems).
  { destruct Hems as [-> | (ne & ->)]; [constructor |].
    apply NoDup_app.
    - apply (numbered_names_NoDup "emails/email_" ".txt").
    - repeat constructor. intros [].
    - intros x Hx [<- | []].
      apply (numbered_names_In "emails/email_" ".txt") in Hx.
      destruct Hx as (s & Hx). discriminate Hx. }
  clearbody U D. clear Hems.
  assert (Htail : NoDup ("thank_you.html" :: ems ++ [ "README.txt" ])%list).
  { constructor.
    - intros Hin. split_in Hin; try discriminate Hin.
      apply HE in Hin. destruct Hin as (s & Hin). discriminate Hin.
    - apply NoDup_app; [exact NE | repeat constructor; intros [] |].
      intros x Hx [<- | []]. apply HE in Hx. destruct Hx as (s & Hx).
      discriminate Hx. }
  assert (HT : forall x, In x ("thank_you.html" :: ems ++ [ "README.txt" ])%list ->
                x = "thank_you.html" \/ x = "README.txt" \/
                exists s, x = "emails/" ++ s).
  { intros x Hin. split_in Hin; auto. }
  assert (Hpages : NoDup (U ++ D ++ "thank_you.html" :: ems ++ [ "README.txt" ])%list).
  { apply NoDup_app; [exact NU | |].
    - apply NoDup_app; [exact ND | exact Htail |].
      intros x Hx Hin. apply HD in Hx. destruct Hx as (s & ->).
      apply HT in Hin. destruct Hin as [Hin | [Hin | (s' & Hin)]];
        discriminate Hin.
    - intros x Hx Hin. apply HU in Hx. destruct Hx as (s & ->).
      apply in_app_or in Hin. destruct Hin as [Hin | Hin].
      + apply HD in Hin. destruct Hin as (s' & Hin). discriminate Hin.
      + apply HT in Hin. destruct Hin as [Hin | [Hin | (s' & Hin)]];
          discriminate Hin. }
  assert (HP : forall x, In x (U ++ D ++ "thank_you.html" :: ems ++ [ "README.txt" ])%list ->
                (exists s, x = "upsell_" ++ s) \/
                (exists s, x = "downsell_" ++ s) \/
                x = "thank_you.html" \/ x = "README.txt" \/
                exists s, x = "emails/" ++ s).
  { intros x Hin. apply in_app_or in Hin. destruct Hin as [Hin | Hin];
      [auto |].
    apply in_app_or in Hin. destruct Hin as [Hin | Hin]; [auto |].
    apply HT in Hin. tauto. }
  cbn [app].
  repeat constructor; try exact Hpages;
    intros Hin; split_in Hin; try discriminate Hin;
    match goal with
    | Hx : In _ U |- _ => apply HU in Hx; destruct Hx as (s & Hx)
    | Hx : In _ D |- _ => apply HD in Hx; destruct Hx as (s & Hx)
    | Hx : In _ ems |- _ => apply HE in Hx; destruct Hx as (s & Hx)
    end; discriminate.
Qed.

Lemma archive_names_distinct_witness :
  exists z,
    create_zip_export offline acme_project = Ok z /\ NoDup (entry_names z).
Proof.
  destruct (create_zip_export offline acme_project) as [z | e] eqn:Hz;
    [| vm_compute in Hz; discriminate Hz].
  exists z. split; [reflexivity |].
  exact (archive_names_distinct offline acme_project z Hz).
Defined.

(** ** From the composer to the archive *)

Lemma generate_copy_is_dict E analysis customizations :
  is_dict (generate_copy E analysis customizations) = true.
Proof.
  pose proof (proj1 (generate_copy_cases E analysis customizations)) as H.
  destruct (generate_copy E analysis customizations); try discriminate H.
  reflexivity.
Qed.

Lemma offers_are_dicts E info kind (l : list nat) :
  forallb is_dict
    (map (fun i => generate_upsell E info kind (Z.of_nat i + 1)) l) = true.
Proof.
  apply forallb_forall. intros o Ho. apply in_map_iff in Ho.
  destruct Ho as (i & <- & _). apply generate_upsell_is_dict.
Qed.

(** The parts of a composed funnel. *)
Lemma composed_funnel_parts E analysis customizations U D funnel :
  generate_funnel E analysis customizations = Ok funnel ->
  dict_get customizations "num_upsells" (VInt 10) = Ok (VInt U) ->
  dict_get customizations "num_downsells" (VInt 10) = Ok (VInt D) ->
  exists upsells downsells flow,
    funnel = VDict [ ("main_page", generate_copy E analysis customizations);
                     ("upsells", VList upsells);
                     ("downsells", VList downsells);
                     ("funnel_flow", VList flow);
                     ("customizations", customizations);
                     ("base_analysis", analysis) ] /\
    is_dict customizations = true /\
    forallb is_dict upsells = true /\
    forallb is_dict downsells = true /\
    List.length upsells = Z.to_nat U /\
    List.length downsells = Z.to_nat D /\
    design_funnel_flow (generate_copy E analysis customizations)
      upsells downsells = Ok flow.
Proof.
  unfold generate_funnel. intros H HU HD.
  bind_as H product_type Hpt. bind_as H brand_name Hbn.
  rewrite HU in H. cbn [bind py_range] in H.
  rewrite HD in H. cbn [bind py_range] in H.
  bind_as H flow Hflow. injection H as <-.
  do 3 eexists. split; [reflexivity |].
  split; [destruct customizations; try discriminate; reflexivity |].
  split; [apply offers_are_dicts |]. split; [apply offers_are_dicts |].
  rewrite !length_map, !length_seq.
  split; [reflexivity |]. split; [reflexivity | exact Hflow].
Qed.

Lemma forallb_list_of_dicts l :
  forallb is_dict l = true -> list_of_dicts (VList l) = true.
Proof.
  intros H. exact H.
Qed.

(** X13. What the composer returns, the exporter takes.  A project that
    stores a funnel as [generate_funnel] returned it for [U] upsells and
    [D] downsells, and either no email sequence or the fixed fallback
    sequence, exports with or without a template directory: the archive
    holds the five fixed entries, [U] upsell pages and [D] downsell pages,
    and the three emails with their README when the sequence is stored. *)
Theorem composed_funnel_exports E E' analysis customizations U D funnel p :
  generate_funnel E analysis customizations = Ok funnel ->
  dict_get customizations "num_upsells" (VInt 10) = Ok (VInt U) ->
  dict_get customizations "num_downsells" (VInt 10) = Ok (VInt D) ->
  project_funnel_data p = Text funnel ->
  (project_email_sequence p = NoText \/
   exists e brand, project_email_sequence p = Text (email_fallback e brand)) ->
  exists z,
    create_zip_export E' p = Ok z /\
    entry_names z
    = ([ "index.html"; "style.css"; "funnel.js" ]
       ++ page_names "upsell" (Z.to_nat U)
       ++ page_names "downsell" (Z.to_nat D)
       ++ [ "thank_you.html" ]
       ++ match project_email_sequence p with
          | NoText => []
          | _ => [ "emails/email_1.txt"; "emails/email_2.txt";
                   "emails/email_3.txt"; "emails/README.txt" ]
          end
       ++ [ "README.txt" ])%list.
Proof.
  intros H HU HD Hfd Hes.
  destruct (composed_funnel_parts _ _ _ _ _ _ H HU HD)
    as (upsells & downsells & flow & -> & Hc & Hups & Hdowns & Lu & Ld & _).
  assert (Hcopy := generate_copy_is_dict E analysis customizations).
  assert (Hshape : export_shaped p = true).
  { unfold export_shaped. rewrite Hfd.
    apply andb_true_intro. split.
    - unfold funnel_shaped, key_ok. cbn [field assoc String.eqb Ascii.eqb
        Bool.eqb is_dict truthy andb list_of_dicts].
      rewrite Hcopy, Hups, Hdowns, Hc. reflexivity.
    - destruct Hes as [-> | (e & brand & ->)]; reflexivity. }
  destruct (export_shaped_names E' p Hshape) as (z & Hz & Hnames).
  exists z. split; [exact Hz |].
  rewrite Hnames. unfold archive_names. rewrite Hfd.
  cbn [records field assoc String.eqb Ascii.eqb Bool.eqb].
  rewrite Lu, Ld.
  destruct Hes as [-> | (e & brand & ->)]; reflexivity.
Qed.

Lemma composed_funnel_exports_witness :
  exists z,
    create_zip_export online
      {| project_id := 1;
         project_name := "Acme funnel";
         project_url := "https://example.com/offer";
         project_funnel_data :=
           blob_of (generate_funnel offline (VDict []) (customize 1 3));
         project_email_sequence := NoText |} = Ok z /\
    entry_names z
    = [ "index.html"; "style.css"; "funnel.js"; "upsell_1.html";
        "downsell_1.html"; "downsell_2.html"; "downsell_3.html";
        "thank_you.html"; "README.txt" ].
Proof.
  destruct (generate_funnel offline (VDict []) (customize 1 3))
    as [funnel | e] eqn:Hf; [| vm_compute in Hf; discriminate Hf].
  exact (composed_funnel_exports offline online (VDict []) (customize 1 3)
           1 3 funnel
           {| project_id := 1;
              project_name := "Acme funnel";
              project_url := "https://example.com/offer";
              project_funnel_data := Text funnel;
              project_email_sequence := NoText |}
           Hf eq_refl eq_refl eq_refl (or_introl eq_refl)).
Defined.

(** ** The script and the archive *)

Lemma substring_all (s : string) : substring 0 (String.length s) s = s.
Proof.
  induction s as [| c s IH]; simpl; [reflexivity | now rewrite IH].
Qed.

Lemma prefix_append (pat s : string) : prefix pat (pat ++ s) = true.
Proof.
  induction pat as [| c pat IH]; simpl; [destruct s; reflexivity |].
  destruct (ascii_dec c c) as [_ | Hne]; [exact IH | now destruct Hne].
Qed.

Lemma remove_first_prefix pat s :
  prefix pat s = true ->
  remove_first pat s
  = substring (String.length pat) (String.length s - String.length pat) s.
Proof.
  destruct s; simpl; intros ->; reflexivity.
Qed.

(** A [to_x] action makes the script navigate to [x.html]. *)
Lemma handleButtonClick_target a x :
  action_target a = Some x -> handleButtonClick a = Some (x ++ ".html").
Proof.
  unfold action_target. intros H.
  destruct a as [| c0 [| c1 [| c2 s]]]; try discriminate H;
    try (destruct c0 as [[] [] [] [] [] [] [] []]; discriminate H);
    try (destruct c0 as [[] [] [] [] [] [] [] []]; try discriminate H;
         destruct c1 as [[] [] [] [] [] [] [] []]; discriminate H).
  destruct c0 as [[] [] [] [] [] [] [] []]; try discriminate H;
    destruct c1 as [[] [] [] [] [] [] [] []]; try discriminate H;
    destruct c2 as [[] [] [] [] [] [] [] []]; try discriminate H.
  injection H as ->.
  unfold handleButtonClick.
  change ("to_" ++ x) with (String "t" (String "o" (String "_" x))).
  destruct (x =? "thank_you")%string eqn:Hx.
  - apply String.eqb_eq in Hx. subst x. reflexivity.
  - change (String "t" (String "o" (String "_" x)) =? "to_thank_you")%string
      with (x =? "thank_you")%string.
    rewrite Hx.
    change (String "t" (String "o" (String "_" x)) =? "exit")%string
      with false.
    rewrite remove_first_prefix by apply (prefix_append "to_" x).
    cbn [String.length Nat.sub]. rewrite Nat.sub_0_r. cbn [substring].
    now rewrite substring_all.
Qed.

Lemma page_names_In page_type n m :
  (1 <= m <= n)%nat ->
  In (page_type ++ "_" ++ str_of_nat m ++ ".html") (page_names page_type n).
Proof.
  intros Hm. unfold page_names. apply in_map_iff.
  exists (m - 1)%nat. split.
  - now replace (m - 1 + 1)%nat with m by lia.
  - apply in_seq. lia.
Qed.

Lemma enumerate_from_inj {A : Type} (k : nat) (l1 l2 : list A) :
  enumerate_from k l1 = enumerate_from k l2 -> l1 = l2.
Proof.
  revert k l2; induction l1 as [| a l1 IH]; intros k [| b l2] H;
    simpl in H; try discriminate; [reflexivity |].
  injection H as -> H. f_equal. eapply IH; eassumption.
Qed.

(** X14. No broken link in the exported funnel.  For a funnel composed
    with at least one upsell and at least as many downsells as upsells,
    stored in a project whose export returns, the script of [funnel.js]
    sends every action of every node of the flow to a page that is in the
    archive; the one action it does not navigate on is [exit]. *)
Theorem exported_flow_navigates
  E E' analysis customizations U D funnel p z node a :
  dict_get customizations "num_upsells" (VInt 10) = Ok (VInt U) ->
  dict_get customizations "num_downsells" (VInt 10) = Ok (VInt D) ->
  1 <= U <= D ->
  generate_funnel E analysis customizations = Ok funnel ->
  project_funnel_data p = Text funnel ->
  create_zip_export E' p = Ok z ->
  In node (flow_of funnel) -> In a (node_actions node) ->
  match handleButtonClick a with
  | Some page => In page (entry_names z)
  | None => a = "exit"
  end.
Proof.
  intros HU HD HUD H Hfd Hz Hnode Ha.
  destruct (composed_funnel_parts _ _ _ _ _ _ H HU HD)
    as (upsells & downsells & flow & -> & _ & _ & _ & Lu & Ld & Hflow).
  destruct (entry_names_of_export _ _ _ Hz)
    as (fd & lu & ld & ems & Hload & Hlu & Hld & -> & _).
  rewrite Hfd in Hload. injection Hload as <-.
  change (items_of _ "upsells") with (Ok (enumerate upsells)) in Hlu.
  change (items_of _ "downsells") with (Ok (enumerate downsells)) in Hld.
  injection Hlu as Hlu. apply enumerate_from_inj in Hlu. subst lu.
  injection Hld as Hld. apply enumerate_from_inj in Hld. subst ld.
  change (In node flow) in Hnode.
  apply In_nth_error in Hnode. destruct Hnode as (j & Hj).
  destruct (flow_positions _ _ _ _ _ _ Hflow Hj) as (_ & _ & Hact).
  specialize (Hact a Ha). rewrite Lu, Ld in *.
  assert (Hup : forall m, (1 <= m <= Z.to_nat U)%nat ->
            In ("upsell_" ++ str_of_nat m ++ ".html")
               ([ "index.html"; "style.css"; "funnel.js" ]
                ++ page_names "upsell" (Z.to_nat U)
                ++ page_names "downsell" (Z.to_nat D)
                ++ [ "thank_you.html" ] ++ ems ++ [ "README.txt" ])%list).
  { intros m Hm. apply in_or_app. right. apply in_or_app. left.
    apply (page_names_In "upsell"). exact Hm. }
  assert (Hdown : forall m, (1 <= m <= Z.to_nat D)%nat ->
            In ("downsell_" ++ str_of_nat m ++ ".html")
               ([ "index.html"; "style.css"; "funnel.js" ]
                ++ page_names "upsell" (Z.to_nat U)
                ++ page_names "downsell" (Z.to_nat D)
                ++ [ "thank_you.html" ] ++ ems ++ [ "README.txt" ])%list).
  { intros m Hm. apply in_or_app. right. apply in_or_app. right.
    apply in_or_app. left. apply (page_names_In "downsell"). exact Hm. }
  assert (Hty : In "thank_you.html"
               ([ "index.html"; "style.css"; "funnel.js" ]
                ++ page_names "upsell" (Z.to_nat U)
                ++ page_names "downsell" (Z.to_nat D)
                ++ [ "thank_you.html" ] ++ ems ++ [ "README.txt" ])%list).
  { apply in_or_app. right. apply in_or_app. right.
    apply in_or_app. right. now left. }
  destruct Hact as [(-> & [-> | ->])
                   | [(Hr & [(-> & Hlt) | [-> | ->]])
                     | [(Hr & [(-> & Hlt) | ->])
                       | (-> & ->)]]];
    try reflexivity; try exact Hty.
  - apply (Hup 1%nat). lia.
  - rewrite (handleButtonClick_target ("to_upsell_" ++ str_of_nat (j + 1))
               ("upsell_" ++ str_of_nat (j + 1)) eq_refl).
    rewrite append_assoc. apply Hup. lia.
  - rewrite (handleButtonClick_target ("to_downsell_" ++ str_of_nat j)
               ("downsell_" ++ str_of_nat j) eq_refl).
    rewrite append_assoc. apply Hdown. lia.
  - rewrite (handleButtonClick_target
               ("to_upsell_" ++ str_of_nat (j - Z.to_nat U + 1))
               ("upsell_" ++ str_of_nat (j - Z.to_nat U + 1)) eq_refl).
    rewrite append_assoc. apply Hup. lia.
Qed.

Lemma exported_flow_navigates_witness :
  exists funnel z,
    generate_funnel offline acme_analysis (customize 2 2) = Ok funnel /\
    create_zip_export online acme_project = Ok z /\
    In main_node (flow_of funnel) /\
    In "to_upsell_1" (node_actions main_node) /\
    In "upsell_1.html" (entry_names z).
Proof.
  destruct (generate_funnel offline acme_analysis (customize 2 2))
    as [funnel | e] eqn:Hf; [| vm_compute in Hf; discriminate Hf].
  destruct (create_zip_export online acme_project) as [z | e] eqn:Hz;
    [| vm_compute in Hz; discriminate Hz].
  assert (Hmain : In main_node (flow_of funnel)).
  { vm_compute in Hf. injection Hf as <-. now left. }
  assert (Hact : In "to_upsell_1" (node_actions main_node)) by now left.
  exists funnel, z. split; [reflexivity |]. split; [reflexivity |].
  split; [exact Hmain |]. split; [exact Hact |].
  apply (exported_flow_navigates offline online acme_analysis (customize 2 2)
           2 2 funnel acme_project z main_node "to_upsell_1"
           eq_refl eq_refl ltac:(lia) Hf).
  - unfold acme_project, acme_funnel. cbn [project_funnel_data].
    rewrite Hf. reflexivity.
  - exact Hz.
  - exact Hmain.
  - exact Hact.
Defined.

(** ** Flow graph: when it is closed *)

Lemma declared_id_at main_page upsells downsells flow x :
  design_funnel_flow main_page upsells downsells = Ok flow ->
  declared flow x = true ->
  exists j,
    (j <= List.length upsells + List.length downsells + 1)%nat /\
    x = id_at (List.length upsells) (List.length downsells) j.
Proof.
  intros H Hx. unfold declared in Hx. apply existsb_exists in Hx.
  destruct Hx as (node & Hin & Hid).
  apply In_nth_error in Hin. destruct Hin as (j & Hj).
  destruct (flow_positions _ _ _ _ _ _ H Hj) as (Hb & Hidj & _).
  exists j. split; [exact Hb |].
  exact (has_id_node_str _ _ _ Hidj Hid).
Qed.

Lemma dangling_In flow node a x :
  In node flow -> In a (node_actions node) -> action_target a = Some x ->
  declared flow x = false -> In x (dangling flow).
Proof.
  intros Hnode Ha Hx Hd. unfold dangling. apply filter_In. split.
  - apply in_flat_map. exists a. split.
    + apply in_flat_map. eauto.
    + rewrite Hx. now left.
  - now rewrite Hd.
Qed.

Lemma flow_not_closed main_page upsells downsells flow :
  design_funnel_flow main_page upsells downsells = Ok flow ->
  ~ (1 <= List.length upsells <= List.length downsells)%nat ->
  exists x, In x (dangling flow).
Proof.
  intros H Hn.
  set (U := List.length upsells) in *.
  set (D := List.length downsells) in *.
  destruct (Nat.eq_dec U 0) as [HU | HU].
  - exists "upsell_1".
    pose proof (design_funnel_flow_ok _ _ _ _ H) as (ups & downs & _ & _ & Hf).
    apply (dangling_In flow main_node "to_upsell_1").
    + rewrite Hf. now left.
    + simpl. now left.
    + reflexivity.
    + destruct (declared flow "upsell_1") eqn:Hd; [| reflexivity].
      destruct (declared_id_at _ _ _ _ _ H Hd) as (j & Hj & Hid).
      fold U D in Hj, Hid. exfalso.
      rank_cases U D j; simpl in Hid; try discriminate Hid; lia.
  - assert (HD : (D < U)%nat) by lia.
    pose proof (design_funnel_flow_ok _ _ _ _ H) as (ups & downs & Hu & _ & Hf).
    destruct (mapM_enumerate_nth _ _ _ _ D Hu HD) as (u & node & Hin & Hnode).
    simpl in Hnode. apply upsell_node_ok in Hnode.
    destruct Hnode as (name & ->).
    exists ("downsell_" ++ str_of_nat (D + 1)).
    eapply dangling_In.
    + rewrite Hf. right. apply in_or_app. left. exact Hin.
    + simpl. right. left. reflexivity.
    + reflexivity.
    + match goal with |- ?d = false => destruct d eqn:Hd end;
        [| reflexivity].
      destruct (declared_id_at _ _ _ _ _ H Hd) as (j & Hj & Hid).
      fold U D in Hj, Hid. exfalso.
      rank_cases U D j; simpl in Hid; try discriminate Hid.
      injection Hid as Hid. apply str_of_nat_inj in Hid. lia.
Qed.

(** X15. A designed flow is closed exactly when there is at least one
    upsell and at least as many downsells as upsells.  Otherwise some
    action names a page the flow does not have: [to_upsell_1] of the main
    page when there is no upsell, [to_downsell_(D+1)] of an upsell when
    the upsells outnumber the [D] downsells. *)
Theorem flow_closed_iff main_page upsells downsells flow :
  design_funnel_flow main_page upsells downsells = Ok flow ->
  (dangling flow = [] <->
   (1 <= List.length upsells <= List.length downsells)%nat).
Proof.
  intros H. split.
  - intros Hd.
    destruct (Nat.le_gt_cases 1 (List.length upsells)) as [H1 | H1];
      [destruct (Nat.le_gt_cases (List.length upsells)
                   (List.length downsells)) as [H2 | H2] |];
      [lia | |];
      (destruct (flow_not_closed _ _ _ _ H) as (x & Hx); [lia |];
       rewrite Hd in Hx; destruct Hx).
  - intros Hlen. apply dangling_nil.
    exact (design_funnel_flow_closed _ _ _ _ H Hlen).
Qed.

Lemma flow_closed_iff_witness :
  exists flow1 flow2,
    design_funnel_flow (VDict []) [ VDict [] ] [ VDict []; VDict [] ]
    = Ok flow1 /\
    dangling flow1 = [] /\
    design_funnel_flow (VDict []) [ VDict []; VDict [] ] [ VDict [] ]
    = Ok flow2 /\
    dangling flow2 <> [].
Proof.
  destruct (design_funnel_flow (VDict []) [ VDict [] ] [ VDict []; VDict [] ])
    as [flow1 | e] eqn:H1; [| vm_compute in H1; discriminate H1].
  destruct (design_funnel_flow (VDict []) [ VDict []; VDict [] ] [ VDict [] ])
    as [flow2 | e] eqn:H2; [| vm_compute in H2; discriminate H2].
  exists flow1, flow2.
  split; [reflexivity |].
  split; [apply (flow_closed_iff _ _ _ _ H1); simpl; lia |].
  split; [reflexivity |].
  intros Hd. apply (flow_closed_iff _ _ _ _ H2) in Hd. simpl in Hd. lia.
Defined.

(** X16. The ids of a designed flow are pairwise distinct: two positions
    of the flow whose nodes have the same id are the same position. *)
Theorem flow_ids_distinct main_page upsells downsells flow j k node1 node2 x :
  design_funnel_flow main_page upsells downsells = Ok flow ->
  nth_error flow j = Some node1 ->
  nth_error flow k = Some node2 ->
  has_id x node1 = true -> has_id x node2 = true ->
  j = k.
Proof.
  intros H Hj Hk H1 H2.
  destruct (flow_positions _ _ _ _ _ _ H Hj) as (Hjb & Hidj & _).
  destruct (flow_positions _ _ _ _ _ _ H Hk) as (Hkb & Hidk & _).
  apply (has_id_node_str _ _ _ Hidj) in H1.
  apply (has_id_node_str _ _ _ Hidk) in H2.
  rewrite H1 in H2. clear H1 Hidj Hidk Hj Hk H.
  set (U := List.length upsells) in *.
  set (D := List.length downsells) in *.
  rank_cases U D j; simpl in H2; try discriminate H2;
    try (injection H2 as H2; apply str_of_nat_inj in H2); lia.
Qed.

Lemma flow_ids_distinct_witness :
  exists flow node2,
    design_funnel_flow (VDict []) [ VDict [] ] [ VDict [] ] = Ok flow /\
    nth_error flow 2 = Some node2 /\
    has_id "downsell_1" node2 = true /\
    forall j node,
      nth_error flow j = Some node -> has_id "downsell_1" node = true ->
      j = 2%nat.
Proof.
  destruct (design_funnel_flow (VDict []) [ VDict [] ] [ VDict [] ])
    as [flow | e] eqn:H; [| vm_compute in H; discriminate H].
  assert (H2 : exists node2,
            nth_error flow 2 = Some node2 /\ has_id "downsell_1" node2 = true).
  { vm_compute in H. injection H as <-. eexists. split; reflexivity. }
  destruct H2 as (node2 & Hn2 & Hid2).
  exists flow, node2. split; [reflexivity |].
  split; [exact Hn2 |]. split; [exact Hid2 |].
  intros j node Hj Hid.
  exact (flow_ids_distinct _ _ _ _ j 2%nat node node2 "downsell_1"
           H Hj Hn2 Hid Hid2).
Defined.

(** ** Email generator: what the request depends on *)

Lemma mapM_ext {A B : Type} (f g : A -> res B) (l : list A) :
  (forall a, f a = g a) -> mapM f l = mapM g l.
Proof.
  intros H. induction l as [| a l IH]; simpl; [reflexivity |].
  now rewrite H, IH.
Qed.

Lemma upsell_section_ext E1 E2 upsells :
  (forall v, py_repr E1 v = py_repr E2 v) ->
  upsell_section E1 upsells = upsell_section E2 upsells.
Proof.
  intros Hr. unfold upsell_section.
  destruct (truthy upsells); [| reflexivity].
  destruct (slice_to 3 upsells) as [first3 | e]; cbn [bind]; [| reflexivity].
  rewrite (mapM_ext (upsell_description E1) (upsell_description E2));
    [reflexivity |].
  intros [i u]. unfold upsell_description.
  destruct (dict_get u "product_name" (VStr ("Upsell " ++ str_of_nat (i + 1))))
    as [pn | e]; cbn [bind]; [| reflexivity].
  destruct (dict_get u "description" (VStr "")) as [d | e]; cbn [bind];
    [| reflexivity].
  now rewrite (py_str_ext E1 E2 pn Hr), (py_str_ext E1 E2 d Hr).
Qed.

(** The prompt is built from the arguments and Python's text rendering
    only. *)
Lemma build_prompt_ext E1 E2 main_page upsells customizations params :
  (forall v, py_repr E1 v = py_repr E2 v) ->
  build_prompt E1 main_page upsells customizations params
  = build_prompt E2 main_page upsells customizations params.
Proof.
  intros Hr. unfold build_prompt.
  destruct (dict_get params "num_emails" (VInt 10)) as [n | e];
    cbn [bind]; [| reflexivity].
  destruct (min_20 n) as [num | e]; cbn [bind]; [| reflexivity].
  destruct (dict_get params "sequence_type" (VStr "sales")) as [st | e];
    cbn [bind]; [| reflexivity].
  destruct (dict_get params "email_style" (VStr "conversational"))
    as [es | e]; cbn [bind]; [| reflexivity].
  destruct (dict_get customizations "brand_name" (VStr "Our Product"))
    as [bn | e]; cbn [bind]; [| reflexivity].
  destruct (dict_get main_page "headline" (VStr "Our Amazing Product"))
    as [h | e]; cbn [bind]; [| reflexivity].
  destruct (dict_get main_page "benefits" (VList [])) as [b | e];
    cbn [bind]; [| reflexivity].
  destruct (match match b with
                  | VDict d => VList (map snd d)
                  | _ => b
                  end with
            | VList l => join ", " (firstn 5 l)
            | _ => Ok ""
            end) as [joined | e]; cbn [bind]; [| reflexivity].
  rewrite (upsell_section_ext E1 E2 upsells Hr).
  now rewrite (py_str_ext E1 E2 bn Hr), (py_str_ext E1 E2 h Hr),
    (py_str_ext E1 E2 st Hr), (py_str_ext E1 E2 es Hr),
    (py_str_ext E1 E2 num Hr).
Qed.

Lemma build_prompt_prefix E m1 m2 u1 u2 c params b1 b2 :
  dict_get m1 "headline" (VStr "Our Amazing Product")
  = dict_get m2 "headline" (VStr "Our Amazing Product") ->
  dict_get m1 "benefits" (VList []) = Ok (VList b1) ->
  dict_get m2 "benefits" (VList []) = Ok (VList b2) ->
  firstn 5 b1 = firstn 5 b2 ->
  firstn 3 u1 = firstn 3 u2 ->
  build_prompt E m1 (VList u1) c params = build_prompt E m2 (VList u2) c params.
Proof.
  intros Hh Hb1 Hb2 Hb Hu. unfold build_prompt.
  destruct (dict_get params "num_emails" (VInt 10)) as [n | e];
    cbn [bind]; [| reflexivity].
  destruct (min_20 n) as [num | e]; cbn [bind]; [| reflexivity].
  destruct (dict_get params "sequence_type" (VStr "sales")) as [st | e];
    cbn [bind]; [| reflexivity].
  destruct (dict_get params "email_style" (VStr "conversational"))
    as [es | e]; cbn [bind]; [| reflexivity].
  destruct (dict_get c "brand_name" (VStr "Our Product")) as [bn | e];
    cbn [bind]; [| reflexivity].
  rewrite Hh.
  destruct (dict_get m2 "headline" (VStr "Our Amazing Product")) as [h | e];
    cbn [bind]; [| reflexivity].
  rewrite Hb1, Hb2. cbn [bind]. rewrite Hb.
  destruct (join ", " (firstn 5 b2)) as [joined | e]; cbn [bind];
    [| reflexivity].
  assert (Hsec : upsell_section E (VList u1) = upsell_section E (VList u2)).
  { unfold upsell_section. cbn [slice_to bind]. rewrite Hu.
    destruct u1, u2; try discriminate Hu; reflexivity. }
  now rewrite Hsec.
Qed.

Lemma build_prompt_capped E main_page upsells customizations n rest :
  20 <= n ->
  build_prompt E main_page upsells customizations
    (VDict (("num_emails", VInt n) :: rest))
  = build_prompt E main_page upsells customizations
      (VDict (("num_emails", VInt 20) :: rest)).
Proof.
  intros Hn. unfold build_prompt.
  change (dict_get (VDict (("num_emails", VInt n) :: rest)) "num_emails"
            (VInt 10)) with (Ok (VInt n)).
  change (dict_get (VDict (("num_emails", VInt 20) :: rest)) "num_emails"
            (VInt 10)) with (Ok (VInt 20)).
  cbn [bind min_20].
  replace (if 20 <? n then 20 else n) with 20
    by (destruct (Z.ltb_spec 20 n); lia).
  reflexivity.
Qed.

(** Two calls that send the same request and get the same answer return
    the same sequence; two calls stopped by the same fault before the
    request return the same fallback. *)
Lemma emails_by_request E1 E2 fd1 fd2 p1 p2 m1 m2 u1 u2 c :
  read_funnel fd1 = Ok (m1, u1, c) ->
  read_funnel fd2 = Ok (m2, u2, c) ->
  build_prompt E1 m1 u1 c (or_empty p1) = build_prompt E2 m2 u2 c (or_empty p2) ->
  (forall brand prompt,
     build_prompt E1 m1 u1 c (or_empty p1) = Ok (brand, prompt) ->
     chat E1 system_prompt prompt = chat E2 system_prompt prompt) ->
  generate_email_sequence E1 fd1 p1 = generate_email_sequence E2 fd2 p2.
Proof.
  intros Hr1 Hr2 Hb Hchat. unfold generate_email_sequence.
  rewrite Hr1, Hr2, <- Hb.
  destruct (build_prompt E1 m1 u1 c (or_empty p1)) as [[brand prompt] | e];
    cbn [bind fst snd]; [| reflexivity].
  unfold request. now rewrite (Hchat brand prompt eq_refl).
Qed.

(** X17. What the email generator reads of a funnel.  For two funnels with
    the same customizations, the same headline, the same first five
    benefits and the same first three upsells, two calls send the same
    request to the service, or stop on the same fault before it: the
    downsells, the flow, the analysis, the rest of the copy and every
    later benefit or upsell never reach the prompt.  The service samples
    its answer, so the two results agree when the two answers do. *)
Theorem emails_read_a_prefix E1 E2 fd1 fd2 params m1 m2 b1 b2 u1 u2 c :
  (forall v, py_repr E1 v = py_repr E2 v) ->
  read_funnel fd1 = Ok (m1, VList u1, c) ->
  read_funnel fd2 = Ok (m2, VList u2, c) ->
  dict_get m1 "headline" (VStr "Our Amazing Product")
  = dict_get m2 "headline" (VStr "Our Amazing Product") ->
  dict_get m1 "benefits" (VList []) = Ok (VList b1) ->
  dict_get m2 "benefits" (VList []) = Ok (VList b2) ->
  firstn 5 b1 = firstn 5 b2 ->
  firstn 3 u1 = firstn 3 u2 ->
  email_prompt E1 fd1 params = email_prompt E2 fd2 params /\
  ((forall brand prompt,
      email_prompt E1 fd1 params = Ok (brand, prompt) ->
      chat E1 system_prompt prompt = chat E2 system_prompt prompt) ->
   generate_email_sequence E1 fd1 params
   = generate_email_sequence E2 fd2 params).
Proof.
  intros Hrepr Hr1 Hr2 Hh Hb1 Hb2 Hb Hu.
  assert (Hp : build_prompt E1 m1 (VList u1) c (or_empty params)
               = build_prompt E2 m2 (VList u2) c (or_empty params)).
  { rewrite (build_prompt_ext E1 E2 _ _ _ _ Hrepr).
    exact (build_prompt_prefix E2 m1 m2 u1 u2 c (or_empty params) b1 b2
             Hh Hb1 Hb2 Hb Hu). }
  unfold email_prompt. rewrite Hr1, Hr2. cbn [bind].
  split; [exact Hp |].
  intros Hchat. exact (emails_by_request _ _ _ _ _ _ _ _ _ _ _ Hr1 Hr2 Hp Hchat).
Qed.

Lemma emails_read_a_prefix_witness :
  email_prompt online plain_funnel VNone
  = email_prompt offline
      (VDict [ ("main_page",
                VDict [ ("headline", VStr "Introducing Acme");
                        ("benefits", VList [ VStr "Save time" ]);
                        ("guarantee", VStr "30 days") ]);
               ("downsells", VList [ VDict [] ]);
               ("customizations", VDict [ ("brand_name", VStr "Acme") ]) ])
      VNone /\
  generate_email_sequence online plain_funnel VNone
  = generate_email_sequence online
      (VDict [ ("main_page",
                VDict [ ("headline", VStr "Introducing Acme");
                        ("benefits", VList [ VStr "Save time" ]);
                        ("guarantee", VStr "30 days") ]);
               ("downsells", VList [ VDict [] ]);
               ("customizations", VDict [ ("brand_name", VStr "Acme") ]) ])
      VNone.
Proof.
  split.
  - exact (proj1 (emails_read_a_prefix online offline plain_funnel
             (VDict [ ("main_page",
                       VDict [ ("headline", VStr "Introducing Acme");
                               ("benefits", VList [ VStr "Save time" ]);
                               ("guarantee", VStr "30 days") ]);
                      ("downsells", VList [ VDict [] ]);
                      ("customizations",
                       VDict [ ("brand_name", VStr "Acme") ]) ])
             VNone
             (VDict [ ("headline", VStr "Introducing Acme");
                      ("benefits", VList [ VStr "Save time" ]) ])
             (VDict [ ("headline", VStr "Introducing Acme");
                      ("benefits", VList [ VStr "Save time" ]);
                      ("guarantee", VStr "30 days") ])
             [ VStr "Save time" ] [ VStr "Save time" ] [] []
             (VDict [ ("brand_name", VStr "Acme") ])
             (fun _ => eq_refl)
             eq_refl eq_refl eq_refl eq_refl eq_refl eq_refl eq_refl)).
  - exact (proj2 (emails_read_a_prefix online online plain_funnel
             (VDict [ ("main_page",
                       VDict [ ("headline", VStr "Introducing Acme");
                               ("benefits", VList [ VStr "Save time" ]);
                               ("guarantee", VStr "30 days") ]);
                      ("downsells", VList [ VDict [] ]);
                      ("customizations",
                       VDict [ ("brand_name", VStr "Acme") ]) ])
             VNone
             (VDict [ ("headline", VStr "Introducing Acme");
                      ("benefits", VList [ VStr "Save time" ]) ])
             (VDict [ ("headline", VStr "Introducing Acme");
                      ("benefits", VList [ VStr "Save time" ]);
                      ("guarantee", VStr "30 days") ])
             [ VStr "Save time" ] [ VStr "Save time" ] [] []
             (VDict [ ("brand_name", VStr "Acme") ])
             (fun _ => eq_refl)
             eq_refl eq_refl eq_refl eq_refl eq_refl eq_refl eq_refl)
             (fun _ _ _ => eq_refl)).
Defined.

(** X18. The number of emails asked for is capped at twenty: a call that
    asks for twenty emails or more sends the request of a call that asks
    for twenty, whatever the other parameters.  The service samples its
    answer, so the two results agree when the two answers do. *)
Theorem num_emails_capped E1 E2 funnel_data n rest :
  (forall v, py_repr E1 v = py_repr E2 v) ->
  20 <= n ->
  email_prompt E1 funnel_data (VDict (("num_emails", VInt n) :: rest))
  = email_prompt E2 funnel_data (VDict (("num_emails", VInt 20) :: rest)) /\
  ((forall brand prompt,
      email_prompt E1 funnel_data (VDict (("num_emails", VInt n) :: rest))
      = Ok (brand, prompt) ->
      chat E1 system_prompt prompt = chat E2 system_prompt prompt) ->
   generate_email_sequence E1 funnel_data
     (VDict (("num_emails", VInt n) :: rest))
   = generate_email_sequence E2 funnel_data
       (VDict (("num_emails", VInt 20) :: rest))).
Proof.
  intros Hrepr Hn. unfold email_prompt.
  destruct (read_funnel funnel_data) as [[[m u] c] | e] eqn:Hr;
    cbn [bind].
  - assert (Hp : build_prompt E1 m u c
                   (or_empty (VDict (("num_emails", VInt n) :: rest)))
                 = build_prompt E2 m u c
                     (or_empty (VDict (("num_emails", VInt 20) :: rest)))).
    { cbn [or_empty]. rewrite (build_prompt_ext E1 E2 _ _ _ _ Hrepr).
      now apply build_prompt_capped. }
    split; [exact Hp |].
    intros Hchat.
    exact (emails_by_request _ _ _ _ _ _ _ _ _ _ _ Hr Hr Hp Hchat).
  - split; [reflexivity |]. intros _.
    unfold generate_email_sequence. now rewrite Hr.
Qed.

Lemma num_emails_capped_witness :
  email_prompt online plain_funnel
    (VDict [ ("num_emails", VInt 50); ("email_style", VStr "formal") ])
  = email_prompt offline plain_funnel
      (VDict [ ("num_emails", VInt 20); ("email_style", VStr "formal") ]).
Proof.
  exact (proj1 (num_emails_capped online offline plain_funnel 50
                  [ ("email_style", VStr "formal") ]
                  (fun _ => eq_refl) ltac:(lia))).
Defined.
